(* ===== verification/_CoqProject ===== *)
-Q . S2P
Prelude.v
Model.v
Gate.v
Session.v
Display.v
Signup.v
Message.v
Items.v
HomePage.v
Links.v
Claims.v
Report.v
AdminDashboard.v
Profile.v
