(* ===== verification/Prelude.v ===== *)
(** * Wildcats Finder: a verification development of the lost-and-found client

    This library models the browser client of the Wildcats Finder
    lost-and-found application (src/frontend/src, a React program) and
    proves the properties its session, authorization, item and claim
    logic rely on.  Everything that is logic rather than markup is
    translated; JSX layout, CSS and sounds are not.

    ** The program and how its parts interact

    - Session store ([context/UserContext.js], with the session handlers of
      [pages/Login/Login.js], [pages/Profile/Profile.js] and
      [pages/Index/Index.js]): the in-memory identity [user], the [loading]
      flag and the browser's [localStorage] keys "user", "token" and
      "isAuthenticated".  On mount [fetchUser] restores the cached
      identity and, if a token is stored, asks [/api/users/current]; a
      second effect mirrors [user] into storage after every change.
    - Authorization gate ([components/ProtectedRoute.js]) and the view
      router ([App.js], [AppContent]): the gate maps the current identity
      and the route's [requireAdmin] flag to "render", "redirect to
      /login" or "redirect to /home"; the router shows a loading screen
      while the session resolves, picks the route element and the sidebar.
    - Registration ([pages/Signup/Signup.js]): the form and the role the
      client chooses for the new account, which login later returns and
      the gate reads.
    - Items and claims: Home's filters, statistics and matching
      assistant ([pages/Home/Home.js]), the report / edit / delete page
      ([pages/ReportItem/ReportItem.js]), the claims page
      ([pages/Claim/Claim.js]), the admin dashboard
      ([pages/AdminDashboard/AdminDashboard.js]) and the profile page
      ([pages/Profile/Profile.js]).  Each talks to the REST API of the
      design (section 6); answers are inputs of the model.
    - Transient message ([components/message/message.js]): the
      notification that Login, Signup and ReportItem show for their
      errors and successes; the parent owns the text and clears it
      through [onClose], which the component calls from its timers.
    - Identity display: the name, initials, e-mail and role helpers that
      Profile, [components/sidebar/Sidebar.js] and
      [components/sidebar/AdminSidebar.js] each define, the sidebars'
      collapse toggles and identity panels.
    - Navigation: the links, [navigate] calls and redirects of the
      sidebars and pages, which lead into the router.

    The gate reads the session only through the [SessionView] interface
    of [Gate.v] (the current identity and the loading flag); [Session.v]
    provides the instance, so the router's theorems are proved once
    against the interface and apply to the session model.  [Signup.v]
    composes registration, [Session.handle_login] and the router.

    ** Files (in dependency order)

    - [Prelude.v] (this file): the JavaScript string and truthiness
      primitives the code uses ([toLowerCase], [toUpperCase], [includes],
      [trim], [charAt(0)], [slice(1)], [split], [===] on strings), with
      their specifications, the [wf] hint database and the shared tactics.
    - [Model.v]: the JSON records the client receives (user, item,
      claim) with the source's field names, the status literals, and the
      JSON value of a list answer ([json_list]: array, [null], other).
    - [Gate.v]: [ProtectedRoute], the route table and [AppContent]
      (Section [Router], over any [SessionView]), the dashboard's own
      guard and the user sidebar's links; the abstract gate of the
      design and the refinement theorem that the code implements it.
    - [Session.v]: [UserContext] as explicit state passing over a
      [gmap string stored] model of [localStorage]; one definition per
      handler ([fetchUser] split at its await into [fetch_user_begin]
      and [fetch_user_end], [login], [logout], [updateUser],
      [Login.handleLogin], [Profile.handleLogout], the Index effect); an
      event type, a [step] function and the [reachable] relation.
    - [Display.v]: [getFullName], [getUserInitials], [getDisplayEmail] /
      [getDisplayUsername] and [getDisplayRole] of Profile and both
      sidebars, both sidebars' collapse toggles (which share a class of
      [document.body]), Sidebar's sub-menu toggle and the identity panels.
    - [Message.v]: the message component as a timed state machine:
      explicit time [now], the hide timer of its effect and the pending
      [onClose] timers, events for the parent's text, its re-renders,
      the close button, time passing ([Wait]) and the next timer
      ([Fire]); the [msg_reachable] relation and the timer invariant.
    - [Signup.v]: the sign-up form's constraint check (the browser's
      e-mail check is a Section variable), [handleSignup], and the
      register/login contract of the design ([registered_user]).
    - [Items.v]: Home's [filteredItems] and statistics effect, the admin
      dashboard's filters and status buttons, Profile's active reports.
    - [HomePage.v]: Home's mount effects ([fetchAllItems], [fetchStats])
      with both answers as inputs, [getStatusInfo], [getFirstName], the
      matching assistant [startAISearch] (each pending call with the list
      it captured, resumed oldest first), its panel, bubble and
      click-outside listener, and the page's view: greeting, statistics
      cards, search box and filter buttons, the items grid and its cards.
    - [Links.v]: every navigation target of the client (both sidebars,
      Navbar, Login, Signup, Index, the guards and redirects, Home), with
      the conditions under which Sidebar.js renders its links, checked
      against the route table; Navbar's active link; Contact's form.
    - [Claims.v]: [handleMineButtonClick], Claim.js's [fetchClaimsData]
      with the JSON its two list requests answer, its effect, tabs and
      render (with the exceptions it throws), [handleApprove] /
      [handleReject], the admin's decision buttons and endpoint.
    - [Report.v]: ReportItem.js: the panel effect, [fetchData],
      [handleChange], [handleSubmit] with its validation and payload,
      [refreshUserItems], [fetchReportedItems], [handleDelete],
      [handleEditClick], [handleEditChange], [handleUpdateSubmit],
      [handleCancelEdit], the [required] checks of the report form, and
      the three panels with the list's view and edit rows.
    - [AdminDashboard.v]: the dashboard as a state machine whose requests
      in flight settle in any order ([settle]); its render with the
      exceptions it can throw, the status badges and icons and the item
      details modal; the [dash_reachable] relation.
    - [Profile.v]: the reports effect and the render of the profile page.

    ** What the theorems show

    - Gate: the code's decision equals the design's three-way decision on
      every input; /admin renders only to admins (case-insensitive).
    - Session: memory and storage agree on the identity and [loading]
      holds exactly while the identity check is in flight, in every
      reachable state (rule induction on [reachable]); no route
      redirects while it is in flight; a reload restores the identity;
      a network error keeps the cached identity; an explicit rejection
      clears identity and token together; the loading phase always ends;
      login stores the pair; Profile's logout clears all three keys.
    - Admin dashboard: in every reachable state the spinner is up only
      while a list fetch is in flight and the filter belongs to the tab;
      the requests in flight always settle (the settle relation is well
      founded) and can all be drained, after which the spinner is gone.
    - Items and claims: the Home filters return exactly the matching
      items in order; search is a case-insensitive substring test;
      statistics add up and are bounded; the admin's status changes reach
      only CLAIMED and RETURNED, which are terminal; a claim is sent
      exactly for a logged-in non-reporter with a non-blank answer; the
      claims received are exactly those of the user's items; the
      assistant's pairs are sound; the Claim page throws exactly when a
      shown claim has no status or "My Claims" holds a non-array.
    - Navigation: the only targets without a route are
      "/admin/analytics", "/admin/signup" (twice) and "/report", for
      every identity and sidebar state; every link of the user sidebar
      renders its page for a logged-in identity; the landing navbar marks
      at most one link active.
    - Report: with distinct ids "Edit" puts exactly one row in edit mode
      and "Cancel" none.
    - Assistant: each "Claim This Match" sends a PENDING claim for a
      FOUND item someone else reported.
    - Report: a report is sent exactly when the required fields are
      filled and category and campus resolve; saving an unchanged edit
      sends the item's own fields back.
    - Message: in every reachable state a shown text has a pending
      timer and every timer is due within [duration] or five seconds;
      a shown text is always cleared, by one or two timer firings, at
      most [duration] + 5000 ms later.
    - Display: Profile shows the role "Admin" exactly for the gate's
      administrators; its initials are one or two upper-case letters.

    ** Findings

    - Signup lets the client choose its role: any address that contains
      "@wildcatsf.com" registers an administrator who reaches /admin.
    - The Login page stores the identity and "isAuthenticated" but no
      token, so that session is never checked with the server.
    - The context's [logout] leaves "isAuthenticated"; after a rejected
      token it survives, and /login and /home redirect to each other.
    - Login's e-mail heuristic sends non-admin staff to /admin, where the
      gate sends them back to /home.
    - The Home page never loads its item list when the statistics
      endpoint answers, so its assistant always finds no report.
    - The dashboard's list fetches share one [loading] flag (the Claims
      tab can show "No claims found" while its request is in flight),
      apply late answers over newer ones, and store an error object as
      the list, which makes the next render throw.
    - The admin's "Reject Claim" calls /verify with false, which leaves
      the claim pending with both buttons.
    - The edit panel is not a [<form>]: title, description and date are
      sent unvalidated, and [imageUrl] is sent empty.
    - Home's "Claim" filter selects REUNITED, which no UI path produces;
      CLAIMED items appear under no filter and in no statistic; the
      status buttons are offered for REUNITED.
    - Sidebar.js's case-sensitive admin link can never be shown.
    - Profile shows "Loading..." forever for an identity without an id.
    - Home offers "This is Mine!" on LOST items too, and sends the claim.
    - Dead links: Home's "Be the first to report an item!" ("/report"),
      AdminSidebar's Analytics ("/admin/analytics") and the "Create Admin
      Account" link of Login and Signup ("/admin/signup").
    - The Claim page stores an error body answered for the claims made
      and its "My Claims" tab then throws.
    - A sidebar mounted after a collapse starts expanded under a body
      still marked collapsed.
    - The contact form has no handler: "Send Message" reloads /contact
      and sends nothing.
    - The message component never cancels a pending [onClose]: an
      earlier message's close erases a newer message early; and since
      the pages pass [onClose] as an inline arrow, any re-render of the
      page restarts the hide timer.

    ** Not modelled

    StatCard.js and About.js are markup, ConfirmModal.js and
    ClaimItemModal.js are imported by no page, and Contact.js is static
    apart from its form (modelled in [Links.v]); icons, CSS classes, the image previews (FileReader), dates
    ([new Date], [toLocaleDateString]), sounds, the assistant's random
    confidence figure and Home's debug request (which only logs) are
    not modelled; the message's title, type and CSS classes are
    display only.  App.js imports a Search page that is not in the
    sources.  React Router's matching is modelled as exact matching plus
    the "/report-item/*" splat.

    ** Modelling choices

    Strings are Stdlib [string]s (bytes); [toLowerCase]/[toUpperCase]
    are modelled on ASCII letters, which is exact for the literals the
    code compares against except for the few Unicode letters whose case
    mapping leaves ASCII (not modelled).  A JSON value the code only
    stores and reads back is kept as a value ([JSON.parse] of
    [JSON.stringify u] is [u]); a stored string that is not a user record
    makes [JSON.parse] throw (the client only ever writes serialised
    users under "user"; a hand-edited entry that parses as another JSON
    value is not modelled).  Network calls are inputs: each handler
    takes the response (success, error status, or network failure) as an
    argument.  JavaScript runs one handler at a time, but an [async]
    handler yields at each [await]: where several requests can be in
    flight at once (the admin dashboard) each handler is split at its
    await, the requests in flight are a list, and their answers are
    events that may come in any order, so every interleaving is a
    sequence of steps.  Elsewhere React batches state updates and the
    effects run in declaration order, which the handlers write out as
    sequences of steps.  No fuel is needed: every operation is a
    structural recursion over the data, and the dashboard's answers are
    shown to terminate by a measure.  Timers are modelled only where a
    claim depends on them (the message component, and the assistant's
    delay as a separate step): time is an integer number of
    milliseconds, and [Fire] runs the timer due first (the earlier
    started one on a tie, as the browser does). *)

From stdpp Require Import base strings list.
From Stdlib Require Import Ascii String ZArith Lia.

Declare Scope js_scope.
Delimit Scope js_scope with js.

(** JavaScript's strict equality on strings. *)
Notation "a === b" := (String.eqb a b) (at level 70, no associativity) : js_scope.
Notation "a !== b" := (negb (String.eqb a b)) (at level 70, no associativity) : js_scope.

Create HintDb wf discriminated.
Create Rewrite HintDb js_rw.

(** ** Truthiness *)

(** [if (s)] on a string: only the empty string is falsy. *)
Definition truthy_str (s : string) : bool := negb (s =? "")%string.

(** [if (o)] on a possibly missing string field. *)
Definition truthy_opt (o : option string) : bool :=
  match o with Some s => truthy_str s | None => false end.

(** [if (n)] on a possibly missing number: [0] and [undefined] are falsy. *)
Definition truthy_Z (o : option Z) : bool :=
  match o with Some n => negb (n =? 0)%Z | None => false end.

(** [o || d] on an optional string field. *)
Definition opt_or (o : option string) (d : string) : string :=
  match o with Some s => if truthy_str s then s else d | None => d end.

(** ** Case mapping on ASCII letters *)

Definition lower_char (c : ascii) : ascii :=
  let n := N_of_ascii c in
  if ((65 <=? n) && (n <=? 90))%N then ascii_of_N (n + 32) else c.

Definition upper_char (c : ascii) : ascii :=
  let n := N_of_ascii c in
  if ((97 <=? n) && (n <=? 122))%N then ascii_of_N (n - 32) else c.

(** [String.prototype.toLowerCase] *)
Fixpoint to_lower (s : string) : string :=
  match s with
  | EmptyString => EmptyString
  | String c s' => String (lower_char c) (to_lower s')
  end.

(** [String.prototype.toUpperCase] *)
Fixpoint to_upper (s : string) : string :=
  match s with
  | EmptyString => EmptyString
  | String c s' => String (upper_char c) (to_upper s')
  end.

(** ** Substring search: [String.prototype.includes] *)

Fixpoint prefixb (p s : string) : bool :=
  match p, s with
  | EmptyString, _ => true
  | String a p', String b s' => (a =? b)%char && prefixb p' s'
  | String _ _, EmptyString => false
  end.

(** [s.includes(q)]: some suffix of [s] starts with [q]. *)
Fixpoint includes (s q : string) : bool :=
  prefixb q s ||
  match s with
  | EmptyString => false
  | String _ s' => includes s' q
  end.

(** ** Whitespace trimming: [String.prototype.trim] on ASCII whitespace *)

Definition is_ws (c : ascii) : bool :=
  let n := N_of_ascii c in ((9 <=? n) && (n <=? 13))%N || (n =? 32)%N.

Fixpoint trim_start (s : string) : string :=
  match s with
  | EmptyString => EmptyString
  | String c s' => if is_ws c then trim_start s' else s
  end.

Definition trim (s : string) : string :=
  String.rev (trim_start (String.rev (trim_start s))).

(** ** Characters and pieces of strings *)

(** [s.charAt(0)]: the first character, or [""] for the empty string. *)
Definition char_at0 (s : string) : string :=
  match s with
  | EmptyString => EmptyString
  | String c _ => String c EmptyString
  end.

(** [s.slice(1)]: everything after the first character. *)
Definition slice1 (s : string) : string :=
  match s with
  | EmptyString => EmptyString
  | String _ s' => s'
  end.

(** [s.split(c)] on a one-character separator: never an empty array. *)
Fixpoint split_on (c : ascii) (s : string) : list string :=
  match s with
  | EmptyString => [EmptyString]
  | String d s' =>
      let parts := split_on c s' in
      if (d =? c)%char then EmptyString :: parts
      else match parts with
           | p :: ps => String d p :: ps
           | [] => [String d EmptyString]
           end
  end.

(** ** Generic lemmas *)

Lemma js_eqb_true (a b : string) : (a =? b)%string = true <-> a = b.
Proof. apply String.eqb_eq. Qed.

Lemma js_eqb_refl (a : string) : (a =? a)%string = true.
Proof. by apply String.eqb_eq. Qed.

Lemma js_eqb_false (a b : string) : a <> b -> (a =? b)%string = false.
Proof. apply String.eqb_neq. Qed.

Lemma append_nil_l (s : string) : ("" ++ s)%string = s.
Proof. reflexivity. Qed.

(** stdpp makes [String.append] opaque to [simpl]; these are its equations. *)
Lemma append_cons (c : ascii) (s t : string) : (String c s ++ t)%string = String c (s ++ t)%string.
Proof. reflexivity. Qed.

Lemma prefixb_spec (p s : string) :
  prefixb p s = true <-> exists r, s = (p ++ r)%string.
Proof.
  revert s; induction p as [|a p IH]; intros [|b s]; simpl.
  - split; eauto.
  - split; eauto.
  - split; [done|]. intros [r Hr]; discriminate.
  - rewrite andb_true_iff, IH, Ascii.eqb_eq. split.
    + intros [-> [r ->]]. eauto.
    + intros [r Hr]. injection Hr as -> ->. eauto.
Qed.

Lemma includes_spec (s q : string) :
  includes s q = true <-> exists l r, s = (l ++ q ++ r)%string.
Proof.
  induction s as [|c s IH]; simpl; rewrite orb_true_iff, prefixb_spec.
  - split.
    + intros [[r Hr]|H]; [by exists "", r | discriminate].
    + intros [[|] [r Hr]]; [left; by exists r | discriminate].
  - rewrite IH. split.
    + intros [[r Hr]|[l [r ->]]].
      * by exists "", r.
      * by exists (String c l), r.
    + intros [[|c' l] [r Hr]]; [left; by exists r|].
      injection Hr as -> ->. right. eauto.
Qed.

Lemma includes_empty (s : string) : includes s "" = true.
Proof. by destruct s. Qed.

#[export] Hint Rewrite js_eqb_refl includes_empty append_nil_l append_cons : js_rw.

(** Case analysis on a boolean JavaScript test, keeping its equation. *)
Ltac js_case t := let E := fresh "E" in destruct t eqn:E.

(** Unfold the handler [f], split on every test it performs. *)
Ltac run_handler f :=
  unfold f; simpl; repeat (case_match; simpl); try done.

Lemma truthy_str_spec (s : string) : truthy_str s = true <-> s <> ""%string.
Proof.
  unfold truthy_str. rewrite negb_true_iff.
  destruct (s =? "")%string eqn:E; [apply js_eqb_true in E; subst; split; [done|by intros []]|].
  split; [intros _ ->; rewrite js_eqb_refl in E; done | done].
Qed.

(** Filtering by three predicates that no element satisfies twice keeps
    at most the whole list. *)
Lemma filter_three_disjoint {A} (p q r : A -> bool) (l : list A) :
  (forall x, (p x && q x) = false /\ (p x && r x) = false /\ (q x && r x) = false) ->
  (List.length (List.filter p l) + List.length (List.filter q l) +
   List.length (List.filter r l) <= List.length l)%nat.
Proof.
  intros H. induction l as [|x l IH]; simpl; [lia|].
  destruct (H x) as (H1 & H2 & H3).
  destruct (p x), (q x), (r x); simpl in *; try discriminate; lia.
Qed.

Lemma trim_empty : trim "" = ""%string.
Proof. reflexivity. Qed.

(** A string whose trimmed form is not empty is truthy. *)
Lemma trim_nonempty_truthy (s : string) : trim s <> ""%string -> truthy_str s = true.
Proof. intros H. apply truthy_str_spec. intros ->. by apply H. Qed.

(** The one-character string made of a double quote. *)
Definition quote_str : string := String (Ascii.ascii_of_nat 34) EmptyString.

(** ** Lemmas on case mapping and pieces of strings *)

Lemma upper_char_idem (c : ascii) : upper_char (upper_char c) = upper_char c.
Proof. destruct c as [[] [] [] [] [] [] [] []]; reflexivity. Qed.

(** The only characters [toUpperCase] maps to "A" are those
    [toLowerCase] maps to "a". *)
Lemma upper_A_lower_a (c : ascii) :
  upper_char c = "A"%char <-> lower_char c = "a"%char.
Proof. destruct c as [[] [] [] [] [] [] [] []]; vm_compute; split; congruence. Qed.

Lemma to_upper_idem (s : string) : to_upper (to_upper s) = to_upper s.
Proof. induction s as [|c s IH]; simpl; [done|]. by rewrite upper_char_idem, IH. Qed.

Lemma to_upper_app (a b : string) : to_upper (a ++ b) = (to_upper a ++ to_upper b)%string.
Proof. induction a as [|c a IH]; simpl; [done|]. by rewrite IH. Qed.

Lemma to_upper_length (s : string) : String.length (to_upper s) = String.length s.
Proof. induction s as [|c s IH]; simpl; lia. Qed.

Lemma string_length_app (a b : string) :
  String.length (a ++ b)%string = (String.length a + String.length b)%nat.
Proof. induction a as [|c a IH]; [reflexivity|]. simpl. by rewrite IH. Qed.

Lemma char_at0_length (s : string) : (String.length (char_at0 s) <= 1)%nat.
Proof. destruct s; simpl; lia. Qed.

Lemma to_upper_empty_iff (s : string) : to_upper s = ""%string <-> s = ""%string.
Proof. destruct s; simpl; split; congruence. Qed.

(** A string that contains the separator splits into two parts at least. *)
Lemma split_on_two (c : ascii) (s : string) :
  includes s (String c EmptyString) = true ->
  exists p0 p1 ps, split_on c s = p0 :: p1 :: ps.
Proof.
  induction s as [|d s IH]; simpl; [done|].
  intros H. assert (Hs : split_on c s <> []) by (destruct s; simpl; repeat case_match; done).
  destruct (d =? c)%char eqn:E.
  - destruct (split_on c s) as [|p ps]; [done|]. eauto.
  - rewrite Ascii.eqb_sym, E in H. simpl in H. destruct (IH H) as (p0 & p1 & ps & ->). eauto.
Qed.

#[export] Hint Rewrite to_upper_idem to_upper_app to_upper_length : js_rw.
