(* ===== verification/Model.v ===== *)
(** * The JSON records of the client

    The shapes the client reads from the REST API, with the field names
    of the source.  A field the code tests for presence ([user?.role],
    [item.location && ...]) is an [option]; JavaScript's [undefined] and
    [null] are [None].  Status fields are the server's strings, compared
    with [===] against the literals of the code. *)

From stdpp Require Import base strings list.
From Stdlib Require Import String ZArith.
From S2P Require Import Prelude.

Local Open Scope js_scope.

(** The identity returned by [/api/users/login] and [/api/users/current]
    (fields read in Login.js, Profile.js, Home.js, ProtectedRoute.js). *)
Module User.
Record t := mk {
  userId : option Z;
  username : option string;
  email : option string;
  role : option string;
  fname : option string;
  mname : option string;
  lname : option string
}.
End User.

(** An item of [/api/items] (fields read in Home.js, ReportItem.js,
    AdminDashboard.js). [userId] is the reporter. *)
Module Item.
Record t := mk {
  itemId : Z;
  itemTitle : option string;
  itemDesc : option string;
  location : option string;
  categoryName : option string;
  status : option string;
  userId : option Z;
  categoryId : option Z;
  departmentId : option Z;
  dateReport : option string
}.
End Item.

(** A claim of [/api/claims] (fields read in Claim.js and
    AdminDashboard.js). *)
Module Claim.
Record t := mk {
  claimId : Z;
  itemId : option Z;
  userId : option Z;
  verificationAnswer : option string;
  status : option string;
  verified : bool
}.
End Claim.

#[export] Instance user_eq_dec : EqDecision User.t.
Proof. solve_decision. Defined.
#[export] Instance item_eq_dec : EqDecision Item.t.
Proof. solve_decision. Defined.
#[export] Instance claim_eq_dec : EqDecision Claim.t.
Proof. solve_decision. Defined.

(** The status literals of the code. *)
Definition LOST : string := "LOST".
Definition FOUND : string := "FOUND".
Definition CLAIMED : string := "CLAIMED".
Definition RETURNED : string := "RETURNED".
Definition REUNITED : string := "REUNITED".
Definition PENDING : string := "PENDING".

(** [x.status === lit] where [x.status] may be missing. *)
Definition status_is (st : option string) (lit : string) : bool :=
  match st with Some s => s === lit | None => false end.

(** [a === b] on two optional numeric ids ([undefined === undefined] is true). *)
Definition id_eqb (a b : option Z) : bool :=
  match a, b with
  | Some x, Some y => (x =? y)%Z
  | None, None => true
  | _, _ => false
  end.

(** The value [response.json()] resolves to on a list endpoint: the
    code stores it as it is and reads it later with [.length], [.filter]
    or [.map], which throw on [null] or on a non-array. *)
Inductive json_list (A : Type) :=
  | JArray (l : list A)
  | JNull
  | JObject.          (** any other value: an object, a number, a boolean *)
Arguments JArray {A} l.
Arguments JNull {A}.
Arguments JObject {A}.

Lemma status_is_spec (st : option string) (lit : string) :
  status_is st lit = true <-> st = Some lit.
Proof.
  destruct st as [s|]; simpl; [|split; congruence].
  rewrite js_eqb_true. split; congruence.
Qed.

Lemma id_eqb_spec (a b : option Z) : id_eqb a b = true <-> a = b.
Proof.
  destruct a, b; simpl; try (split; congruence).
  rewrite Z.eqb_eq. split; congruence.
Qed.

#[export] Hint Resolve <- status_is_spec : wf.
#[export] Hint Resolve <- id_eqb_spec : wf.
