(* ===== verification/Gate.v ===== *)
(** * Authorization gate and view router

    [components/ProtectedRoute.js] ([protected_route]), the route table
    and [AppContent] of [App.js] ([route_of], [app_content]), the guard
    of [pages/AdminDashboard/AdminDashboard.js] and the link selection
    of [components/sidebar/Sidebar.js].  The router reads the session
    through the [SessionView] interface only.  The design's gate
    ([spec_gate], section 4.2 of the design) is stated abstractly and
    [protected_route_refines_spec] shows the code implements it. *)

From stdpp Require Import base strings list.
From Stdlib Require Import String ZArith.
From S2P Require Import Prelude Model.

Local Open Scope js_scope.

(** ** What the router needs from the session store *)

Class SessionView (S : Type) := {
  sv_user : S -> option User.t;
  sv_loading : S -> bool
}.

(** ** The admin test *)

(** [user?.role?.toLowerCase() === 'admin'] *)
Definition is_admin (user : option User.t) : bool :=
  match user with
  | Some u =>
      match User.role u with
      | Some r => to_lower r === "admin"
      | None => false
      end
  | None => false
  end.
Arguments is_admin : simpl never.

(** ** ProtectedRoute *)

Inductive outcome := Children | Navigate (to : string).

Definition protected_route (user : option User.t) (requireAdmin : bool) : outcome :=
  match user with
  | None => Navigate "/login"
  | Some _ =>
      if requireAdmin && negb (is_admin user) then Navigate "/home" else Children
  end.

(** ** The design's gate (section 4.2) *)

Inductive decision := ALLOW | REDIRECT_TO_LOGIN | REDIRECT_TO_HOME.

(** Case-insensitive equality of a role with "admin", as a proposition. *)
Definition role_is_admin (identity : option User.t) : Prop :=
  exists u r, identity = Some u /\ User.role u = Some r /\
              to_lower r = to_lower "ADMIN".

Definition spec_gate (identity : option User.t) (requiresAuth requiresAdmin : bool)
    (d : decision) : Prop :=
  match identity with
  | None => if requiresAuth then d = REDIRECT_TO_LOGIN
            else if requiresAdmin then d = REDIRECT_TO_HOME else d = ALLOW
  | Some _ => if requiresAdmin then
                (role_is_admin identity -> d = ALLOW) /\
                (~ role_is_admin identity -> d = REDIRECT_TO_HOME)
              else d = ALLOW
  end.

Definition outcome_of (d : decision) : outcome :=
  match d with
  | ALLOW => Children
  | REDIRECT_TO_LOGIN => Navigate "/login"
  | REDIRECT_TO_HOME => Navigate "/home"
  end.

(** ** The route table of App.js *)

Inductive page :=
  | PIndex | PAbout | PContact | PLogin | PSignup
  | PHome | PReportItem | PSearch | PClaim | PProfile | PAdminDashboard.

Inductive route_element :=
  | Public (p : page)
  | Protected (requireAdmin : bool) (p : page).

(** [<Route path=... element=...>]; "/report-item/*" also matches every
    path below "/report-item/". *)
Definition route_of (path : string) : option route_element :=
  if path === "/" then Some (Public PIndex)
  else if path === "/about" then Some (Public PAbout)
  else if path === "/contact" then Some (Public PContact)
  else if path === "/login" then Some (Public PLogin)
  else if path === "/signup" then Some (Public PSignup)
  else if path === "/home" then Some (Protected false PHome)
  else if (path === "/report-item") || prefixb "/report-item/" path
       then Some (Protected false PReportItem)
  else if path === "/search" then Some (Protected false PSearch)
  else if path === "/claim" then Some (Protected false PClaim)
  else if path === "/profile" then Some (Protected false PProfile)
  else if path === "/admin" then Some (Protected true PAdminDashboard)
  else None.

Definition noSidebarPaths : list string := ["/"; "/about"; "/contact"; "/login"; "/signup"].

Definition path_in (p : string) (l : list string) : bool := existsb (fun q => q === p) l.

Inductive sidebar := UserSidebar | AdminSidebar.

Inductive content := Render (p : page) | Redirect (to : string).

Inductive view :=
  | Loading
  | Shell (side : option sidebar) (main : option content).

Definition render_element (user : option User.t) (e : route_element) : content :=
  match e with
  | Public p => Render p
  | Protected ra p =>
      match protected_route user ra with
      | Children => Render p
      | Navigate to => Redirect to
      end
  end.
Arguments render_element : simpl never.

Section Router.
Context {S : Type} `{SessionView S}.

(** [AppContent]: the loading screen first, then sidebar and routes. *)
Definition app_content (s : S) (currentPath : string) : view :=
  let user := sv_user s in
  let isAuthenticated := bool_decide (user <> None) in
  let isAdmin := is_admin user in
  let showSidebar := isAuthenticated && negb (path_in currentPath noSidebarPaths) in
  if sv_loading s then Loading
  else Shell (if showSidebar then Some (if isAdmin then AdminSidebar else UserSidebar)
              else None)
             (render_element user <$> route_of currentPath).
End Router.

(** ** The admin dashboard's own guard *)

(** [if (!user || user.role?.toLowerCase() !== 'admin')]: navigate to
    /home and show "Access Denied". [true] when the dashboard renders. *)
Definition admin_dashboard_allows (user : option User.t) : bool :=
  match user with
  | None => false
  | Some u =>
      match User.role u with
      | Some r => negb (to_lower r !== "admin")
      | None => false
      end
  end.

(** ** The user sidebar's links *)

(** Sidebar.js compares [user.role === 'admin'] case-sensitively: the
    regular tabs when [!user || user.role !== 'admin'], the dashboard
    link when [user && user.role === 'admin']. *)
Record sidebar_links := { user_tabs : bool; admin_link : bool }.

Definition sidebar_links_of (user : option User.t) : sidebar_links :=
  let role_admin := match user with
                    | Some u => status_is (User.role u) "admin"
                    | None => false
                    end in
  {| user_tabs := negb role_admin; admin_link := role_admin |}.

(** ** A session snapshot, the simplest [SessionView] *)

Record snapshot := { snap_user : option User.t; snap_loading : bool }.

#[export] Instance snapshot_view : SessionView snapshot :=
  {| sv_user := snap_user; sv_loading := snap_loading |}.

Definition main_of (v : view) : option content :=
  match v with Loading => None | Shell _ m => m end.

Definition side_of (v : view) : option sidebar :=
  match v with Loading => None | Shell sb _ => sb end.

(** ** Lemmas *)

Lemma to_lower_ADMIN : to_lower "ADMIN" = "admin"%string.
Proof. reflexivity. Qed.

Lemma is_admin_spec (user : option User.t) :
  is_admin user = true <-> role_is_admin user.
Proof.
  unfold is_admin, role_is_admin. rewrite to_lower_ADMIN.
  destruct user as [u|]; [|split; [done | intros (?&?&?&?); discriminate]].
  destruct (User.role u) as [r|] eqn:Hr.
  - rewrite js_eqb_true. split; [eauto 6 | intros (?&?&[= <-]&Hr'&?); congruence].
  - split; [done | intros (?&?&[= <-]&?&?); congruence].
Qed.

Lemma is_admin_none : is_admin None = false.
Proof. reflexivity. Qed.

Lemma is_admin_role (u : User.t) :
  is_admin (Some u) = match User.role u with Some r => to_lower r === "admin" | None => false end.
Proof. reflexivity. Qed.

Lemma app_content_ready {S} `{SessionView S} (s : S) (p : string) :
  sv_loading s = false ->
  app_content s p =
    Shell (if bool_decide (sv_user s <> None) && negb (path_in p noSidebarPaths)
           then Some (if is_admin (sv_user s) then AdminSidebar else UserSidebar) else None)
          (render_element (sv_user s) <$> route_of p).
Proof. intros Hl. unfold app_content. by rewrite Hl. Qed.

Lemma render_protected_cases (user : option User.t) (ra : bool) (pg : page) :
  render_element user (Protected ra pg) =
    match user with
    | None => Redirect "/login"
    | Some _ => if ra && negb (is_admin user) then Redirect "/home" else Render pg
    end.
Proof. unfold render_element, protected_route. destruct user; [destruct (ra && _)|]; reflexivity. Qed.

Lemma outcome_of_inj (d d' : decision) : outcome_of d = outcome_of d' <-> d = d'.
Proof. destruct d, d'; simpl; split; congruence. Qed.

Lemma guarded_decision_pos (R : Prop) (d d1 d2 : decision) :
  R -> ((R -> d = d1) /\ (~ R -> d = d2)) <-> d = d1.
Proof. intros HR. split; [intros [H1 _]; auto | intros ->; split; [done | by intros []]]. Qed.

Lemma guarded_decision_neg (R : Prop) (d d1 d2 : decision) :
  ~ R -> ((R -> d = d1) /\ (~ R -> d = d2)) <-> d = d2.
Proof. intros HR. split; [intros [_ H2]; auto | intros ->; split; [by intros ?%HR | done]]. Qed.

Ltac outcome_cases d := destruct d; simpl; split; congruence.

#[export] Hint Rewrite to_lower_ADMIN is_admin_none : js_rw.

(** ** Theorems *)

Section GateTheorems.
Context {S : Type} `{SessionView S}.

(** C2: ProtectedRoute implements the design's gate: for every identity
    and every [requireAdmin], the element it returns is the one the
    three-way decision of section 4.2 prescribes for an authenticated
    destination, and no other. *)
Theorem protected_route_refines_spec (user : option User.t) (requireAdmin : bool)
    (d : decision) :
  spec_gate user true requireAdmin d <-> protected_route user requireAdmin = outcome_of d.
Proof.
  destruct user as [u|]; simpl; [|outcome_cases d].
  destruct requireAdmin; simpl; [|outcome_cases d].
  pose proof (is_admin_spec (Some u)) as Hs.
  destruct (is_admin (Some u)); simpl.
  - rewrite guarded_decision_pos by (by apply Hs). outcome_cases d.
  - rewrite guarded_decision_neg by (intros Hr%Hs; discriminate). outcome_cases d.
Qed.

(** C3: The admin-only route. Once the session has resolved, "/admin"
    renders the dashboard exactly for an identity whose role is "admin"
    in any letter case, redirects an identity with any other role (or
    none) to /home, and redirects an absent identity to /login. *)
Theorem admin_route_decision (s : S) :
  sv_loading s = false ->
  main_of (app_content s "/admin") =
    Some (match sv_user s with
          | None => Redirect "/login"
          | Some u => if is_admin (Some u) then Render PAdminDashboard
                      else Redirect "/home"
          end).
Proof.
  intros Hl. rewrite app_content_ready by done. simpl.
  rewrite render_protected_cases. destruct (sv_user s); [|done].
  by destruct (is_admin _).
Qed.

(** While the session store is loading, every path shows the
    neutral loading screen: no page renders and no redirect is taken. *)
Theorem loading_blocks_every_route (s : S) (p : string) :
  sv_loading s = true -> app_content s p = Loading /\ main_of (app_content s p) = None.
Proof. intros Hl. unfold app_content. by rewrite Hl. Qed.

(** A protected page is rendered only to a present identity, the
    admin dashboard only to an admin, and only once loading is over. *)
Theorem protected_render_requires_identity (s : S) (p : string) (ra : bool) (pg : page) :
  route_of p = Some (Protected ra pg) ->
  main_of (app_content s p) = Some (Render pg) ->
  sv_loading s = false /\ sv_user s <> None /\ (ra = true -> is_admin (sv_user s) = true).
Proof.
  intros Hr Hm. unfold app_content in Hm.
  destruct (sv_loading s); [done|]. simpl in Hm. rewrite Hr in Hm. simpl in Hm.
  rewrite render_protected_cases in Hm.
  destruct (sv_user s) as [u|]; [|done].
  destruct ra, (is_admin (Some u)); simpl in Hm; try congruence; done.
Qed.

(** The router redirects only from a protected route: to /login
    when there is no identity, to /home when an authenticated non-admin
    asks for an admin route. *)
Theorem redirect_only_when_denied (s : S) (p to : string) :
  main_of (app_content s p) = Some (Redirect to) ->
  exists ra pg, route_of p = Some (Protected ra pg) /\
    ((sv_user s = None /\ to = "/login"%string) \/
     (sv_user s <> None /\ ra = true /\ is_admin (sv_user s) = false /\ to = "/home"%string)).
Proof.
  unfold app_content. destruct (sv_loading s); [done|]. simpl. intros Hm.
  destruct (route_of p) as [[pg|ra pg]|]; simpl in Hm; [by inversion Hm| |done].
  rewrite render_protected_cases in Hm. exists ra, pg. split; [done|].
  destruct (sv_user s) as [u|]; [right|left; split; congruence].
  destruct ra, (is_admin (Some u)); simpl in Hm; try congruence.
  injection Hm as <-. done.
Qed.

(** The sidebar appears exactly for an authenticated session on a
    non-public path, and it is the admin sidebar exactly for an admin. *)
Theorem sidebar_choice (s : S) (p : string) :
  sv_loading s = false ->
  side_of (app_content s p) =
    if bool_decide (sv_user s <> None) && negb (path_in p noSidebarPaths)
    then Some (if is_admin (sv_user s) then AdminSidebar else UserSidebar) else None.
Proof. intros Hl. by rewrite app_content_ready. Qed.

(** The user sidebar's admin-dashboard link is dead code: whenever
    the router shows the user sidebar, Sidebar.js's case-sensitive test
    [user.role === 'admin'] is false, so the link is hidden and the
    regular tabs are shown. *)
Theorem user_sidebar_hides_admin_link (s : S) (p : string) :
  side_of (app_content s p) = Some UserSidebar ->
  sidebar_links_of (sv_user s) = {| user_tabs := true; admin_link := false |}.
Proof.
  unfold app_content. destruct (sv_loading s); [done|]. simpl.
  destruct (_ && _); [|done].
  destruct (is_admin (sv_user s)) eqn:Ha; [done|]. intros _.
  unfold sidebar_links_of. destruct (sv_user s) as [u|]; [|done].
  destruct (User.role u) as [r|] eqn:Hr; [|done]. simpl.
  destruct (r =? "admin")%string eqn:E; [|done].
  apply js_eqb_true in E; subst r. unfold is_admin in Ha. by rewrite Hr in Ha.
Qed.
End GateTheorems.

(** The admin dashboard's own guard and the gate's admin test agree
    on every identity: the page never denies an identity the gate let in,
    and never shows its content to one the gate would have sent home. *)
Theorem dashboard_guard_agrees_with_gate (user : option User.t) :
  admin_dashboard_allows user = is_admin user.
Proof.
  destruct user as [u|]; [|done]. simpl. rewrite is_admin_role.
  destruct (User.role u); [|done]. by rewrite negb_involutive.
Qed.

(** ** Witnesses on concrete sessions *)

Definition sample_admin : User.t :=
  User.mk (Some 1%Z) (Some "dean") (Some "dean@wildcatsf.com") (Some "Admin")
          (Some "Dean") None (Some "Cruz").
Definition sample_user : User.t :=
  User.mk (Some 2%Z) (Some "ana") (Some "ana@uni.edu") (Some "USER")
          (Some "Ana") None (Some "Reyes").

Definition ready_admin : snapshot := {| snap_user := Some sample_admin; snap_loading := false |}.
Definition ready_user : snapshot := {| snap_user := Some sample_user; snap_loading := false |}.
Definition ready_guest : snapshot := {| snap_user := None; snap_loading := false |}.
Definition resolving : snapshot := {| snap_user := Some sample_user; snap_loading := true |}.

Lemma admin_route_decision_witness :
  sv_loading ready_admin = false /\
  main_of (app_content ready_admin "/admin") = Some (Render PAdminDashboard).
Proof.
  split; [reflexivity|].
  rewrite (admin_route_decision ready_admin) by reflexivity. reflexivity.
Defined.

Lemma loading_blocks_every_route_witness :
  sv_loading resolving = true /\ app_content resolving "/admin" = Loading.
Proof.
  split; [reflexivity|]. apply (loading_blocks_every_route resolving "/admin"). reflexivity.
Defined.

Lemma protected_render_requires_identity_witness :
  route_of "/admin" = Some (Protected true PAdminDashboard) /\
  main_of (app_content ready_admin "/admin") = Some (Render PAdminDashboard) /\
  sv_user ready_admin <> None.
Proof.
  split; [reflexivity|]. split; [reflexivity|].
  apply (protected_render_requires_identity ready_admin "/admin" true PAdminDashboard);
    reflexivity.
Defined.

Lemma redirect_only_when_denied_witness :
  main_of (app_content ready_user "/admin") = Some (Redirect "/home") /\
  exists ra pg, route_of "/admin" = Some (Protected ra pg).
Proof.
  split; [reflexivity|].
  destruct (redirect_only_when_denied ready_user "/admin" "/home") as (ra & pg & Hr & _);
    [reflexivity|].
  exists ra, pg. exact Hr.
Defined.

Lemma sidebar_choice_witness :
  sv_loading ready_user = false /\ side_of (app_content ready_user "/claim") = Some UserSidebar.
Proof.
  split; [reflexivity|]. rewrite (sidebar_choice ready_user "/claim") by reflexivity. reflexivity.
Defined.

Lemma user_sidebar_hides_admin_link_witness :
  side_of (app_content ready_user "/home") = Some UserSidebar /\
  admin_link (sidebar_links_of (sv_user ready_user)) = false.
Proof.
  split; [reflexivity|].
  rewrite (user_sidebar_hides_admin_link ready_user "/home") by reflexivity. reflexivity.
Defined.
