(* ===== verification/Session.v ===== *)
(** * The session store

    [context/UserContext.js] and the pages that write the session:
    [Login.handleLogin], [Profile.handleLogout] and the mount effect of
    [Index].  The state is the React state of [UserProvider] ([user],
    [loading]), the fact that [fetchUser] is suspended on its request to
    [/api/users/current] ([fetching]), and [localStorage] as a finite
    map from keys to stored values.  Each handler is one definition that
    performs the statements of the source in order; [commit] runs the
    second effect of [UserProvider] (mirror [user] into storage) after
    every render in which [user] changed.  [step] dispatches the events,
    [reachable] closes the initial mounts under [step]. *)

From stdpp Require Import base strings list gmap.
From Stdlib Require Import Ascii String ZArith.
From S2P Require Import Prelude Model Gate.

Local Open Scope js_scope.

(** ** localStorage *)

(** What a key holds: [JSON.stringify(u)] of a user record, or a plain
    string (the token, "true"). *)
Inductive stored := StoredUser (u : User.t) | StoredText (s : string).

#[export] Instance stored_eq_dec : EqDecision stored.
Proof. solve_decision. Defined.

(** [if (localStorage.getItem(k))]: a serialised user is never empty. *)
Definition stored_truthy (o : option stored) : bool :=
  match o with
  | Some (StoredUser _) => true
  | Some (StoredText s) => truthy_str s
  | None => false
  end.

(** The [try] prefix of [fetchUser] up to its [fetch]: [None] when
    [JSON.parse(storedUser)] throws, [Some c] with the cached identity
    [c] otherwise. *)
Definition read_cached (storedUser : option stored) : option (option User.t) :=
  if stored_truthy storedUser then
    match storedUser with
    | Some (StoredUser u) => Some (Some u)
    | _ => None
    end
  else Some None.

(** ** The provider's state *)

Record session := mkSession {
  user : option User.t;
  loading : bool;
  fetching : bool;
  store : gmap string stored
}.

Definition set_user (u : option User.t) (s : session) : session :=
  mkSession u (loading s) (fetching s) (store s).
Definition set_store (st : gmap string stored) (s : session) : session :=
  mkSession (user s) (loading s) (fetching s) st.
Definition set_flags (l f : bool) (s : session) : session :=
  mkSession (user s) l f (store s).

(** The effect [useEffect(() => { if (user) setItem("user", ...) else
    removeItem("user") }, [user])]. *)
Definition sync_user (u : option User.t) (st : gmap string stored) : gmap string stored :=
  match u with
  | Some v => <["user" := StoredUser v]> st
  | None => delete "user" st
  end.

Definition user_effect (s : session) : session := set_store (sync_user (user s) (store s)) s.

(** React re-runs the effect when [user] changed ([Object.is]); every
    non-null [setUser] of the code passes a fresh object, so only
    [null] to [null] skips it. *)
Definition commit (prev : option User.t) (s : session) : session :=
  match prev, user s with
  | None, None => s
  | _, _ => user_effect s
  end.
Arguments commit : simpl never.

(** ** Mount: [fetchUser] up to its await, then the first renders *)

Definition fetch_user_begin (s : session) : session :=
  let storedUser := store s !! "user" in
  let token := store s !! "token" in
  match read_cached storedUser with
  | None => set_flags false false s
  | Some cached =>
      let s1 := match cached with Some u => set_user (Some u) s | None => s end in
      if stored_truthy token then set_flags true true s1 else set_flags false false s1
  end.

(** The page (re)loads with storage [st]: first render with [user =
    null], effect 1 ([fetchUser]) runs to its first await, effect 2 runs
    with [null], and the render caused by [setUser(cached)] runs it again. *)
Definition mount (st : gmap string stored) : session :=
  let s0 := mkSession None true false st in
  let s1 := fetch_user_begin s0 in
  let s2 := set_store (sync_user None (store s1)) s1 in
  commit None s2.

(** ** The answer of [/api/users/current] and the rest of [fetchUser] *)

Inductive current_response :=
  | CurOk (u : User.t)          (** [response.ok] and a user body *)
  | CurOkBadBody                (** [response.ok] but [response.json()] throws *)
  | CurRejected (status : Z)    (** any status outside 200-299 *)
  | CurNetworkError.            (** [fetch] rejects *)

Definition fetch_user_end (r : current_response) (s : session) : session :=
  let s1 :=
    match r with
    | CurOk u => commit (user s) (set_store (<["user" := StoredUser u]> (store s))
                                           (set_user (Some u) s))
    | CurRejected _ => commit (user s) (set_store (delete "token" (delete "user" (store s)))
                                                  (set_user None s))
    | CurOkBadBody | CurNetworkError => s
    end in
  set_flags false false s1.

(** ** The operations the provider exports *)

Definition ctx_login (userData : User.t) (token : string) (s : session) : session :=
  commit (user s)
    (set_store (<["token" := StoredText token]> (<["user" := StoredUser userData]> (store s)))
               (set_user (Some userData) s)).

Definition ctx_logout (s : session) : session :=
  commit (user s) (set_store (delete "token" (delete "user" (store s))) (set_user None s)).

Definition update_user (updatedUserData : User.t) (s : session) : session :=
  commit (user s) (set_store (<["user" := StoredUser updatedUserData]> (store s))
                             (set_user (Some updatedUserData) s)).

(** ** Login.handleLogin *)

(** The body of [/api/users/login]: text that [JSON.parse] rejects, or a
    JSON object, read as its user fields and its [error] field. *)
Inductive login_body :=
  | BodyNotJson (text : string)
  | BodyJson (fields : User.t) (error : option string).

Inductive login_response :=
  | LoginNetworkError
  | LoginReply (ok : bool) (body : login_body).

Inductive login_result := LoginError (message : string) | LoginNavigate (to : string).

(** [role?.toUpperCase() === 'ADMIN' || email?.includes('@wildcatsf.com')
    || username?.includes('@wildcatsf.com')] *)
Definition login_is_admin (u : User.t) : bool :=
  match User.role u with Some r => to_upper r === "ADMIN" | None => false end
  || match User.email u with Some e => includes e "@wildcatsf.com" | None => false end
  || match User.username u with Some n => includes n "@wildcatsf.com" | None => false end.

Definition handle_login (r : login_response) (s : session) : session * login_result :=
  match r with
  | LoginNetworkError => (s, LoginError "Wrong credentials. Please try again.")
  | LoginReply _ (BodyNotJson text) =>
      (s, LoginError (if truthy_str text then text else "Invalid server response"))
  | LoginReply false (BodyJson _ err) =>
      (s, LoginError (match err with
                      | Some e => if truthy_str e then e else "Something went wrong"
                      | None => "Something went wrong"
                      end))
  | LoginReply true (BodyJson cleanedData _) =>
      let s1 := commit (user s)
                  (set_store (<["isAuthenticated" := StoredText "true"]>
                               (<["user" := StoredUser cleanedData]> (store s)))
                             (set_user (Some cleanedData) s)) in
      (s1, LoginNavigate (if login_is_admin cleanedData then "/admin" else "/home"))
  end.

(** The redirect effect of the login page:
    [localStorage.getItem("isAuthenticated") === "true"]. *)
Definition login_page_redirects (st : gmap string stored) : bool :=
  match st !! "isAuthenticated" with
  | Some (StoredText t) => t === "true"
  | _ => false
  end.

(** The login page's own state: [formData], [errorMessage], [loading]
    and [showPassword]. *)
Record login_page := mkLoginPage {
  lp_username : string; lp_password : string; lp_error : string; lp_loading : bool; lp_showPassword : bool
}.

Definition login_page_init : login_page := mkLoginPage "" "" "" false false.

(** [handleChange]: [setFormData(prev => ({...prev, [name]: value}))] on
    the two inputs, named "username" and "password". *)
Definition login_handle_change (name value : string) (p : login_page) : login_page :=
  if name === "username" then mkLoginPage value (lp_password p) (lp_error p) (lp_loading p) (lp_showPassword p)
  else if name === "password" then mkLoginPage (lp_username p) value (lp_error p) (lp_loading p) (lp_showPassword p)
  else p.

Definition toggle_password_visibility (p : login_page) : login_page :=
  mkLoginPage (lp_username p) (lp_password p) (lp_error p) (lp_loading p) (negb (lp_showPassword p)).

(** [type={showPassword ? "text" : "password"}] *)
Definition password_input_type (p : login_page) : string := if lp_showPassword p then "text" else "password".

(** The submit button: [disabled={loading}], "Signing In..." while loading. *)
Definition sign_in_label (p : login_page) : string := if lp_loading p then "Signing In..." else "Sign In".

(** Both inputs are [required]: the browser submits only when both are filled. *)
Definition login_form_complete (p : login_page) : bool := truthy_str (lp_username p) && truthy_str (lp_password p).

(** [body: JSON.stringify(formData)] *)
Definition login_credentials (p : login_page) : string * string := (lp_username p, lp_password p).

(** [handleLogin] before its request: [setLoading(true); setErrorMessage("")]. *)
Definition login_submit_begin (p : login_page) : login_page :=
  mkLoginPage (lp_username p) (lp_password p) "" true (lp_showPassword p).

(** After the answer: the error [handleLogin] shows, if any, and the
    [finally]'s [setLoading(false)]. *)
Definition login_submit_end (res : login_result) (p : login_page) : login_page :=
  mkLoginPage (lp_username p) (lp_password p)
              (match res with LoginError m => m | LoginNavigate _ => lp_error p end)
              false (lp_showPassword p).

(** ** Profile.handleLogout and Index *)

(** [if (!confirm) return; logout(); removeItem("isAuthenticated");
    window.location.href = "/login"]: the assignment reloads the page. *)
Definition profile_logout (confirmed : bool) (s : session) : session :=
  if confirmed then
    let s1 := ctx_logout s in
    mount (delete "isAuthenticated" (store s1))
  else s.

(** The mount effect of the landing page. *)
Definition index_visit (s : session) : session :=
  set_store (delete "isAuthenticated" (store s)) s.

(** ** Events and reachable states *)

Inductive event :=
  | FetchSettled (r : current_response)
  | CallLogin (u : User.t) (token : string)
  | CallLogout
  | CallUpdateUser (u : User.t)
  | SubmitLogin (r : login_response)
  | ProfileLogout (confirmed : bool)
  | VisitIndex
  | Reload.

(** While [loading] is true [AppContent] renders only its loading screen,
    so no page and no caller of the context exists: the user events are
    taken only once loading is over.  The request settles only while
    [fetchUser] waits for it; a reload may happen at any time. *)
Definition step (e : event) (s : session) : session :=
  match e with
  | FetchSettled r => if fetching s then fetch_user_end r s else s
  | Reload => mount (store s)
  | _ =>
      if loading s then s else
      match e with
      | CallLogin u t => ctx_login u t s
      | CallLogout => ctx_logout s
      | CallUpdateUser u => update_user u s
      | SubmitLogin r => fst (handle_login r s)
      | ProfileLogout c => profile_logout c s
      | VisitIndex => index_visit s
      | _ => s
      end
  end.

Inductive reachable : session -> Prop :=
  | reachable_mount (st : gmap string stored) : reachable (mount st)
  | reachable_step (e : event) (s : session) : reachable s -> reachable (step e s).

Fixpoint run (es : list event) (s : session) : session :=
  match es with [] => s | e :: es' => run es' (step e s) end.

#[export] Instance session_view : SessionView session :=
  {| sv_user := user; sv_loading := loading |}.

(** ** Invariant: memory and storage agree on the identity *)

Definition mirrors (s : session) : Prop := store s !! "user" = StoredUser <$> user s.

(** ** Lemmas on the building blocks *)

Create Rewrite HintDb session_rw.

Lemma commit_cases (p : option User.t) (s : session) :
  commit p s = s \/ commit p s = user_effect s.
Proof. unfold commit. destruct p; destruct (user s); auto. Qed.

Lemma commit_user (p : option User.t) (s : session) : user (commit p s) = user s.
Proof. by destruct (commit_cases p s) as [-> | ->]. Qed.

Lemma commit_loading (p : option User.t) (s : session) : loading (commit p s) = loading s.
Proof. by destruct (commit_cases p s) as [-> | ->]. Qed.

Lemma commit_fetching (p : option User.t) (s : session) : fetching (commit p s) = fetching s.
Proof. by destruct (commit_cases p s) as [-> | ->]. Qed.

Lemma sync_user_user (u : option User.t) (st : gmap string stored) :
  sync_user u st !! "user" = StoredUser <$> u.
Proof. destruct u; simpl; [apply lookup_insert_eq | apply lookup_delete_eq]. Qed.

Lemma sync_user_other (u : option User.t) (st : gmap string stored) (k : string) :
  k <> "user"%string -> sync_user u st !! k = st !! k.
Proof. intros Hk. destruct u; simpl; [by apply lookup_insert_ne | by apply lookup_delete_ne]. Qed.

(** Keys other than "user" are untouched by [commit]. *)
Lemma commit_store_other (p : option User.t) (s : session) (k : string) :
  k <> "user"%string -> store (commit p s) !! k = store s !! k.
Proof.
  intros Hk. destruct (commit_cases p s) as [-> | ->]; [done|].
  by apply sync_user_other.
Qed.

(** After [commit] storage mirrors memory, unless nothing was set and
    storage held a stale entry. *)
Lemma user_effect_mirrors (s : session) : mirrors (user_effect s).
Proof. apply sync_user_user. Qed.

Lemma commit_mirrors (p : option User.t) (s : session) :
  (p = None -> user s = None -> store s !! "user" = None) -> mirrors (commit p s).
Proof.
  intros H. unfold commit.
  destruct p; [apply user_effect_mirrors|].
  destruct (user s) eqn:E; [apply user_effect_mirrors|].
  unfold mirrors. rewrite E. by apply H.
Qed.

Lemma commit_user_entry (p : option User.t) (s : session) :
  (p = None -> user s = None -> store s !! "user" = None) ->
  store (commit p s) !! "user" = StoredUser <$> user s.
Proof. intros H%commit_mirrors. unfold mirrors in H. by rewrite commit_user in H. Qed.

#[export] Hint Rewrite commit_user commit_loading commit_fetching sync_user_user : session_rw.

Lemma mount_shape (st : gmap string stored) :
  loading (mount st) = fetching (mount st) /\ mirrors (mount st).
Proof.
  unfold mount, fetch_user_begin. simpl.
  destruct (read_cached (st !! "user")) as [[u|]|];
    [destruct (stored_truthy (st !! "token"))..|];
    autorewrite with session_rw; (split; [done|]); apply commit_mirrors; simpl;
    intros; try discriminate; apply lookup_delete_eq.
Qed.

Ltac close_mirror :=
  apply commit_mirrors; simpl; intros; try discriminate; by simplify_map_eq.

Lemma set_flags_mirrors (l f : bool) (s : session) : mirrors (set_flags l f s) <-> mirrors s.
Proof. done. Qed.

Lemma index_visit_mirrors (s : session) : mirrors s -> mirrors (index_visit s).
Proof. unfold mirrors, index_visit. simpl. intros <-. by simplify_map_eq. Qed.

Lemma profile_logout_cases (c : bool) (s : session) :
  profile_logout c s = s \/ exists st, profile_logout c s = mount st.
Proof. unfold profile_logout. destruct c; eauto. Qed.

(** Every step keeps storage mirroring memory, and [loading] equal to
    [fetching]. *)
Lemma step_inv (e : event) (s : session) :
  mirrors s -> loading s = fetching s ->
  mirrors (step e s) /\ loading (step e s) = fetching (step e s).
Proof.
  intros Hm Hl. destruct e as [r| | | |r|c| |]; simpl.
  - destruct (fetching s) eqn:Ef; [|split; congruence].
    unfold fetch_user_end. rewrite set_flags_mirrors. split; [|by split].
    destruct r; [close_mirror | done | close_mirror | done].
  - destruct (loading s) eqn:El; [split; congruence|]. unfold ctx_login. autorewrite with session_rw. simpl.
    split; [close_mirror | congruence].
  - destruct (loading s) eqn:El; [split; congruence|]. unfold ctx_logout. autorewrite with session_rw. simpl.
    split; [close_mirror | congruence].
  - destruct (loading s) eqn:El; [split; congruence|]. unfold update_user. autorewrite with session_rw. simpl.
    split; [close_mirror | congruence].
  - destruct (loading s) eqn:El; [split; congruence|]. unfold handle_login.
    destruct r as [|[] [text|u err]]; simpl; try (split; congruence).
    autorewrite with session_rw. simpl. split; [close_mirror | congruence].
  - destruct (loading s) eqn:El; [split; congruence|].
    destruct (profile_logout_cases c s) as [-> | [st ->]]; [split; congruence|].
    destruct (mount_shape st); done.
  - destruct (loading s) eqn:El; [split; congruence|]. split; [by apply index_visit_mirrors | simpl; congruence].
  - destruct (mount_shape (store s)); done.
Qed.

Lemma mount_user (st : gmap string stored) :
  user (mount st) = match read_cached (st !! "user") with Some (Some u) => Some u | _ => None end.
Proof.
  unfold mount, fetch_user_begin. simpl. rewrite commit_user. simpl.
  destruct (read_cached (st !! "user")) as [[u|]|]; [destruct (stored_truthy _)..|]; done.
Qed.

Lemma mount_flags (st : gmap string stored) :
  loading (mount st) = (bool_decide (is_Some (read_cached (st !! "user"))) && stored_truthy (st !! "token")).
Proof.
  unfold mount, fetch_user_begin. simpl. rewrite commit_loading. simpl.
  destruct (read_cached (st !! "user")) as [[u|]|]; [destruct (stored_truthy _)..|]; done.
Qed.

Lemma fetch_user_begin_store (s : session) : store (fetch_user_begin s) = store s.
Proof.
  unfold fetch_user_begin.
  destruct (read_cached _) as [[u|]|]; [destruct (stored_truthy _)..|]; done.
Qed.

Lemma mount_store_other (st : gmap string stored) (k : string) :
  k <> "user"%string -> store (mount st) !! k = st !! k.
Proof.
  intros Hk. unfold mount. rewrite commit_store_other by done. simpl.
  rewrite lookup_delete_ne by done. by rewrite fetch_user_begin_store.
Qed.

Lemma mirrors_read_cached (s : session) :
  mirrors s -> read_cached (store s !! "user") = Some (user s).
Proof. unfold mirrors. intros ->. by destruct (user s). Qed.

Lemma fetch_end_other (r : current_response) (s : session) (k : string) :
  k <> "user"%string -> k <> "token"%string ->
  store (fetch_user_end r s) !! k = store s !! k.
Proof.
  intros Hu Ht. unfold fetch_user_end. simpl.
  destruct r; simpl; try done; rewrite commit_store_other by done; simpl; by simplify_map_eq.
Qed.

Lemma logout_storage (s : session) :
  let st := delete "isAuthenticated" (store (ctx_logout s)) in
  st !! "user" = None /\ st !! "token" = None /\ st !! "isAuthenticated" = None.
Proof.
  simpl. rewrite !lookup_delete_ne by done. unfold ctx_logout.
  rewrite commit_user_entry by (simpl; intros; by simplify_map_eq).
  rewrite commit_store_other by done. simpl. split; [done|]. split; [by simplify_map_eq|].
  apply lookup_delete_eq.
Qed.

#[export] Hint Rewrite mount_user commit_store_other : session_rw.

(** ** Theorems *)

(** C1: In every reachable state of the provider, [localStorage["user"]]
    holds exactly the serialised in-memory identity (and nothing when
    there is none), and [loading] is true exactly while [fetchUser]
    waits for [/api/users/current]. *)
Theorem session_invariant (s : session) :
  reachable s -> mirrors s /\ loading s = fetching s.
Proof.
  induction 1 as [st|e s _ [Hm Hl]].
  - destruct (mount_shape st). done.
  - by apply step_inv.
Qed.

(** C5: A page reload restores the identity: from every reachable state,
    the provider mounted on the persisted storage starts with the same
    in-memory identity. *)
Theorem reload_restores_identity (s : session) :
  reachable s -> user (step Reload s) = user s.
Proof.
  intros [Hm _]%session_invariant. simpl.
  rewrite mount_user, mirrors_read_cached by done. by destruct (user s).
Qed.

(** C6: A transient failure of the identity check (the request rejects,
    or a 2xx answer whose body is not JSON) keeps the cached identity in
    memory and in storage, and ends the loading phase. *)
Theorem transient_failure_keeps_identity (st : gmap string stored) (u : User.t)
    (r : current_response) :
  st !! "user" = Some (StoredUser u) -> stored_truthy (st !! "token") = true ->
  r = CurNetworkError \/ r = CurOkBadBody ->
  let s := step (FetchSettled r) (mount st) in
  user s = Some u /\ store s !! "user" = Some (StoredUser u) /\ loading s = false.
Proof.
  intros Hu Ht Hr. pose proof (mount_shape st) as [Hl Hm].
  assert (Hf : fetching (mount st) = true).
  { rewrite <- Hl, mount_flags, Hu, Ht. done. }
  simpl. rewrite Hf. unfold fetch_user_end.
  assert (Huser : user (mount st) = Some u) by (rewrite mount_user, Hu; done).
  destruct Hr as [-> | ->]; simpl; rewrite Hm, Huser; done.
Qed.

(** C7: An explicit rejection of the token (any non-2xx answer) clears
    the identity and the token together, in memory and in storage. *)
Theorem rejection_clears_session (s : session) (code : Z) :
  fetching s = true ->
  let s' := step (FetchSettled (CurRejected code)) s in
  user s' = None /\ store s' !! "user" = None /\ store s' !! "token" = None /\
  loading s' = false.
Proof.
  intros Hf. simpl. rewrite Hf. unfold fetch_user_end. simpl.
  rewrite commit_user. simpl. split; [done|].
  rewrite (commit_store_other _ _ "token") by done. simpl.
  split; [|split; [by simplify_map_eq | done]].
  unfold commit. destruct (user s); simpl; by simplify_map_eq.
Qed.

(** C9: [login(userData, token)] of the context stores exactly the
    identity under "user" and the token under "token", leaves every other
    key as it was, and sets the in-memory identity. *)
Theorem ctx_login_stores_pair (s : session) (u : User.t) (t : string) :
  loading s = false ->
  let s' := step (CallLogin u t) s in
  user s' = Some u /\ store s' !! "user" = Some (StoredUser u) /\
  store s' !! "token" = Some (StoredText t) /\
  (forall k, k <> "user"%string -> k <> "token"%string -> store s' !! k = store s !! k).
Proof.
  intros Hl. simpl. rewrite Hl. unfold ctx_login.
  rewrite commit_user. split; [done|].
  split; [rewrite commit_user_entry; simpl; [done | congruence]|].
  rewrite commit_store_other by done. simpl. split; [by simplify_map_eq|].
  intros k Hu Ht. rewrite commit_store_other by done. simpl. by simplify_map_eq.
Qed.

(** C10: The profile page's confirmed logout ends with no identity in
    memory and none of "user", "token" and "isAuthenticated" in storage;
    the reload it triggers does not start an identity check. *)
Theorem profile_logout_clears_all (s : session) :
  loading s = false ->
  let s' := step (ProfileLogout true) s in
  user s' = None /\ store s' !! "user" = None /\ store s' !! "token" = None /\
  store s' !! "isAuthenticated" = None /\ loading s' = false.
Proof.
  intros Hl. simpl. rewrite Hl. unfold profile_logout.
  set (st := delete "isAuthenticated" (store (ctx_logout s))).
  destruct (logout_storage s) as (Hu & Ht & Ha). fold st in Hu, Ht, Ha.
  assert (Hmu : user (mount st) = None) by (rewrite mount_user, Hu; done).
  pose proof (mount_shape st) as [_ Hm]. unfold mirrors in Hm. rewrite Hmu in Hm.
  split; [done|]. split; [done|].
  rewrite !mount_store_other by done. split; [done|]. split; [done|].
  rewrite mount_flags, Hu, Ht. done.
Qed.

(** C32: The login page opens a session without any token: after a
    successful [handleLogin] from a tokenless state the identity is set
    and "token" is absent, and after a reload the cached identity is
    restored with no identity check at all, so it is never reconciled
    with the server. *)
Theorem login_page_session_unverified (s : session) (u : User.t) (err : option string) :
  loading s = false -> store s !! "token" = None ->
  let s1 := step (SubmitLogin (LoginReply true (BodyJson u err))) s in
  let s2 := step Reload s1 in
  user s1 = Some u /\ store s1 !! "token" = None /\
  user s2 = Some u /\ loading s2 = false /\ fetching s2 = false.
Proof.
  intros Hl Ht. simpl. rewrite Hl. simpl.
  set (s1 := commit (user s) _).
  assert (Hu1 : store s1 !! "user" = Some (StoredUser u)).
  { subst s1. rewrite commit_user_entry; simpl; [done | congruence]. }
  assert (Ht1 : store s1 !! "token" = None).
  { subst s1. rewrite commit_store_other by done. simpl. by simplify_map_eq. }
  pose proof (mount_shape (store s1)) as [Hlf _].
  rewrite mount_user, Hu1, <- Hlf, mount_flags, Hu1, Ht1.
  subst s1. rewrite commit_user. done.
Qed.

(** The context's own [logout] clears identity and token but leaves
    the derived "isAuthenticated" flag as it was. *)
Theorem ctx_logout_keeps_auth_flag (s : session) :
  loading s = false ->
  let s' := step CallLogout s in
  user s' = None /\ store s' !! "user" = None /\ store s' !! "token" = None /\
  store s' !! "isAuthenticated" = store s !! "isAuthenticated".
Proof.
  intros Hl. simpl. rewrite Hl. unfold ctx_logout.
  rewrite commit_user, commit_user_entry by (simpl; intros; by simplify_map_eq).
  rewrite !commit_store_other by done. simpl. by simplify_map_eq.
Qed.

(** C33: After a rejected token the "isAuthenticated" flag survives while
    the identity is gone, so the login page redirects to /home and the
    gate sends /home back to /login: the two pages redirect to each other. *)
Theorem rejection_leaves_redirect_cycle (s : session) (code : Z) :
  fetching s = true -> login_page_redirects (store s) = true ->
  let s' := step (FetchSettled (CurRejected code)) s in
  login_page_redirects (store s') = true /\
  main_of (app_content s' "/home") = Some (Redirect "/login") /\
  main_of (app_content s' "/login") = Some (Render PLogin).
Proof.
  intros Hf Hr. simpl. rewrite Hf. unfold login_page_redirects in *.
  rewrite fetch_end_other by done. simpl. split; [done|].
  unfold fetch_user_end, app_content. simpl. rewrite commit_user. done.
Qed.

(** C8: The loading phase ends: whatever [/api/users/current] answers,
    the provider of a reachable state leaves [loading] when the request
    settles, and no event but a reload starts it again. *)
Theorem loading_phase_ends (s : session) :
  reachable s ->
  (forall r, loading (step (FetchSettled r) s) = false) /\
  (forall e, loading s = false -> e <> Reload -> loading (step e s) = false).
Proof.
  intros [_ Hl]%session_invariant. split.
  - intros r. simpl. destruct (fetching s) eqn:Hf; [done|]. congruence.
  - intros e Hl0 He. destruct e as [r| | | |r|c| |]; simpl; rewrite ?Hl0; try done.
    + destruct (fetching s); [done|]. congruence.
    + unfold ctx_login. by rewrite commit_loading.
    + unfold ctx_logout. by rewrite commit_loading.
    + unfold update_user. by rewrite commit_loading.
    + destruct r as [|[] [text|u err]]; simpl; try done. by rewrite commit_loading.
    + unfold profile_logout. destruct c; [|done].
      destruct (logout_storage s) as (_ & Ht & _).
      rewrite mount_flags, Ht. by rewrite andb_false_r.
Qed.

(** ** The login page's admin test and the gate's *)

Lemma upper_lower_letters (c : ascii) :
  (upper_char c =? "A")%char = (lower_char c =? "a")%char /\
  (upper_char c =? "D")%char = (lower_char c =? "d")%char /\
  (upper_char c =? "M")%char = (lower_char c =? "m")%char /\
  (upper_char c =? "I")%char = (lower_char c =? "i")%char /\
  (upper_char c =? "N")%char = (lower_char c =? "n")%char.
Proof. destruct c as [[] [] [] [] [] [] [] []]; vm_compute; repeat split. Qed.

Lemma upper_ADMIN_lower_admin (r : string) :
  (to_upper r === "ADMIN") = (to_lower r === "admin").
Proof.
  destruct r as [|c1 [|c2 [|c3 [|c4 [|c5 [|c6 r]]]]]]; simpl; try done;
    destruct (upper_lower_letters c1) as (-> & _);
    try destruct (upper_lower_letters c2) as (_ & -> & _);
    try destruct (upper_lower_letters c3) as (_ & _ & -> & _);
    try destruct (upper_lower_letters c4) as (_ & _ & _ & -> & _);
    try destruct (upper_lower_letters c5) as (_ & _ & _ & _ & ->);
    try done.
  all: destruct ((lower_char c1 =? "a")%char); simpl; try done.
  all: destruct ((lower_char c2 =? "d")%char); simpl; try done.
  all: destruct ((lower_char c3 =? "m")%char); simpl; try done.
  all: destruct ((lower_char c4 =? "i")%char); simpl; try done.
  all: destruct ((lower_char c5 =? "n")%char); simpl; try done.
Qed.

(** Without the e-mail heuristic the login page's admin test
    ([role?.toUpperCase() === 'ADMIN']) and the gate's
    ([role?.toLowerCase() === 'admin']) agree on every identity. *)
Theorem login_role_test_agrees_with_gate (u : User.t) :
  User.email u = None -> User.username u = None ->
  login_is_admin u = is_admin (Some u).
Proof.
  intros He Hn. unfold login_is_admin. rewrite He, Hn, is_admin_role, !orb_false_r.
  destruct (User.role u); [apply upper_ADMIN_lower_admin | done].
Qed.

(** The e-mail heuristic of the login page disagrees with the gate:
    an identity whose e-mail contains "@wildcatsf.com" but whose role is
    not "admin" is sent to /admin after login, and the gate then
    redirects it to /home. *)
Theorem login_heuristic_bounced_by_gate (s : session) (u : User.t) (e : string)
    (err : option string) :
  User.email u = Some e -> includes e "@wildcatsf.com" = true ->
  is_admin (Some u) = false ->
  let (s', res) := handle_login (LoginReply true (BodyJson u err)) s in
  res = LoginNavigate "/admin" /\
  (loading s' = false -> main_of (app_content s' "/admin") = Some (Redirect "/home")).
Proof.
  intros He Hi Ha. simpl. split.
  - unfold login_is_admin. rewrite He, Hi, orb_true_r. done.
  - intros Hl. rewrite app_content_ready by done. simpl.
    rewrite render_protected_cases, commit_user. simpl. by rewrite Ha.
Qed.

(** C4: In every reachable state in which the identity check is still
    in flight, the router shows only its loading screen, whatever the
    path: no redirect happens before the session is resolved. *)
Theorem no_redirect_while_resolving (s : session) (p : string) :
  reachable s -> fetching s = true -> app_content s p = Loading.
Proof.
  intros [_ Hl]%session_invariant Hf. unfold app_content. simpl.
  by rewrite Hl, Hf.
Qed.

(** ** Witnesses on concrete storages *)

Definition st_cached : gmap string stored :=
  <["token" := StoredText "t0k"]> (<["user" := StoredUser sample_user]> ∅).
Definition st_flagged : gmap string stored :=
  <["isAuthenticated" := StoredText "true"]> st_cached.
Definition login_ok (u : User.t) : event := SubmitLogin (LoginReply true (BodyJson u None)).
Definition s_logged : session := step (login_ok sample_user) (mount ∅).
Definition sample_staff : User.t :=
  User.mk (Some 7%Z) (Some "bo") (Some "bo@wildcatsf.com") (Some "USER") (Some "Bo") None None.
Definition sample_rolecase : User.t :=
  User.mk (Some 8%Z) None None (Some "aDmIn") None None None.

Lemma session_invariant_witness : reachable s_logged /\ mirrors s_logged.
Proof.
  assert (R : reachable s_logged) by (apply reachable_step, reachable_mount).
  split; [exact R | apply (session_invariant s_logged R)].
Defined.

Lemma reload_restores_identity_witness :
  reachable s_logged /\ user (step Reload s_logged) = Some sample_user.
Proof.
  assert (R : reachable s_logged) by (apply reachable_step, reachable_mount).
  split; [exact R|]. rewrite (reload_restores_identity s_logged R). vm_compute. reflexivity.
Defined.

Lemma transient_failure_keeps_identity_witness :
  st_cached !! "user" = Some (StoredUser sample_user) /\
  user (step (FetchSettled CurNetworkError) (mount st_cached)) = Some sample_user.
Proof.
  split; [vm_compute; reflexivity|].
  destruct (transient_failure_keeps_identity st_cached sample_user CurNetworkError)
    as [H _]; [vm_compute; reflexivity | vm_compute; reflexivity | left; reflexivity | exact H].
Defined.

Lemma rejection_clears_session_witness :
  fetching (mount st_cached) = true /\
  store (step (FetchSettled (CurRejected 401)) (mount st_cached)) !! "token" = None.
Proof.
  split; [vm_compute; reflexivity|].
  destruct (rejection_clears_session (mount st_cached) 401) as (_ & _ & H & _);
    [vm_compute; reflexivity | exact H].
Defined.

Lemma ctx_login_stores_pair_witness :
  loading s_logged = false /\
  store (step (CallLogin sample_user "tok") s_logged) !! "token" = Some (StoredText "tok").
Proof.
  split; [vm_compute; reflexivity|].
  destruct (ctx_login_stores_pair s_logged sample_user "tok") as (_ & _ & H & _);
    [vm_compute; reflexivity | exact H].
Defined.

Lemma profile_logout_clears_all_witness :
  loading s_logged = false /\
  store (step (ProfileLogout true) s_logged) !! "isAuthenticated" = None.
Proof.
  split; [vm_compute; reflexivity|].
  destruct (profile_logout_clears_all s_logged) as (_ & _ & _ & H & _);
    [vm_compute; reflexivity | exact H].
Defined.

Lemma login_page_session_unverified_witness :
  loading (mount ∅) = false /\ store (mount ∅) !! "token" = None /\
  user (step Reload (step (login_ok sample_user) (mount ∅))) = Some sample_user.
Proof.
  split; [vm_compute; reflexivity|]. split; [vm_compute; reflexivity|].
  destruct (login_page_session_unverified (mount ∅) sample_user None) as (_ & _ & H & _);
    [vm_compute; reflexivity | vm_compute; reflexivity | exact H].
Defined.

Lemma ctx_logout_keeps_auth_flag_witness :
  loading s_logged = false /\
  store (step CallLogout s_logged) !! "isAuthenticated" = Some (StoredText "true").
Proof.
  split; [vm_compute; reflexivity|].
  destruct (ctx_logout_keeps_auth_flag s_logged) as (_ & _ & _ & H);
    [vm_compute; reflexivity | rewrite H; vm_compute; reflexivity].
Defined.

Lemma rejection_leaves_redirect_cycle_witness :
  fetching (mount st_flagged) = true /\ login_page_redirects (store (mount st_flagged)) = true /\
  main_of (app_content (step (FetchSettled (CurRejected 403)) (mount st_flagged)) "/home")
    = Some (Redirect "/login").
Proof.
  split; [vm_compute; reflexivity|]. split; [vm_compute; reflexivity|].
  destruct (rejection_leaves_redirect_cycle (mount st_flagged) 403) as (_ & H & _);
    [vm_compute; reflexivity | vm_compute; reflexivity | exact H].
Defined.

Lemma loading_phase_ends_witness :
  reachable (mount st_cached) /\
  loading (step (FetchSettled CurNetworkError) (mount st_cached)) = false.
Proof.
  assert (R : reachable (mount st_cached)) by apply reachable_mount.
  split; [exact R | apply (proj1 (loading_phase_ends _ R))].
Defined.

Lemma login_role_test_agrees_with_gate_witness :
  User.email sample_rolecase = None /\ User.username sample_rolecase = None /\
  login_is_admin sample_rolecase = is_admin (Some sample_rolecase).
Proof.
  split; [reflexivity|]. split; [reflexivity|].
  apply login_role_test_agrees_with_gate; reflexivity.
Defined.

Lemma login_heuristic_bounced_by_gate_witness :
  is_admin (Some sample_staff) = false /\
  snd (handle_login (LoginReply true (BodyJson sample_staff None)) (mount ∅))
    = LoginNavigate "/admin".
Proof.
  split; [vm_compute; reflexivity|].
  pose proof (login_heuristic_bounced_by_gate (mount ∅) sample_staff "bo@wildcatsf.com" None
                eq_refl ltac:(vm_compute; reflexivity) ltac:(vm_compute; reflexivity)) as H.
  destruct (handle_login _ _) as [s' res]. destruct H as [H _]. exact H.
Defined.

Lemma no_redirect_while_resolving_witness :
  reachable (mount st_cached) /\ fetching (mount st_cached) = true /\
  app_content (mount st_cached) "/admin" = Loading.
Proof.
  assert (R : reachable (mount st_cached)) by apply reachable_mount.
  split; [exact R|]. split; [vm_compute; reflexivity|].
  apply (no_redirect_while_resolving _ _ R). vm_compute. reflexivity.
Defined.
