(* ===== verification/Display.v ===== *)
(** * How the client displays an identity

    The helpers that [pages/Profile/Profile.js],
    [components/sidebar/Sidebar.js] and
    [components/sidebar/AdminSidebar.js] each define for the identity
    they show ([getFullName], [getUserInitials], [getDisplayEmail] /
    [getDisplayUsername], [getDisplayRole]).  The three copies share one
    formula for the full name and differ in their fallbacks and in how
    initials are taken from an e-mail address.  The collapse and
    sub-menu toggles of the two sidebars are here too. *)

From stdpp Require Import base strings list.
From Stdlib Require Import Ascii String ZArith Lia.
From S2P Require Import Prelude Model Gate.

Local Open Scope js_scope.
Local Open Scope string_scope.

(** ** Names *)

(** The body shared by the three [getFullName]s: first name, middle
    initial, last name, trimmed; then [user.username], then [dflt]. *)
Definition full_name (u : User.t) (dflt : string) : string :=
  let firstName := opt_or (User.fname u) "" in
  let middleName := opt_or (User.mname u) "" in
  let lastName := opt_or (User.lname u) "" in
  let fullName := firstName in
  let fullName :=
    if truthy_str middleName && (trim middleName !== "")
    then fullName ++ " " ++ char_at0 middleName ++ "." else fullName in
  let fullName := if truthy_str lastName then fullName ++ " " ++ lastName else fullName in
  opt_or (Some (trim fullName)) (opt_or (User.username u) dflt).

(** Profile renders only with an identity (it leaves for /login otherwise). *)
Definition profile_full_name (u : User.t) : string := full_name u "User".

Definition sidebar_full_name (user : option User.t) : string :=
  match user with None => "Guest" | Some u => full_name u "User" end.

Definition admin_sidebar_full_name (user : option User.t) : string :=
  match user with None => "Admin" | Some u => full_name u "Admin User" end.

(** ** Initials *)

(** [if (user.fname) initials += user.fname.charAt(0).toUpperCase()]. *)
Definition first_upper (o : option string) : string :=
  match o with Some s => if truthy_str s then to_upper (char_at0 s) else "" | None => "" end.

Definition name_initials (u : User.t) : string := first_upper (User.fname u) ++ first_upper (User.lname u).

(** Profile: without names, the initials of "first.last@..." or the
    first letter of the address; "U" as the last resort.  [parts[1]]
    exists because [emailPart] contains a dot ([split_on_two]). *)
Definition profile_initials (u : User.t) : string :=
  let initials := name_initials u in
  let initials :=
    match User.username u with
    | Some name =>
        if negb (truthy_str initials) && truthy_str name then
          let emailPart := hd "" (split_on "@" name) in
          if includes emailPart "." then
            match split_on "." emailPart with
            | p0 :: p1 :: _ => to_upper (char_at0 p0 ++ char_at0 p1)
            | _ => to_upper (char_at0 emailPart)
            end
          else to_upper (char_at0 emailPart)
        else initials
    | None => initials
    end in
  if truthy_str initials then initials else "U".

(** The sidebars: [initials || user.username?.charAt(0).toUpperCase() ||
    dflt], and [guest] without an identity ("G"/"U" in Sidebar.js,
    "A"/"A" in AdminSidebar.js). *)
Definition sidebar_initials_with (guest dflt : string) (user : option User.t) : string :=
  match user with
  | None => guest
  | Some u =>
      let initials := name_initials u in
      if truthy_str initials then initials
      else match User.username u with
           | Some n => if truthy_str (to_upper (char_at0 n)) then to_upper (char_at0 n) else dflt
           | None => dflt
           end
  end.

Definition sidebar_initials : option User.t -> string := sidebar_initials_with "G" "U".
Definition admin_sidebar_initials : option User.t -> string := sidebar_initials_with "A" "A".

(** ** E-mail and role *)

Definition profile_display_email (u : User.t) : string :=
  opt_or (User.email u) (opt_or (User.username u) "No email").

Definition sidebar_display_username (user : option User.t) : string :=
  match user with
  | None => "guest@example.com"
  | Some u => opt_or (User.username u) (opt_or (User.email u) "user@example.com")
  end.

Definition admin_sidebar_display_username (user : option User.t) : string :=
  match user with
  | None => "admin@example.com"
  | Some u => opt_or (User.username u) (opt_or (User.email u) "admin@example.com")
  end.

(** [getDisplayRole]: capitalised, the rest lower case; "User" without
    a role. *)
Definition display_role (role : option string) : string :=
  match role with
  | Some r => if truthy_str r then to_upper (char_at0 r) ++ to_lower (slice1 r) else "User"
  | None => "User"
  end.

(** ** The sidebars' toggles *)

(** Sidebar.js's state, and the class [sidebar-collapsed] of
    [document.body] that both sidebars toggle. *)
Record sidebar_ui := mkSidebarUi {
  reportSubmenuOpen : bool; sidebarCollapsed : bool; body_collapsed : bool
}.

Definition sidebar_init (body : bool) : sidebar_ui := mkSidebarUi false false body.

(** [toggleReportSubmenu]: only while the sidebar is expanded. *)
Definition toggle_report_submenu (s : sidebar_ui) : sidebar_ui :=
  if negb (sidebarCollapsed s)
  then mkSidebarUi (negb (reportSubmenuOpen s)) (sidebarCollapsed s) (body_collapsed s)
  else s.

(** [toggleSidebar]: the tests read the value before the toggle, so the
    sub-menu is closed when the sidebar is expanded again. *)
Definition toggle_sidebar (s : sidebar_ui) : sidebar_ui :=
  mkSidebarUi (if sidebarCollapsed s then false else reportSubmenuOpen s)
              (negb (sidebarCollapsed s)) (negb (sidebarCollapsed s)).

(** [{!sidebarCollapsed && reportSubmenuOpen && (...)}]: the three
    report links are shown. *)
Definition submenu_shown (s : sidebar_ui) : bool := negb (sidebarCollapsed s) && reportSubmenuOpen s.

(** AdminSidebar.js's own [sidebarCollapsed] and [toggleSidebar], which
    toggles the same class of [document.body]. *)
Record admin_sidebar_ui := mkAdminSidebarUi { adminCollapsed : bool; admin_body_collapsed : bool }.

Definition admin_sidebar_init (body : bool) : admin_sidebar_ui := mkAdminSidebarUi false body.

Definition toggle_admin_sidebar (s : admin_sidebar_ui) : admin_sidebar_ui :=
  mkAdminSidebarUi (negb (adminCollapsed s)) (negb (adminCollapsed s)).

(** The identity panel at the bottom of each sidebar: expanded, the
    avatar with the initials and the name and e-mail beside it;
    collapsed, the avatar with the same text as its tooltip.  The admin
    sidebar adds "Administrator" whatever the role. *)
Record user_panel := mkUserPanel {
  up_initials : string; up_name : string; up_email : string; up_role : option string; up_tooltip : bool
}.

Definition sidebar_user_panel (collapsed : bool) (user : option User.t) : user_panel :=
  mkUserPanel (sidebar_initials user) (sidebar_full_name user) (sidebar_display_username user) None collapsed.

Definition admin_user_panel (collapsed : bool) (user : option User.t) : user_panel :=
  mkUserPanel (admin_sidebar_initials user) (admin_sidebar_full_name user)
              (admin_sidebar_display_username user) (Some "Administrator") collapsed.

(** ** Lemmas *)

Lemma truthy_str_length (s : string) : truthy_str s = true <-> (1 <= String.length s)%nat.
Proof. destruct s; simpl; split; (done || lia). Qed.

Lemma opt_or_nonempty (o : option string) (d : string) :
  d <> "" -> opt_or o d <> "".
Proof.
  intros Hd. destruct o as [s|]; simpl; [|done].
  destruct (truthy_str s) eqn:E; [by apply truthy_str_spec | done].
Qed.

(** A string [toUpperCase] leaves unchanged, of at most [n] characters. *)
Definition upper_word (n : nat) (s : string) : Prop :=
  to_upper s = s /\ (String.length s <= n)%nat.

Lemma upper_word_to_upper (n : nat) (s : string) :
  (String.length s <= n)%nat -> upper_word n (to_upper s).
Proof. intros H. split; [apply to_upper_idem | by rewrite to_upper_length]. Qed.

Lemma upper_word_app (m n : nat) (a b : string) :
  upper_word m a -> upper_word n b -> upper_word (m + n) (a ++ b).
Proof.
  intros [Ha La] [Hb Lb]. split; [by rewrite to_upper_app, Ha, Hb|].
  rewrite string_length_app. lia.
Qed.

Lemma first_upper_word (o : option string) : upper_word 1 (first_upper o).
Proof.
  destruct o as [s|]; simpl; [|split; simpl; (done || lia)].
  destruct (truthy_str s); [apply upper_word_to_upper, char_at0_length | split; simpl; (done || lia)].
Qed.

Lemma name_initials_word (u : User.t) : upper_word 2 (name_initials u).
Proof. apply (upper_word_app 1 1); apply first_upper_word. Qed.

Lemma char_pair_word (a b : string) : upper_word 2 (to_upper (char_at0 a ++ char_at0 b)).
Proof.
  apply upper_word_to_upper. rewrite string_length_app.
  pose proof (char_at0_length a). pose proof (char_at0_length b). lia.
Qed.

#[export] Hint Resolve name_initials_word char_pair_word first_upper_word : wf.

Lemma full_name_nonempty (u : User.t) (dflt : string) : dflt <> "" -> full_name u dflt <> "".
Proof. intros Hd. apply opt_or_nonempty, opt_or_nonempty, Hd. Qed.

(** ** Theorems *)


(** C25: Profile's displayed role is "Admin" exactly for the identities
    the gate treats as administrators: capitalising the role agrees
    with the gate's case-insensitive comparison. *)
Theorem display_role_admin_iff (u : User.t) :
  display_role (User.role u) = "Admin" <-> is_admin (Some u) = true.
Proof.
  rewrite is_admin_role. unfold display_role.
  destruct (User.role u) as [[|c r]|]; [split; done | | split; done].
  change (to_lower (String c r)) with (String (lower_char c) (to_lower r)).
  rewrite js_eqb_true. simpl. rewrite append_cons, append_nil_l. split.
  - intros [= Hc Hr]. apply upper_A_lower_a in Hc. by rewrite Hc, Hr.
  - intros [= Hc Hr]. apply upper_A_lower_a in Hc. by rewrite Hc, Hr.
Qed.

(** No copy of [getFullName] ever displays an empty name: Profile,
    Sidebar and AdminSidebar fall back on the username and then on a
    fixed word. *)
Theorem displayed_names_nonempty (user : option User.t) (u : User.t) :
  profile_full_name u <> "" /\ sidebar_full_name user <> "" /\ admin_sidebar_full_name user <> "".
Proof.
  split; [by apply full_name_nonempty|].
  split; destruct user; simpl; try done; by apply full_name_nonempty.
Qed.

(** A sidebar mounted after another one was collapsed starts expanded
    while the body keeps the class [sidebar-collapsed]: the class is only
    set by the toggles and never reset when a sidebar unmounts. *)
Theorem sidebar_remount_body_mismatch (body : bool) :
  let s := toggle_sidebar (sidebar_init body) in
  sidebarCollapsed s = true /\ body_collapsed s = true /\
  adminCollapsed (admin_sidebar_init (body_collapsed s)) = false /\
  admin_body_collapsed (admin_sidebar_init (body_collapsed s)) = true.
Proof. repeat split. Qed.

(** Expanding the sidebar again closes the report sub-menu, so the
    sub-menu is never shown right after an expansion. *)
Lemma toggle_sidebar_expand_closes (s : sidebar_ui) :
  sidebarCollapsed s = true -> submenu_shown (toggle_sidebar s) = false.
Proof. unfold toggle_sidebar, submenu_shown. intros ->. reflexivity. Qed.

(** After a toggle the body class agrees with the sidebar's state. *)
Lemma toggle_sidebar_body (s : sidebar_ui) :
  body_collapsed (toggle_sidebar s) = sidebarCollapsed (toggle_sidebar s).
Proof. reflexivity. Qed.
