(* ===== verification/Signup.v ===== *)
(** * Registration

    [pages/Signup/Signup.js]: the sign-up form, its [required] fields, and
    [handleSignup], which chooses the new account's role from the e-mail
    domain and sends it to [POST /api/users/register].  The server is not
    part of this repository; the design (section 6) says the register
    body carries the role and login answers with the user's fields and
    role, which [registered_user] writes out.  The browser's check of
    the two [type="email"] inputs is a parameter ([email_valid]) of the
    form's constraint check. *)

From stdpp Require Import base strings list.
From Stdlib Require Import String ZArith.
From S2P Require Import Prelude Model Gate Session.

Local Open Scope js_scope.

(** ** The form and the request *)

Record signup_form := mkSignupForm {
  s_username : string; s_password : string; s_fName : string; s_mName : string;
  s_lName : string; s_email : string; s_contactNo : string
}.

(** [{...formData, role: userRole}] *)
Record register_payload := mkRegister { rp_form : signup_form; rp_role : string }.

(** [formData.username.includes('@wildcatsf.com') ||
    formData.email.includes('@wildcatsf.com')] *)
Definition signup_is_admin (f : signup_form) : bool :=
  includes (s_username f) "@wildcatsf.com" || includes (s_email f) "@wildcatsf.com".

Definition signup_payload (f : signup_form) : register_payload :=
  mkRegister f (if signup_is_admin f then "ADMIN" else "USER").

(** The answer of the register endpoint: [response.ok] with its text, or
    [fetch] rejecting. *)
Inductive signup_response :=
  | SignupReply (ok : bool) (responseText : string)
  | SignupThrows.

Record signup_page := mkSignupPage {
  sp_loading : bool; sp_message : string; sp_msgType : string;
  sp_navigate : option string    (** the [navigate] scheduled by [setTimeout] *)
}.

Definition signup_initial : signup_page := mkSignupPage false "" "info" None.

(** [handleSignup]: the page after the [finally], and the body posted. *)
Definition handle_signup (f : signup_form) (r : signup_response) (p : signup_page)
    : signup_page * register_payload :=
  let isAdmin := signup_is_admin f in
  let page :=
    match r with
    | SignupReply true _ =>
        mkSignupPage false (if isAdmin then "Admin account created successfully!"
                            else "Account created successfully!") "success" (Some "/login")
    | SignupReply false text =>
        mkSignupPage false (if truthy_str text then text else "Signup failed.") "error"
                     (sp_navigate p)
    | SignupThrows =>
        mkSignupPage false "Something went wrong. Please try again." "error" (sp_navigate p)
    end in
  (page, signup_payload f).

Section Form.

(** The browser's validity test of a [type="email"] input's value. *)
Variable email_valid : string -> bool.

(** The [required] inputs (all but the middle name) and the two e-mail
    inputs' format: the browser fires [onSubmit] only when they pass;
    the button is disabled while a request is in flight. *)
Definition signup_form_complete (f : signup_form) : bool :=
  truthy_str (s_username f) && truthy_str (s_password f) && truthy_str (s_fName f) &&
  truthy_str (s_lName f) && truthy_str (s_email f) && truthy_str (s_contactNo f) &&
  email_valid (s_username f) && email_valid (s_email f).

Definition submit_signup_form (f : signup_form) (r : signup_response) (p : signup_page)
    : signup_page * option register_payload :=
  if negb (sp_loading p) && signup_form_complete f
  then let (p', body) := handle_signup f r p in (p', Some body)
  else (p, None).

End Form.

(** ** The server's side, as the design states it *)

(** The account created from a register body, as login returns it. *)
Definition registered_user (b : register_payload) (id : Z) : User.t :=
  let f := rp_form b in
  User.mk (Some id) (Some (s_username f)) (Some (s_email f)) (Some (rp_role b))
          (Some (s_fName f)) (Some (s_mName f)) (Some (s_lName f)).

(** ** Lemmas *)

Lemma submit_signup_sends (ev : string -> bool) (f : signup_form) (r : signup_response)
    (p : signup_page) (b : register_payload) :
  snd (submit_signup_form ev f r p) = Some b <->
  sp_loading p = false /\ signup_form_complete ev f = true /\ b = signup_payload f.
Proof.
  unfold submit_signup_form. destruct (sp_loading p), (signup_form_complete ev f); simpl;
    split; try (intros [? [? ?]]; discriminate); try done.
  - by intros [= <-].
  - by intros (_ & _ & ->).
Qed.

(** ** Theorems *)

(** The role Signup sends makes the account an administrator for
    the gate exactly when the address or username contains
    "@wildcatsf.com": "ADMIN" passes the gate's case-insensitive test
    and "USER" does not. *)
Theorem signup_role_matches_gate (f : signup_form) (id : Z) :
  is_admin (Some (registered_user (signup_payload f) id)) = signup_is_admin f.
Proof. unfold signup_payload. rewrite is_admin_role. simpl. by destruct (signup_is_admin f). Qed.

(** C13: Anyone can make themselves an administrator: a sign-up whose
    e-mail merely contains "@wildcatsf.com" (for instance
    "eve@wildcatsf.com.example.org") sends role "ADMIN"; once the server
    has stored it, logging in with that account opens /admin, rendered
    with the admin sidebar. *)
Theorem signup_self_assigned_admin (ev : string -> bool) (f : signup_form) (t : string)
    (p : signup_page) (id : Z) (s : session) :
  sp_loading p = false -> signup_form_complete ev f = true ->
  includes (s_email f) "@wildcatsf.com" = true -> loading s = false ->
  exists b, snd (submit_signup_form ev f (SignupReply true t) p) = Some b /\
    rp_role b = "ADMIN" /\
    app_content (fst (handle_login (LoginReply true (BodyJson (registered_user b id) None)) s))
      "/admin" = Shell (Some AdminSidebar) (Some (Render PAdminDashboard)).
Proof.
  intros Hl Hc He Hs. exists (signup_payload f).
  split; [by apply submit_signup_sends|].
  assert (Ha : signup_is_admin f = true) by (unfold signup_is_admin; rewrite He; apply orb_true_r).
  split; [unfold signup_payload; by rewrite Ha|].
  rewrite app_content_ready by (simpl; by rewrite commit_loading).
  simpl. rewrite commit_user. simpl.
  pose proof (signup_role_matches_gate f id) as Hg. rewrite Ha in Hg.
  rewrite render_protected_cases. simpl. by rewrite Hg.
Qed.

(** ** Witnesses *)

(** An address outside the university that merely contains the domain. *)
Definition eve_form : signup_form :=
  mkSignupForm "eve@wildcatsf.com.example.org" "secret" "Eve" "" "Ng"
               "eve@wildcatsf.com.example.org" "09170000000".

(** A browser check that wants an "@" in the address. *)
Definition has_at (s : string) : bool := includes s "@".

Lemma signup_self_assigned_admin_witness :
  signup_form_complete has_at eve_form = true /\
  includes (s_email eve_form) "@wildcatsf.com" = true /\
  exists b, snd (submit_signup_form has_at eve_form (SignupReply true "") signup_initial) = Some b /\
    rp_role b = "ADMIN" /\
    app_content (fst (handle_login (LoginReply true (BodyJson (registered_user b 41) None)) (mount ∅)))
      "/admin" = Shell (Some AdminSidebar) (Some (Render PAdminDashboard)).
Proof.
  split; [vm_compute; reflexivity|]. split; [vm_compute; reflexivity|].
  apply (signup_self_assigned_admin has_at eve_form "" signup_initial 41 (mount ∅));
    vm_compute; reflexivity.
Defined.
