(* ===== verification/Message.v ===== *)
(** * The transient message and its timers

    [components/message/message.js], as used by Login.js, Signup.js and
    ReportItem.js: the parent owns the text and passes
    [onClose={() => setMessage("")}], a new function at every render of
    the parent.  The component's effect on [[text, duration, onClose]]
    shows the text and starts a hide timer; the hide timer schedules
    [onClose] five seconds later; the close button does the same at once.
    The effect's cleanup cancels only the hide timer.

    Time is explicit: [now] in milliseconds, a [Wait] event lets time
    pass up to the next timer, and [Fire] runs the timer that is due
    first.  [duration] is a parameter of every definition (all three
    pages pass 5000). *)

From stdpp Require Import base strings list.
From Stdlib Require Import String ZArith Lia.
From S2P Require Import Prelude.

Local Open Scope js_scope.
Local Open Scope Z_scope.

Record msg := mkMsg {
  now : Z;
  text : string;               (** the parent's state, passed as [text] *)
  visible : bool;
  hide_due : option Z;         (** the effect's [setTimeout(..., duration)] *)
  close_dues : list Z          (** pending [setTimeout(() => onClose?.(), 5000)] *)
}.

Definition msg_init : msg := mkMsg 0 "" false None [].

Section Timers.

Variable duration : Z.

(** The effect of the current render: the cleanup clears the previous
    hide timer; a non-empty text is shown and a new hide timer started. *)
Definition run_effect (s : msg) : msg :=
  if truthy_str (text s) then mkMsg (now s) (text s) true (Some (now s + duration)) (close_dues s)
  else mkMsg (now s) (text s) (visible s) None (close_dues s).

(** The parent sets the text: React re-renders only if it changed. *)
Definition set_text (t : string) (s : msg) : msg :=
  if t === text s then s else run_effect (mkMsg (now s) t (visible s) (hide_due s) (close_dues s)).

(** [handleClose] *)
Definition handle_close (s : msg) : msg :=
  mkMsg (now s) (text s) false (hide_due s) (close_dues s ++ [now s + 5000]).

Fixpoint min_due (l : list Z) : option Z :=
  match l with
  | [] => None
  | t :: l' => match min_due l' with Some m => Some (Z.min t m) | None => Some t end
  end.

(** The time of the next timer, if any. *)
Definition next_due (s : msg) : option Z :=
  match hide_due s, min_due (close_dues s) with
  | Some h, Some c => Some (Z.min h c)
  | Some h, None => Some h
  | None, c => c
  end.

Fixpoint remove_first (t : Z) (l : list Z) : list Z :=
  match l with
  | [] => []
  | x :: l' => if x =? t then l' else x :: remove_first t l'
  end.

(** The timer due first fires (the hide timer on a tie, as it was
    started first).  [onClose] sets the parent's text to "", which
    re-renders and re-runs the effect. *)
Definition fire (s : msg) : option msg :=
  match hide_due s, min_due (close_dues s) with
  | Some h, Some c =>
      if h <=? c then Some (mkMsg h (text s) false None (close_dues s ++ [h + 5000]))
      else Some (set_text "" (mkMsg c (text s) (visible s) (hide_due s) (remove_first c (close_dues s))))
  | Some h, None => Some (mkMsg h (text s) false None (close_dues s ++ [h + 5000]))
  | None, Some c => Some (set_text "" (mkMsg c (text s) (visible s) None (remove_first c (close_dues s))))
  | None, None => None
  end.

Inductive msg_event :=
  | SetText (t : string)       (** the parent calls [setMessage(t)] *)
  | ParentRender               (** any other state change of the parent *)
  | CloseClick                 (** the "×" button, shown with the text *)
  | Wait (dt : Z)              (** time passes, up to the next timer *)
  | Fire.                      (** the next timer fires *)

Definition msg_step (e : msg_event) (s : msg) : option msg :=
  match e with
  | SetText t => Some (set_text t s)
  | ParentRender => Some (run_effect s)
  | CloseClick => if truthy_str (text s) then Some (handle_close s) else None
  | Wait dt =>
      if (0 <=? dt) && match next_due s with Some t => now s + dt <=? t | None => true end
      then Some (mkMsg (now s + dt) (text s) (visible s) (hide_due s) (close_dues s)) else None
  | Fire => fire s
  end.

Fixpoint msg_run (es : list msg_event) (s : msg) : option msg :=
  match es with
  | [] => Some s
  | e :: es' => match msg_step e s with Some s' => msg_run es' s' | None => None end
  end.

Inductive msg_reachable : msg -> Prop :=
  | msg_reachable_init : msg_reachable msg_init
  | msg_reachable_step (e : msg_event) (s s' : msg) :
      msg_reachable s -> msg_step e s = Some s' -> msg_reachable s'.

End Timers.

(** Timers are due in the future, within [duration] (hide) or five
    seconds (close), and a shown text always has a timer that dismisses it. *)
Definition msg_wf (duration : Z) (s : msg) : Prop :=
  (truthy_str (text s) = true -> hide_due s <> None \/ close_dues s <> []) /\
  (forall h, hide_due s = Some h -> now s <= h <= now s + duration) /\
  Forall (fun c => now s <= c <= now s + 5000) (close_dues s).

(** ** Lemmas *)

Lemma min_due_spec (l : list Z) (m : Z) :
  min_due l = Some m -> m ∈ l /\ Forall (fun x => m <= x) l.
Proof.
  revert m. induction l as [|t l IH]; intros m; simpl; [done|].
  destruct (min_due l) as [m'|] eqn:E.
  - intros [= <-]. destruct (IH m' eq_refl) as [Hin%list_elem_of_In Hall].
    rewrite list_elem_of_In. split.
    + destruct (Z.min_spec t m') as [[_ ->]|[_ ->]]; [by left | by right].
    + constructor; [lia|]. eapply Forall_impl; [exact Hall|]. simpl. lia.
  - intros [= <-]. split; [rewrite list_elem_of_In; by left|]. destruct l; [by constructor|].
    simpl in E. by destruct (min_due l).
Qed.

Lemma min_due_none (l : list Z) : min_due l = None <-> l = [].
Proof. destruct l; simpl; [done|]. destruct (min_due l); done. Qed.

Lemma min_due_app_le (l : list Z) (x m : Z) : min_due (l ++ [x]) = Some m -> m <= x.
Proof.
  intros [_ Hall]%min_due_spec. apply Forall_app in Hall as [_ Hx]. by inversion Hx.
Qed.

Lemma min_due_app_some (l : list Z) (x : Z) : exists m, min_due (l ++ [x]) = Some m.
Proof. destruct (min_due (l ++ [x])) eqn:E; [eauto|]. apply min_due_none in E. by destruct l. Qed.

Lemma snoc_not_nil (l : list Z) (x : Z) : l ++ [x] <> [].
Proof. by destruct l. Qed.

Lemma remove_first_forall (P : Z -> Prop) (t : Z) (l : list Z) :
  Forall P l -> Forall P (remove_first t l).
Proof.
  induction 1 as [|x l Hx Hl IH]; simpl; [constructor|].
  destruct (x =? t); [done | by constructor].
Qed.

Lemma set_text_empty (d : Z) (s : msg) : text (set_text d "" s) = "".
Proof.
  unfold set_text. destruct ("" === text s) eqn:E; [|reflexivity].
  symmetry. by apply js_eqb_true.
Qed.

(** [set_text ""] never starts a timer and keeps the close timers. *)
Lemma set_text_empty_timers (d : Z) (s : msg) :
  now (set_text d "" s) = now s /\ close_dues (set_text d "" s) = close_dues s /\
  (hide_due (set_text d "" s) = None \/ hide_due (set_text d "" s) = hide_due s).
Proof. unfold set_text, run_effect. destruct ("" === text s); simpl; auto. Qed.

Lemma run_effect_wf (d : Z) (s : msg) :
  0 <= d -> Forall (fun c => now s <= c <= now s + 5000) (close_dues s) ->
  msg_wf d (run_effect d s).
Proof.
  intros Hd Hc. unfold msg_wf, run_effect. destruct (truthy_str (text s)) eqn:E; simpl.
  - split; [intros _; left; discriminate|]. split; [intros h [= <-]; lia | done].
  - split; [rewrite E; done|]. split; [done | done].
Qed.

Lemma forall_shift (lo lo' hi hi' : Z) (l : list Z) :
  lo' <= lo -> hi <= hi' -> Forall (fun c => lo <= c <= hi) l -> Forall (fun c => lo' <= c <= hi') l.
Proof. intros H1 H2 Hl. eapply Forall_impl; [exact Hl|]. simpl. lia. Qed.

Lemma fire_wf (d : Z) (s s' : msg) : 0 <= d -> msg_wf d s -> fire d s = Some s' -> msg_wf d s'.
Proof.
  intros Hd (Hi & Hh & Hc). unfold msg_wf, fire.
  destruct (hide_due s) as [h|] eqn:Eh, (min_due (close_dues s)) as [c|] eqn:Ec.
  - destruct (min_due_spec _ _ Ec) as [Hin Hmin]. specialize (Hh h eq_refl).
    destruct (h <=? c) eqn:Hle; intros [= <-].
    + apply Z.leb_le in Hle. split; [intros _; right; apply snoc_not_nil|].
      split; [done|]. simpl. apply Forall_app. split; [|constructor; [lia | constructor]].
      rewrite Forall_forall in Hmin, Hc |- *. intros x Hx.
      pose proof (Hmin x Hx). pose proof (Hc x Hx). lia.
    + apply Z.leb_gt in Hle. rewrite Forall_forall in Hc. pose proof (Hc c Hin) as Hcc.
      destruct (set_text_empty_timers d (mkMsg c (text s) (visible s) (Some h) (remove_first c (close_dues s))))
        as (Hn & Hcl & Hhd).
      split; [rewrite set_text_empty; done|]. simpl in Hn, Hcl, Hhd. rewrite Hn, Hcl. split.
      * intros h' Hh'. destruct Hhd as [Hhd|Hhd]; rewrite Hhd in Hh'; [done|]. injection Hh' as <-. lia.
      * apply remove_first_forall. rewrite Forall_forall. intros x Hx.
        split; [rewrite Forall_forall in Hmin; by apply Hmin | pose proof (Hc x Hx); lia].
  - intros [= <-]. specialize (Hh h eq_refl). split; [intros _; right; apply snoc_not_nil|].
    split; [done|]. apply min_due_none in Ec. simpl. rewrite Ec. simpl. constructor; [lia | constructor].
  - destruct (min_due_spec _ _ Ec) as [Hin Hmin]. rewrite Forall_forall in Hc. pose proof (Hc c Hin).
    intros [= <-].
    destruct (set_text_empty_timers d (mkMsg c (text s) (visible s) None (remove_first c (close_dues s))))
      as (Hn & Hcl & Hhd).
    split; [rewrite set_text_empty; done|]. simpl in Hn, Hcl, Hhd. rewrite Hn, Hcl. split.
    + intros h' Hh'. by destruct Hhd as [Hhd|Hhd]; rewrite Hhd in Hh'.
    + apply remove_first_forall. rewrite Forall_forall. intros x Hx.
      split; [rewrite Forall_forall in Hmin; by apply Hmin | pose proof (Hc x Hx); lia].
  - done.
Qed.

Lemma next_due_some (s : msg) (t : Z) :
  next_due s = Some t ->
  (forall h, hide_due s = Some h -> t <= h) /\ Forall (fun c => t <= c) (close_dues s).
Proof.
  unfold next_due. destruct (hide_due s) as [h|], (min_due (close_dues s)) as [c|] eqn:Ec;
    intros Ht; simplify_eq.
  - destruct (min_due_spec _ _ Ec) as [_ Hm]. split; [intros ? [= <-]; lia|].
    eapply Forall_impl; [exact Hm|]. simpl. lia.
  - apply min_due_none in Ec. rewrite Ec. split; [intros ? [= <-]; lia | constructor].
  - destruct (min_due_spec _ _ Ec) as [_ Hm]. done.
Qed.

Lemma next_due_none (s : msg) : next_due s = None -> hide_due s = None /\ close_dues s = [].
Proof.
  unfold next_due. destruct (hide_due s), (min_due (close_dues s)) eqn:Ec; try done.
  intros _. by rewrite <- min_due_none.
Qed.

Lemma wait_wf (d dt : Z) (s : msg) :
  msg_wf d s -> 0 <= dt ->
  match next_due s with Some t => now s + dt <= t | None => True end ->
  msg_wf d (mkMsg (now s + dt) (text s) (visible s) (hide_due s) (close_dues s)).
Proof.
  intros (Hi & Hh & Hc) Hdt Hnext. unfold msg_wf; simpl. split; [done|].
  destruct (next_due s) as [t|] eqn:Et.
  - destruct (next_due_some s t Et) as [Hth Htc]. split.
    + intros h Hs. pose proof (Hh h Hs). pose proof (Hth h Hs). lia.
    + rewrite Forall_forall in Hc, Htc |- *. intros x Hx. pose proof (Hc x Hx). pose proof (Htc x Hx). lia.
  - destruct (next_due_none s Et) as [-> ->]. split; [done | constructor].
Qed.

Lemma msg_step_wf (d : Z) (e : msg_event) (s s' : msg) :
  0 <= d -> msg_wf d s -> msg_step d e s = Some s' -> msg_wf d s'.
Proof.
  intros Hd Hs. pose proof Hs as (Hi & Hh & Hc).
  destruct e as [t| | |dt|]; simpl.
  - intros [= <-]. unfold set_text. destruct (t === text s); [done|]. by apply run_effect_wf.
  - intros [= <-]. by apply run_effect_wf.
  - destruct (truthy_str (text s)); intros; simplify_eq. unfold msg_wf, handle_close; simpl.
    split; [intros _; right; apply snoc_not_nil|]. split; [done|].
    apply Forall_app. split; [done | constructor; [lia | constructor]].
  - destruct (0 <=? dt) eqn:Hdt; [|done]. simpl. apply Z.leb_le in Hdt.
    destruct (next_due s) as [t|] eqn:Et.
    + destruct (now s + dt <=? t) eqn:Hle; [|done]. intros [= <-]. apply wait_wf; [done|done|].
      rewrite Et. by apply Z.leb_le.
    + intros [= <-]. apply wait_wf; [done|done|]. by rewrite Et.
  - by apply fire_wf.
Qed.

Lemma msg_reachable_wf (d : Z) (s : msg) : 0 <= d -> msg_reachable d s -> msg_wf d s.
Proof.
  intros Hd. induction 1 as [|e s s' _ IH Hstep].
  - unfold msg_wf. simpl. split; [done|]. split; [done | constructor].
  - by eapply msg_step_wf.
Qed.

Lemma msg_run_cons (d : Z) (e : msg_event) (es : list msg_event) (s s' : msg) :
  msg_step d e s = Some s' -> msg_run d (e :: es) s = msg_run d es s'.
Proof. simpl. by intros ->. Qed.

Lemma set_text_changed (d : Z) (t : string) (s : msg) :
  t <> text s -> set_text d t s = run_effect d (mkMsg (now s) t (visible s) (hide_due s) (close_dues s)).
Proof. intros Hne. unfold set_text. by rewrite js_eqb_false. Qed.

Lemma run_effect_shown (d n : Z) (t : string) (v : bool) (h : option Z) (l : list Z) :
  t <> ""%string -> run_effect d (mkMsg n t v h l) = mkMsg n t true (Some (n + d)) l.
Proof. intros Ht. unfold run_effect. simpl. by rewrite (proj2 (truthy_str_spec t) Ht). Qed.

(** After a hide timer fired, the next [Fire] is a close, due at the
    latest five seconds after the hide. *)
Lemma fire_after_hide (d n x : Z) (t : string) (l : list Z) :
  exists s', fire d (mkMsg n t false None (l ++ [x])) = Some s' /\ text s' = EmptyString /\ now s' <= x.
Proof.
  destruct (min_due_app_some l x) as [m Hm]. eexists. unfold fire. simpl. rewrite Hm.
  split; [reflexivity|]. split; [apply set_text_empty|].
  rewrite (proj1 (set_text_empty_timers _ _)). simpl. by apply min_due_app_le in Hm.
Qed.

(** A close timer that fires clears the text. *)
Lemma fire_close (d c : Z) (s : msg) (h : option Z) :
  text (set_text d "" (mkMsg c (text s) (visible s) h (remove_first c (close_dues s)))) = ""%string /\
  now (set_text d "" (mkMsg c (text s) (visible s) h (remove_first c (close_dues s)))) = c.
Proof. split; [apply set_text_empty | by rewrite (proj1 (set_text_empty_timers _ _))]. Qed.

Lemma close_due_bound (s : msg) (c : Z) :
  Forall (fun c => now s <= c <= now s + 5000) (close_dues s) -> min_due (close_dues s) = Some c ->
  now s <= c <= now s + 5000.
Proof.
  intros Hc Ec. destruct (min_due_spec _ _ Ec) as [Hin _]. rewrite Forall_forall in Hc. by apply Hc.
Qed.

(** ** Theorems *)

(** Every state the message can reach satisfies the timer invariant:
    a shown text always has a pending hide or close timer, no timer is
    due in the past, the hide timer is due within [duration] and every
    close timer within five seconds. *)
Theorem msg_invariant (d : Z) (s : msg) :
  0 <= d -> msg_reachable d s ->
  (truthy_str (text s) = true -> hide_due s <> None \/ close_dues s <> []) /\
  (forall h, hide_due s = Some h -> now s <= h <= now s + d) /\
  Forall (fun c => now s <= c <= now s + 5000) (close_dues s).
Proof. intros Hd Hr. exact (msg_reachable_wf d s Hd Hr). Qed.

(** C39: A shown message is always dismissed: from any reachable state
    with a non-empty text, one or two timer firings (hide then close)
    set the parent's text to "", at most [duration] + 5000 ms later. *)
Theorem msg_text_dismissed (d : Z) (s : msg) :
  0 <= d -> msg_reachable d s -> truthy_str (text s) = true ->
  exists s', (msg_run d [Fire] s = Some s' \/ msg_run d [Fire; Fire] s = Some s') /\
             text s' = EmptyString /\ now s' <= now s + d + 5000.
Proof.
  intros Hd Hr Ht. destruct (msg_reachable_wf d s Hd Hr) as (Hi & Hh & Hc).
  destruct (hide_due s) as [h|] eqn:Eh; [specialize (Hh h eq_refl)|];
    destruct (min_due (close_dues s)) as [c|] eqn:Ec.
  - destruct (h <=? c) eqn:Hle.
    + assert (Hf1 : fire d s = Some (mkMsg h (text s) false None (close_dues s ++ [h + 5000])))
        by (unfold fire; by rewrite Eh, Ec, Hle).
      destruct (fire_after_hide d h (h + 5000) (text s) (close_dues s)) as (s' & Hf & Htx & Hn).
      exists s'. split; [right; cbn; by rewrite Hf1, Hf|]. split; [done | lia].
    + pose proof (close_due_bound s c Hc Ec). destruct (fire_close d c s (Some h)) as [Htx Hn].
      eexists. split; [left; cbn; unfold fire; rewrite Eh, Ec, Hle; reflexivity|].
      rewrite Htx, Hn. split; [done | lia].
  - assert (Hf1 : fire d s = Some (mkMsg h (text s) false None (close_dues s ++ [h + 5000])))
      by (unfold fire; by rewrite Eh, Ec).
    destruct (fire_after_hide d h (h + 5000) (text s) (close_dues s)) as (s' & Hf & Htx & Hn).
    exists s'. split; [right; cbn; by rewrite Hf1, Hf|]. split; [done | lia].
  - pose proof (close_due_bound s c Hc Ec). destruct (fire_close d c s None) as [Htx Hn].
    eexists. split; [left; cbn; unfold fire; rewrite Eh, Ec; reflexivity|].
    rewrite Htx, Hn. split; [done | lia].
  - exfalso. apply min_due_none in Ec. destruct (Hi Ht); done.
Qed.

Lemma wait_step (d dt t : Z) (s : msg) :
  0 <= dt -> next_due s = Some t -> now s + dt <= t ->
  msg_step d (Wait dt) s = Some (mkMsg (now s + dt) (text s) (visible s) (hide_due s) (close_dues s)).
Proof.
  intros Hdt Ht Hle. unfold msg_step. rewrite Ht.
  by rewrite (proj2 (Z.leb_le _ _) Hdt), (proj2 (Z.leb_le _ _) Hle).
Qed.

Lemma set_text_step (d : Z) (t : string) (s : msg) :
  t <> ""%string -> t <> text s ->
  msg_step d (SetText t) s = Some (mkMsg (now s) t true (Some (now s + d)) (close_dues s)).
Proof. intros Ht Hne. simpl. rewrite set_text_changed by done. by rewrite run_effect_shown. Qed.

(** C40: A stale close timer cuts the next message short.  The parent
    shows [a]; its hide timer fires at [d] and schedules [onClose] for
    [d] + 5000.  A new text [b] set [g] ms later does not cancel that
    close (the cleanup clears only the hide timer), so [b] is erased at
    [d] + 5000, after only 5000 - [g] ms, less than its own [duration]. *)
Theorem msg_stale_close_cuts_next (d g : Z) (a b : string) :
  0 <= g -> g < 5000 -> 5000 < d + g -> a <> ""%string -> b <> ""%string -> b <> a ->
  exists s, msg_run d [SetText a; Fire; Wait g; SetText b; Fire] msg_init = Some s /\
    text s = EmptyString /\ now s = d + 5000 /\ now s - (d + g) < d.
Proof.
  intros Hg0 Hg Hdg Ha Hb Hba.
  rewrite (msg_run_cons _ _ _ _ _ (set_text_step d a msg_init Ha Ha)).
  rewrite (msg_run_cons _ _ _ _ (mkMsg d a false None [d + 5000])) by reflexivity.
  rewrite (msg_run_cons _ _ _ _ _ (wait_step d g (d + 5000) (mkMsg d a false None [d + 5000]) Hg0 eq_refl ltac:(simpl; lia))).
  rewrite (msg_run_cons _ _ _ _ _ (set_text_step d b (mkMsg (d + g) a false None [d + 5000]) Hb Hba)). cbn [now close_dues].
  pose (s5 := set_text d "" (mkMsg (d + 5000) b true (Some (d + g + d)) (remove_first (d + 5000) [d + 5000]))).
  exists s5. split.
  - cbn [msg_run msg_step]. unfold fire. cbn [hide_due close_dues min_due].
    by rewrite (proj2 (Z.leb_gt _ _)) by lia.
  - destruct (fire_close d (d + 5000) (mkMsg (d + g) b true (Some (d + g + d)) [d + 5000]) (Some (d + g + d)))
      as [Htx Hn].
    unfold s5. cbn [text visible close_dues] in Htx, Hn. rewrite Htx, Hn. split; [done | lia].
Qed.

(** Any re-render of the parent restarts the hide timer, because
    [onClose] is a new function at each render and is a dependency of
    the effect: a text shown at time 0 and followed by any other state
    change of the page at time [r] is still shown at [r] + [d] - 1, at
    or past its [duration]. *)
Theorem msg_rerender_restarts_hide (d r : Z) (t : string) :
  0 < r <= d -> t <> ""%string ->
  exists s, msg_run d [SetText t; Wait r; ParentRender; Wait (d - 1)] msg_init = Some s /\
    text s = t /\ visible s = true /\ hide_due s = Some (r + d) /\ now s = r + d - 1 /\ d <= now s.
Proof.
  intros Hr Ht.
  rewrite (msg_run_cons _ _ _ _ _ (set_text_step d t msg_init Ht Ht)).
  rewrite (msg_run_cons _ _ _ _ _ (wait_step d r (0 + d) (mkMsg 0 t true (Some (0 + d)) []) ltac:(lia) eq_refl ltac:(simpl; lia))).
  rewrite (msg_run_cons _ _ _ _ (mkMsg (0 + r) t true (Some (0 + r + d)) [])) by
    (simpl; by rewrite run_effect_shown).
  rewrite (msg_run_cons _ _ _ _ _ (wait_step d (d - 1) (0 + r + d) (mkMsg (0 + r) t true (Some (0 + r + d)) []) ltac:(lia) eq_refl ltac:(simpl; lia))).
  eexists. split; [reflexivity|]. simpl. repeat split; lia.
Qed.

(** ** Witnesses *)

Definition login_error : string := "Wrong credentials. Please try again.".
Definition report_saved : string := "Item reported successfully".

Lemma login_error_reachable : msg_reachable 5000 (set_text 5000 login_error msg_init).
Proof. eapply (msg_reachable_step 5000 (SetText login_error)); [constructor | reflexivity]. Defined.

Lemma msg_invariant_witness :
  hide_due (set_text 5000 login_error msg_init) = Some 5000 /\
  (forall h, hide_due (set_text 5000 login_error msg_init) = Some h ->
     now (set_text 5000 login_error msg_init) <= h <= now (set_text 5000 login_error msg_init) + 5000).
Proof.
  split; [reflexivity|].
  exact (proj1 (proj2 (msg_invariant 5000 _ ltac:(lia) login_error_reachable))).
Defined.

Lemma msg_text_dismissed_witness :
  exists s', (msg_run 5000 [Fire] (set_text 5000 login_error msg_init) = Some s' \/
              msg_run 5000 [Fire; Fire] (set_text 5000 login_error msg_init) = Some s') /\
             text s' = EmptyString /\ now s' <= 0 + 5000 + 5000.
Proof. exact (msg_text_dismissed 5000 _ ltac:(lia) login_error_reachable eq_refl). Defined.

Lemma msg_stale_close_cuts_next_witness :
  exists s, msg_run 5000 [SetText report_saved; Fire; Wait 1000; SetText login_error; Fire] msg_init = Some s /\
    text s = EmptyString /\ now s = 5000 + 5000 /\ now s - (5000 + 1000) < 5000.
Proof.
  apply (msg_stale_close_cuts_next 5000 1000 report_saved login_error); try lia; discriminate.
Defined.

Lemma msg_rerender_restarts_hide_witness :
  exists s, msg_run 5000 [SetText login_error; Wait 3000; ParentRender; Wait (5000 - 1)] msg_init = Some s /\
    text s = login_error /\ visible s = true /\ hide_due s = Some (3000 + 5000) /\
    now s = 3000 + 5000 - 1 /\ 5000 <= now s.
Proof. apply (msg_rerender_restarts_hide 5000 3000 login_error); [lia | discriminate]. Defined.
