(* ===== verification/Items.v ===== *)
(** * Items: filters, statistics and the admin's status changes

    The pure item logic of [pages/Home/Home.js] ([filteredItems], the
    statistics effect), of [pages/AdminDashboard/AdminDashboard.js]
    ([filteredItems], the status buttons offered per item) and of
    [pages/Profile/Profile.js] (the active reports).  The status
    lifecycle the admin UI exposes is a step relation on status strings;
    its reachable statuses are characterised by rule induction. *)

From stdpp Require Import base strings list.
From Stdlib Require Import String ZArith Lia Relations.
From S2P Require Import Prelude Model.

Local Open Scope js_scope.

(** ** Home: status filter and search *)

(** [(field && field.toLowerCase().includes(query))] *)
Definition field_matches (field : option string) (query : string) : bool :=
  match field with
  | Some s => truthy_str s && includes (to_lower s) query
  | None => false
  end.

(** The callback of [items.filter] in Home.js, line by line. *)
Definition home_item_visible (filter searchQuery : string) (item : Item.t) : bool :=
  if (filter === "lost") && negb (status_is (Item.status item) LOST) then false
  else if (filter === "found") && negb (status_is (Item.status item) FOUND) then false
  else if (filter === "reunited") && negb (status_is (Item.status item) REUNITED) then false
  else if truthy_str searchQuery then
    let query := to_lower searchQuery in
    field_matches (Item.itemTitle item) query || field_matches (Item.itemDesc item) query ||
    field_matches (Item.location item) query || field_matches (Item.categoryName item) query
  else true.

Definition home_filtered_items (filter searchQuery : string) (items : list Item.t) : list Item.t :=
  List.filter (home_item_visible filter searchQuery) items.

(** ** Home: statistics *)

Record stats := mkStats { activeCount : nat; lostCount : nat; foundCount : nat; reunitedCount : nat }.

Definition zero_stats : stats := mkStats 0 0 0 0.

Definition count_status (lit : string) (items : list Item.t) : nat :=
  List.length (List.filter (fun item => status_is (Item.status item) lit) items).

(** The effect on [items]: recompute the four counters when the list is
    not empty, keep them otherwise. *)
Definition stats_effect (items : list Item.t) (cur : stats) : stats :=
  if bool_decide (0 < List.length items) then
    let lostItems := count_status LOST items in
    let foundItems := count_status FOUND items in
    let reunitedItems := count_status REUNITED items in
    mkStats (lostItems + foundItems) lostItems foundItems reunitedItems
  else cur.

(** The "My Reports" card: [items.filter(item => item.userId === user.userId).length]. *)
Definition my_reports_count (me : option Z) (items : list Item.t) : nat :=
  List.length (List.filter (fun item => id_eqb (Item.userId item) me) items).

(** ** Admin dashboard: filters and status buttons *)

Definition admin_filtered_items (filterStatus : string) (items : list Item.t) : list Item.t :=
  if filterStatus === "all" then items
  else List.filter (fun item => status_is (Item.status item) filterStatus) items.

Definition admin_filtered_claims (filterStatus : string) (claims : list Claim.t) : list Claim.t :=
  if filterStatus === "all" then claims
  else if filterStatus === "pending" then List.filter (fun c => negb (Claim.verified c)) claims
  else if filterStatus === "verified" then List.filter Claim.verified claims
  else claims.

(** [item.status !== 'CLAIMED' && item.status !== 'RETURNED'] guards the
    "Approve" (to CLAIMED) and "Return" (to RETURNED) buttons, on the
    card and in the details modal alike. *)
Definition status_actions (status : option string) : list string :=
  if negb (status_is status CLAIMED) && negb (status_is status RETURNED)
  then [CLAIMED; RETURNED] else [].

(** One status change the admin UI can make. *)
Definition ui_transition (s s' : option string) : Prop :=
  exists target, target ∈ status_actions s /\ s' = Some target.

(** ** Profile: active reports *)

Definition active_reports (items : list Item.t) : list Item.t :=
  List.filter (fun item => status_is (Item.status item) LOST || status_is (Item.status item) FOUND)
    items.

(** ** Lemmas *)

Lemma field_matches_spec (field : option string) (query : string) :
  field_matches field query = true <->
  exists s, field = Some s /\ s <> ""%string /\ exists l r, to_lower s = (l ++ query ++ r)%string.
Proof.
  destruct field as [s|]; simpl.
  - rewrite andb_true_iff, truthy_str_spec, includes_spec.
    split; [intros [? ?]; eauto | intros (? & [= <-] & ? & ?); done].
  - split; [done | intros (? & ? & _); discriminate].
Qed.

Lemma status_exclusive (st : option string) (a b : string) :
  a <> b -> (status_is st a && status_is st b) = false.
Proof.
  intros Hab. destruct (status_is st a) eqn:Ha; [|done]. simpl.
  apply status_is_spec in Ha. subst st. apply not_true_iff_false.
  intros H%status_is_spec. congruence.
Qed.

(** ** Theorems *)

(** C20: The Home page's "lost" filter with an empty search returns
    exactly the items whose status is "LOST", in their original order
    (and likewise for "found"). *)
Theorem home_status_filter_exact (items : list Item.t) :
  home_filtered_items "lost" "" items =
    List.filter (fun item => status_is (Item.status item) LOST) items /\
  home_filtered_items "found" "" items =
    List.filter (fun item => status_is (Item.status item) FOUND) items.
Proof.
  split; apply List.filter_ext; intros item; unfold home_item_visible; simpl;
    by destruct (status_is (Item.status item) _).
Qed.

(** C21: With the "all" filter and a non-empty query, an item is shown
    exactly when its title, description, location or category name is a
    non-empty string whose lower-case form contains the lower-cased query. *)
Theorem home_search_spec (searchQuery : string) (item : Item.t) :
  searchQuery <> ""%string ->
  home_item_visible "all" searchQuery item = true <->
  exists s, (Item.itemTitle item = Some s \/ Item.itemDesc item = Some s \/
             Item.location item = Some s \/ Item.categoryName item = Some s) /\
            s <> ""%string /\ exists l r, to_lower s = (l ++ to_lower searchQuery ++ r)%string.
Proof.
  intros Hq. unfold home_item_visible. simpl.
  apply truthy_str_spec in Hq. rewrite Hq, !orb_true_iff, !field_matches_spec.
  split.
  - intros [[[(s & H & ?)|(s & H & ?)]|(s & H & ?)]|(s & H & ?)]; exists s; intuition auto.
  - intros (s & [H|[H|[H|H]]] & Hs); [left; left; left | left; left; right | left; right | right];
      exists s; auto.
Qed.

(** C27: Whenever the Home page recomputes its statistics from a
    non-empty list, "Active" is the sum of "Lost" and "Found", and the
    three status counters together never exceed the number of items. *)
Theorem home_stats_consistent (items : list Item.t) (cur : stats) :
  items <> [] ->
  let st := stats_effect items cur in
  activeCount st = (lostCount st + foundCount st)%nat /\
  (lostCount st + foundCount st + reunitedCount st <= List.length items)%nat.
Proof.
  intros Hne. unfold stats_effect.
  rewrite bool_decide_eq_true_2 by (destruct items; [done | simpl; lia]). simpl.
  split; [done|]. unfold count_status. apply filter_three_disjoint.
  intros x. repeat split; apply status_exclusive; unfold LOST, FOUND, REUNITED; done.
Qed.

(** C36: An item the admin marked "CLAIMED" disappears from every
    status filter of the Home page, including the one labelled "Claim"
    (which selects "REUNITED"), and adding it to a non-empty list changes
    none of the Home statistics. *)
Theorem claimed_items_invisible_on_home (item : Item.t) (searchQuery : string)
    (items : list Item.t) (cur : stats) :
  Item.status item = Some CLAIMED -> items <> [] ->
  home_item_visible "lost" searchQuery item = false /\
  home_item_visible "found" searchQuery item = false /\
  home_item_visible "reunited" searchQuery item = false /\
  stats_effect (item :: items) cur = stats_effect items cur.
Proof.
  intros Hs Hne. unfold home_item_visible. simpl. rewrite Hs. simpl.
  split; [done|]. split; [done|]. split; [done|].
  unfold stats_effect.
  rewrite !bool_decide_eq_true_2 by (destruct items; [done | simpl; lia]).
  unfold count_status. simpl. rewrite Hs. done.
Qed.

(** The admin UI offers the two status changes exactly for the
    statuses other than "CLAIMED" and "RETURNED", a missing status and
    "REUNITED" included, and nothing for those two. *)
Theorem status_actions_offered (status : option string) :
  (status_actions status = [CLAIMED; RETURNED] <->
     status <> Some CLAIMED /\ status <> Some RETURNED) /\
  (status_actions status = [] <-> status = Some CLAIMED \/ status = Some RETURNED).
Proof.
  unfold status_actions.
  destruct (status_is status CLAIMED) eqn:Hc; [apply status_is_spec in Hc|];
  destruct (status_is status RETURNED) eqn:Hr; try apply status_is_spec in Hr;
  simpl; subst; try discriminate.
  - split; split; intros; try done; intuition congruence.
  - split; split; intros; try done; intuition congruence.
  - assert (status <> Some CLAIMED) by (intros Hx; apply status_is_spec in Hx; congruence).
    assert (status <> Some RETURNED) by (intros Hx; apply status_is_spec in Hx; congruence).
    split; split; intros; try done; intuition congruence.
Qed.

Lemma ui_transition_target (s s' : option string) :
  ui_transition s s' -> (s' = Some CLAIMED \/ s' = Some RETURNED) /\
                        s <> Some CLAIMED /\ s <> Some RETURNED.
Proof.
  intros (t & Ht & ->). unfold status_actions in Ht.
  destruct (status_is s CLAIMED) eqn:Hc, (status_is s RETURNED) eqn:Hr; simpl in Ht;
    try by apply elem_of_nil in Ht.
  split; [apply elem_of_cons in Ht as [->|Ht]; [by left|];
          apply elem_of_cons in Ht as [->|Ht]; [by right|]; by apply elem_of_nil in Ht|].
  split; intros ->; rewrite ?js_eqb_refl in Hc, Hr; simpl in *; unfold CLAIMED, RETURNED in *;
    discriminate.
Qed.

Lemma ui_terminal_stays (s s' : option string) :
  (s = Some CLAIMED \/ s = Some RETURNED) -> clos_refl_trans_1n _ ui_transition s s' -> s' = s.
Proof.
  intros Hs Hrt. destruct Hrt as [|y z Hxy _]; [done|].
  apply ui_transition_target in Hxy as (_ & H1 & H2). by destruct Hs.
Qed.

(** C24: The item lifecycle the admin UI exposes: from any status, the
    statuses reachable by the offered buttons are the status itself,
    "CLAIMED" and "RETURNED"; those two are terminal, with no way back to
    "LOST" or "FOUND". *)
Theorem ui_lifecycle_terminal (s0 s : option string) :
  clos_refl_trans _ ui_transition s0 s ->
  (s = s0 \/ s = Some CLAIMED \/ s = Some RETURNED) /\
  ((s0 = Some CLAIMED \/ s0 = Some RETURNED) -> s = s0).
Proof.
  intros Hrt%clos_rt_rt1n. split; [|intros Ht; by apply (ui_terminal_stays s0 s)].
  destruct Hrt as [|y z Hxy Hyz]; [by left|].
  pose proof (ui_transition_target s0 y Hxy) as [Hy _].
  rewrite (ui_terminal_stays y z Hy Hyz). right. exact Hy.
Qed.

(** ** Witnesses *)

Definition mk_item (id : Z) (title : string) (status : string) (reporter : Z) : Item.t :=
  Item.mk id (Some title) None (Some "Main Campus") (Some "Bags") (Some status) (Some reporter)
          None None None.

Definition spec_items : list Item.t :=
  [mk_item 1 "Wallet" LOST 2; mk_item 2 "Blue Backpack" FOUND 3;
   mk_item 3 "Umbrella" LOST 2; mk_item 4 "Keys" RETURNED 3].

Lemma home_status_filter_exact_witness :
  home_filtered_items "lost" "" spec_items = [mk_item 1 "Wallet" LOST 2; mk_item 3 "Umbrella" LOST 2].
Proof. rewrite (proj1 (home_status_filter_exact spec_items)). vm_compute. reflexivity. Defined.

Lemma home_search_spec_witness :
  "BACKPACK"%string <> ""%string /\
  home_item_visible "all" "BACKPACK" (mk_item 2 "Blue Backpack" FOUND 3) = true.
Proof.
  split; [discriminate|]. apply (home_search_spec "BACKPACK"); [discriminate|].
  exists "Blue Backpack"%string. split; [left; reflexivity|]. split; [discriminate|].
  exists "blue "%string, ""%string. vm_compute. reflexivity.
Defined.

Lemma home_stats_consistent_witness :
  spec_items <> [] /\ activeCount (stats_effect spec_items zero_stats) = 3%nat.
Proof.
  split; [discriminate|].
  rewrite (proj1 (home_stats_consistent spec_items zero_stats ltac:(discriminate))).
  vm_compute. reflexivity.
Defined.

Lemma claimed_items_invisible_on_home_witness :
  Item.status (mk_item 5 "Phone" CLAIMED 2) = Some CLAIMED /\
  home_item_visible "reunited" "" (mk_item 5 "Phone" CLAIMED 2) = false.
Proof.
  split; [reflexivity|].
  apply (claimed_items_invisible_on_home _ "" spec_items zero_stats); [reflexivity | discriminate].
Defined.

Lemma ui_lifecycle_terminal_witness :
  clos_refl_trans _ ui_transition (Some LOST) (Some CLAIMED) /\
  (Some CLAIMED = Some LOST \/ Some CLAIMED = Some CLAIMED \/ Some CLAIMED = Some RETURNED).
Proof.
  assert (H : clos_refl_trans _ ui_transition (Some LOST) (Some CLAIMED)).
  { apply rt_step. exists CLAIMED. split; [vm_compute; left | reflexivity]. }
  split; [exact H | apply (proj1 (ui_lifecycle_terminal _ _ H))].
Defined.
