(* ===== verification/HomePage.v ===== *)
(** * The Home page: loading, statistics and the matching assistant

    [pages/Home/Home.js].  [home_mount] runs the mount effect (which
    calls [fetchStats], and [fetchAllItems] only when the statistics are
    unavailable) followed by the effect that derives statistics from the
    item list; the two network answers are inputs.  [ai_search] is
    [startAISearch] without its two-second delay and its random
    confidence figure. *)

From stdpp Require Import base strings list pretty.
From Stdlib Require Import String ZArith Lia.
From S2P Require Import Prelude Model Gate Items.

Local Open Scope js_scope.

(** ** Mount: statistics, then (maybe) the items *)

(** The JSON object of [/api/items/stats]; a missing or zero field reads
    as [0] through [statsData.active || 0]. *)
Record stats_json := mkStatsJson {
  sj_active : option nat; sj_lost : option nat; sj_found : option nat; sj_reunited : option nat
}.

Inductive stats_response :=
  | StatsOk (data : option stats_json)  (** 2xx; the body is an object or [null] *)
  | StatsNotOk                          (** any other status *)
  | StatsThrows.                        (** [fetch] or [json()] rejects *)

Inductive items_response :=
  | ItemsArray (data : list Item.t)     (** 2xx with a JSON array *)
  | ItemsObject (data : Item.t)         (** 2xx with a single object *)
  | ItemsNotOk (status : Z)             (** [throw new Error(...)] *)
  | ItemsThrows.                        (** [fetch] or [json()] rejects *)

Record home_state := mkHome { h_items : list Item.t; h_loading : bool; h_stats : stats }.

Definition or_zero (o : option nat) : nat := match o with Some n => n | None => 0 end.

Definition stats_of_json (d : stats_json) : stats :=
  mkStats (or_zero (sj_active d)) (or_zero (sj_lost d)) (or_zero (sj_found d))
          (or_zero (sj_reunited d)).

(** [fetchAllItems]: [setLoading(true)], the request, [finally
    setLoading(false)]. *)
Definition fetch_all_items (r : items_response) (h : home_state) : home_state :=
  let items := match r with
               | ItemsArray data => data
               | ItemsObject data => [data]
               | ItemsNotOk _ | ItemsThrows => []
               end in
  mkHome items false (h_stats h).

(** [fetchStats]: a truthy body sets the counters and returns; every
    other outcome falls back to [fetchAllItems]. *)
Definition fetch_stats (sr : stats_response) (ir : items_response) (h : home_state) : home_state :=
  match sr with
  | StatsOk (Some d) => mkHome (h_items h) (h_loading h) (stats_of_json d)
  | StatsOk None | StatsNotOk | StatsThrows => fetch_all_items ir h
  end.

(** The effect on [items] ([stats_effect] of [Items.v]) runs after the
    list is set. *)
Definition home_mount (sr : stats_response) (ir : items_response) : home_state :=
  let h0 := mkHome [] true zero_stats in
  let h1 := fetch_stats sr ir h0 in
  mkHome (h_items h1) (h_loading h1) (stats_effect (h_items h1) (h_stats h1)).

(** ** Rendering helpers *)

(** [getStatusInfo]: badge class and text. *)
Definition getStatusInfo (status : option string) : string * option string :=
  if status_is status LOST then ("lost", Some "Lost")
  else if status_is status FOUND then ("found", Some "Found")
  else if status_is status REUNITED then ("reunited", Some "Reunited")
  else ("unknown", status).

(** [getFirstName]: [user.fname || user.username || ""]. *)
Definition getFirstName (user : option User.t) : string :=
  match user with
  | None => ""
  | Some u =>
      match User.fname u with
      | Some f => if truthy_str f then f else
                    match User.username u with Some n => n | None => "" end
      | None => match User.username u with Some n => n | None => "" end
      end
  end.

(** ** The matching assistant ([startAISearch]) *)

(** [(a && b && a.toLowerCase() === b.toLowerCase())] *)
Definition same_ci (a b : option string) : bool :=
  match a, b with
  | Some x, Some y => truthy_str x && truthy_str y && (to_lower x === to_lower y)
  | _, _ => false
  end.

(** [(a && b && a.toLowerCase().includes(b.toLowerCase()))] *)
Definition contains_ci (a b : option string) : bool :=
  match a, b with
  | Some x, Some y => truthy_str x && truthy_str y && includes (to_lower x) (to_lower y)
  | _, _ => false
  end.

(** The predicate of [items.filter] inside [lostItems.forEach]. *)
Definition ai_is_match (me : User.t) (lostItem item : Item.t) : bool :=
  status_is (Item.status item) FOUND && negb (id_eqb (Item.userId item) (User.userId me)) &&
  (same_ci (Item.categoryName item) (Item.categoryName lostItem) ||
   contains_ci (Item.location item) (Item.location lostItem) ||
   contains_ci (Item.itemTitle item) (Item.itemTitle lostItem)).

Inductive ai_result :=
  | AiNoReports
  | AiNoLostItems
  | AiNoMatches
  | AiMatches (matches : list (Item.t * Item.t)).

Definition ai_search (user : option User.t) (items : list Item.t) : ai_result :=
  match user with
  | None => AiNoReports
  | Some me =>
      let userItems := List.filter (fun item => id_eqb (Item.userId item) (User.userId me)) items in
      if bool_decide (userItems = []) then AiNoReports else
      let lostItems := List.filter (fun item => status_is (Item.status item) LOST) userItems in
      if bool_decide (lostItems = []) then AiNoLostItems else
      let potentialMatches :=
        List.flat_map (fun lostItem =>
          List.map (fun m => (lostItem, m)) (List.filter (ai_is_match me lostItem) items))
          lostItems in
      if bool_decide (potentialMatches = []) then AiNoMatches else AiMatches potentialMatches
  end.

(** ** The assistant's panel *)

(** The message [startAISearch] leaves for each outcome. *)
Definition ai_message_of (r : ai_result) : string :=
  match r with
  | AiNoReports => "You haven't reported any items yet. Report some items first for AI to help you!"
  | AiNoLostItems => "You don't have any lost items reported. Report a lost item for AI to help find it!"
  | AiNoMatches => "No matches found yet. Don't worry, we'll keep looking!"
  | AiMatches ms =>
      "Found " ++ pretty (List.length ms) ++ " potential match" ++
      (if (1 <? List.length ms)%nat then "es" else "") ++ " for your lost items!"
  end.

(** The assistant's state; [ai_waiting] holds, oldest first, the item
    lists that the pending [startAISearch] calls captured: each waits on
    its own two-second timer, so they resume in the order they started. *)
Record ai_ui := mkAiUi {
  showAIChat : bool; showChatBubble : bool; aiLoading : bool;
  aiResults : list (Item.t * Item.t); aiMessage : string;
  ai_waiting : list (list Item.t)
}.

Definition ai_init : ai_ui := mkAiUi false true false [] "" [].

(** [startAISearch] up to its [await], on the current [items]. *)
Definition start_ai_search (items : list Item.t) (a : ai_ui) : ai_ui :=
  mkAiUi (showAIChat a) (showChatBubble a) true [] "Finding your items, based on your report details..."
         (ai_waiting a ++ [items]).

(** [handleAIAssistantClick]: open the chat, hide the bubble, start a search. *)
Definition handle_ai_click (items : list Item.t) (a : ai_ui) : ai_ui :=
  start_ai_search items (mkAiUi true false (aiLoading a) (aiResults a) (aiMessage a) (ai_waiting a)).

(** The oldest timer fires: the rest of [startAISearch], on its captured list. *)
Definition ai_timer_fires (user : option User.t) (a : ai_ui) : ai_ui :=
  match ai_waiting a with
  | items :: rest =>
      let r := ai_search user items in
      mkAiUi (showAIChat a) (showChatBubble a) false
             (match r with AiMatches ms => ms | _ => aiResults a end) (ai_message_of r) rest
  | [] => a
  end.

(** [closeAIChat] and its 500 ms timer, which shows the bubble again. *)
Definition close_ai_chat (a : ai_ui) : ai_ui :=
  mkAiUi false true (aiLoading a) (aiResults a) (aiMessage a) (ai_waiting a).

(** [handleClickOutside], registered while the bubble or the chat is
    shown, on a [mousedown] outside the bubble and the icon. *)
Definition click_outside (a : ai_ui) : ai_ui :=
  if showChatBubble a || showAIChat a
  then mkAiUi (showAIChat a) false (aiLoading a) (aiResults a) (aiMessage a) (ai_waiting a)
  else a.

(** The assistant's modal while [showAIChat]: the spinner with the
    message, or the message, one card per match with its "Claim This
    Match" button on the found item, and "Search Again" / "Close". *)
Inductive ai_panel :=
  | AiPanelLoading (message : string)
  | AiPanelDone (message : string) (claimTargets : list Item.t).

Definition ai_panel_of (a : ai_ui) : option ai_panel :=
  if showAIChat a then
    Some (if aiLoading a then AiPanelLoading (aiMessage a)
          else AiPanelDone (aiMessage a) (List.map snd (aiResults a)))
  else None.

(** ** The page's view *)

(** [user && item.userId === user.userId] *)
Definition is_current_user_item (user : option User.t) (item : Item.t) : bool :=
  match user with Some u => id_eqb (Item.userId item) (User.userId u) | None => false end.

(** [`User #${item.userId}`] *)
Definition user_ref (id : option Z) : string :=
  match id with Some n => "User #" ++ pretty n | None => "User #undefined" end.

(** One card of the items grid. *)
Record item_card := mkCard {
  c_title : string; c_status : string * option string; c_desc : string; c_location : string;
  c_category : string; c_reportedBy : string;
  c_mine_button : bool;       (** "This is Mine!", which calls [handleMineButtonClick(item)] *)
  c_my_badge : bool           (** "My Item" *)
}.

Definition home_card (user : option User.t) (item : Item.t) : item_card :=
  let mine := is_current_user_item user item in
  mkCard (opt_or (Item.itemTitle item) "Untitled Item") (getStatusInfo (Item.status item))
         (opt_or (Item.itemDesc item) "No description provided.")
         (opt_or (Item.location item) "Not specified") (opt_or (Item.categoryName item) "Uncategorized")
         (if mine then "You" else user_ref (Item.userId item)) (negb mine) mine.

Inductive home_grid :=
  | GridLoading                                       (** "Loading items..." *)
  | GridEmpty (tryOther : bool) (emptyDb : bool)      (** "No items found." and its two notes *)
  | GridCards (cards : list item_card).

Definition home_grid_of (user : option User.t) (h : home_state) (filter searchQuery : string) : home_grid :=
  if h_loading h then GridLoading else
  match home_filtered_items filter searchQuery (h_items h) with
  | [] => GridEmpty (truthy_str searchQuery) (bool_decide (h_items h = []))
  | fi => GridCards (List.map (home_card user) fi)
  end.

(** The heading. *)
Definition home_greeting (userLoading : bool) (user : option User.t) : string :=
  if userLoading then "Looking for something?"
  else match user with
       | Some _ => "Welcome back " ++ getFirstName user ++ "! Have you lost something again?"
       | None => "Looking for something?"
       end.

(** The statistics cards; "My Reports" only with an identity. *)
Definition home_stat_cards (user : option User.t) (h : home_state) : list (string * nat) :=
  let s := h_stats h in
  [("Active", activeCount s); ("Lost", lostCount s); ("Found", foundCount s); ("Claim", reunitedCount s)] ++
  match user with
  | Some u => [("My Reports", my_reports_count (User.userId u) (h_items h))]
  | None => []
  end.

(** The search box and the filter buttons: [filter] and [searchQuery]
    feed [filteredItems] on every render; submitting the form only
    prevents the page reload. *)
Record home_query := mkHomeQuery { filter : string; searchQuery : string }.

Definition home_query_init : home_query := mkHomeQuery "all" "".

(** The four buttons: the value [setFilter] receives and the label. *)
Definition home_filter_buttons : list (string * string) :=
  [("all", "All Items"); ("lost", "Lost"); ("found", "Found"); ("reunited", "Claim")].

Definition set_filter (f : string) (q : home_query) : home_query := mkHomeQuery f (searchQuery q).

Definition handle_search_change (value : string) (q : home_query) : home_query :=
  mkHomeQuery (filter q) value.

Definition handle_search_submit (q : home_query) : home_query := q.

(** The target of the empty grid's "Be the first to report an item!". *)
Definition empty_grid_link : string := "/report".

(** ** Lemmas *)

Lemma id_eqb_sym (a b : option Z) : id_eqb a b = id_eqb b a.
Proof. destruct a, b; simpl; try done. apply Z.eqb_sym. Qed.

Lemma ai_search_matches (me : User.t) (items : list Item.t) (ms : list (Item.t * Item.t)) :
  ai_search (Some me) items = AiMatches ms ->
  ms = List.flat_map (fun lostItem =>
         List.map (fun m => (lostItem, m)) (List.filter (ai_is_match me lostItem) items))
         (List.filter (fun item => status_is (Item.status item) LOST)
            (List.filter (fun item => id_eqb (Item.userId item) (User.userId me)) items)).
Proof.
  unfold ai_search. repeat case_bool_decide; try discriminate. by intros [= <-].
Qed.

(** ** Theorems *)

(** C29: When [/api/items/stats] answers with a statistics object, the
    Home page never requests the item list: whatever [/api/items] would
    answer, the list stays empty and the "Loading items..." state is
    never left. *)
Theorem home_stats_ok_never_loads_items (d : stats_json) (ir : items_response) :
  let h := home_mount (StatsOk (Some d)) ir in
  h_items h = [] /\ h_loading h = true /\ h_stats h = stats_of_json d.
Proof. simpl. done. Qed.

(** When the statistics are unavailable (error status, [null] body
    or a failed request), the page loads the item list, leaves its
    loading state, and derives the counters from the list; a failed item
    request leaves an empty list and zero counters. *)
Theorem home_stats_fallback (sr : stats_response) (ir : items_response) :
  (forall d, sr <> StatsOk (Some d)) ->
  let h := home_mount sr ir in
  h_loading h = false /\
  (forall data, ir = ItemsArray data -> h_items h = data /\ h_stats h = stats_effect data zero_stats) /\
  ((exists c, ir = ItemsNotOk c) \/ ir = ItemsThrows -> h_items h = [] /\ h_stats h = zero_stats).
Proof.
  intros Hsr. assert (Hfs : fetch_stats sr ir (mkHome [] true zero_stats) =
                              fetch_all_items ir (mkHome [] true zero_stats)).
  { destruct sr as [[d|]| |]; [by destruct (Hsr d)|done..]. }
  unfold home_mount. rewrite Hfs. simpl. split; [done|]. split.
  - intros data ->. done.
  - intros [[c ->]| ->]; done.
Qed.

(** C30: The assistant searches the list the page holds when it is
    clicked; when [/api/items/stats] works that list is never loaded, so
    whoever asks and whatever the server holds, the assistant answers
    that no item was reported and proposes nothing. *)
Theorem ai_assistant_blind_when_stats_ok (d : stats_json) (ir : items_response)
    (user : option User.t) (a : ai_ui) :
  ai_waiting a = [] ->
  let a' := ai_timer_fires user (handle_ai_click (h_items (home_mount (StatsOk (Some d)) ir)) a) in
  aiMessage a' = "You haven't reported any items yet. Report some items first for AI to help you!" /\
  aiResults a' = [] /\ aiLoading a' = false /\
  ai_panel_of a' = Some (AiPanelDone (aiMessage a') []).
Proof. intros Hw. unfold ai_timer_fires. simpl. rewrite Hw. simpl. destruct user; repeat split. Qed.

(** Every pair the assistant proposes joins one of the user's own
    "LOST" reports with a "FOUND" item of the list reported by someone
    else. *)
Theorem ai_matches_sound (me : User.t) (items : list Item.t) (ms : list (Item.t * Item.t))
    (lostItem found : Item.t) :
  ai_search (Some me) items = AiMatches ms -> In (lostItem, found) ms ->
  In lostItem items /\ Item.userId lostItem = User.userId me /\
  Item.status lostItem = Some LOST /\
  In found items /\ Item.status found = Some FOUND /\ Item.userId found <> User.userId me.
Proof.
  intros Hs Hin. rewrite (ai_search_matches me items ms Hs) in Hin.
  apply in_flat_map in Hin as (l & Hl & Hin).
  apply in_map_iff in Hin as (f & [= <- <-] & Hf).
  apply filter_In in Hl as [Hl Hlost%status_is_spec].
  apply filter_In in Hl as [Hl Hmine%id_eqb_spec].
  apply filter_In in Hf as [Hf Hm]. unfold ai_is_match in Hm.
  apply andb_true_iff in Hm as [Hm _]. apply andb_true_iff in Hm as [Hfound%status_is_spec Hother].
  repeat split; try done. intros Heq. rewrite Heq in Hother. unfold id_eqb in Hother.
  destruct (User.userId me); simpl in Hother; [rewrite Z.eqb_refl in Hother|]; done.
Qed.

(** The assistant misses no candidate: a "FOUND" item reported by
    someone else whose category equals (ignoring case) that of one of the
    user's "LOST" reports is among the proposed pairs. *)
Theorem ai_matches_complete (me : User.t) (items : list Item.t) (lostItem found : Item.t) :
  In lostItem items -> Item.userId lostItem = User.userId me -> Item.status lostItem = Some LOST ->
  In found items -> Item.status found = Some FOUND -> Item.userId found <> User.userId me ->
  same_ci (Item.categoryName found) (Item.categoryName lostItem) = true ->
  exists ms, ai_search (Some me) items = AiMatches ms /\ In (lostItem, found) ms.
Proof.
  intros Hl Hmine Hlost Hf Hfound Hother Hcat.
  assert (Hu : In lostItem (List.filter (fun item => id_eqb (Item.userId item) (User.userId me))
                              items)) by (apply filter_In; split; [done | by apply id_eqb_spec]).
  unfold ai_search.
  set (mine := List.filter (fun item => status_is (Item.status item) LOST)
                 (List.filter (fun item => id_eqb (Item.userId item) (User.userId me)) items)).
  assert (Hlin : In lostItem mine) by (apply filter_In; split; [done | by apply status_is_spec]).
  assert (Hpair : In (lostItem, found) (List.flat_map (fun l =>
            List.map (fun m => (l, m)) (List.filter (ai_is_match me l) items)) mine)).
  { apply in_flat_map. exists lostItem. split; [done|]. apply in_map_iff.
    exists found. split; [done|]. apply filter_In. split; [done|].
    unfold ai_is_match. rewrite Hcat, orb_true_l, andb_true_r.
    apply andb_true_iff. split; [by apply status_is_spec|].
    apply negb_true_iff, not_true_iff_false. by intros ?%id_eqb_spec. }
  case_bool_decide as H1; [rewrite H1 in Hu; done|].
  case_bool_decide as H2; [rewrite H2 in Hlin; done|].
  case_bool_decide as H3; [rewrite H3 in Hpair; done|].
  eexists. split; [reflexivity | exact Hpair].
Qed.

(** When the item list is empty the grid shows "Be the first to
    report an item!", a link to "/report"; no route matches that path,
    so following it shows the shell with an empty main area. *)
Theorem home_empty_link_dead {S} `{SessionView S} (user : option User.t) (h : home_state)
    (filter searchQuery : string) (s : S) :
  h_loading h = false -> h_items h = [] -> sv_loading s = false ->
  home_grid_of user h filter searchQuery = GridEmpty (truthy_str searchQuery) true /\
  main_of (app_content s empty_grid_link) = None.
Proof.
  intros Hl Hi Hs. split.
  - unfold home_grid_of. rewrite Hl, Hi. reflexivity.
  - by rewrite app_content_ready.
Qed.

(** ** Witnesses *)

Definition reporter2 : User.t :=
  User.mk (Some 2%Z) (Some "ana") (Some "ana@uni.edu") (Some "USER") (Some "Ana") None None.

Definition wallet : Item.t := mk_item 1 "Wallet" LOST 2.
Definition backpack : Item.t := mk_item 2 "Blue Backpack" FOUND 3.
Definition umbrella : Item.t := mk_item 3 "Umbrella" LOST 2.

Lemma home_stats_fallback_witness :
  (forall d, StatsNotOk <> StatsOk (Some d)) /\
  h_items (home_mount StatsNotOk (ItemsArray spec_items)) = spec_items.
Proof.
  assert (H : forall d, StatsNotOk <> StatsOk (Some d)) by discriminate.
  split; [exact H|].
  apply (proj1 (proj2 (home_stats_fallback StatsNotOk (ItemsArray spec_items) H)) spec_items eq_refl).
Defined.

Lemma ai_matches_sound_witness :
  ai_search (Some reporter2) spec_items = AiMatches [(wallet, backpack); (umbrella, backpack)] /\
  Item.userId backpack <> User.userId reporter2.
Proof.
  assert (H : ai_search (Some reporter2) spec_items =
                AiMatches [(wallet, backpack); (umbrella, backpack)]) by (vm_compute; reflexivity).
  split; [exact H|].
  apply (ai_matches_sound reporter2 spec_items _ wallet backpack H); simpl; auto.
Defined.

Lemma ai_matches_complete_witness :
  same_ci (Item.categoryName backpack) (Item.categoryName wallet) = true /\
  exists ms, ai_search (Some reporter2) spec_items = AiMatches ms /\ In (wallet, backpack) ms.
Proof.
  split; [vm_compute; reflexivity|].
  apply ai_matches_complete; try (vm_compute; reflexivity); simpl; auto; discriminate.
Defined.

Lemma home_empty_link_dead_witness :
  h_loading (mkHome [] false zero_stats) = false /\
  home_grid_of None (mkHome [] false zero_stats) "all" "" = GridEmpty false true /\
  main_of (app_content ready_guest empty_grid_link) = None.
Proof.
  split; [reflexivity|].
  apply (home_empty_link_dead None (mkHome [] false zero_stats) "all" "" ready_guest);
    reflexivity.
Defined.

Lemma ai_assistant_blind_when_stats_ok_witness :
  ai_waiting ai_init = [] /\
  aiLoading (ai_timer_fires (Some reporter2)
    (handle_ai_click (h_items (home_mount (StatsOk (Some (mkStatsJson (Some 3) (Some 2) (Some 1) None)))
                                          (ItemsArray [wallet; backpack; umbrella]))) ai_init)) = false.
Proof.
  split; [reflexivity|].
  exact (proj1 (proj2 (proj2 (ai_assistant_blind_when_stats_ok
    (mkStatsJson (Some 3) (Some 2) (Some 1) None) (ItemsArray [wallet; backpack; umbrella])
    (Some reporter2) ai_init eq_refl)))).
Defined.
