(* ===== verification/Links.v ===== *)
(** * Where the client's links and redirects lead

    Every navigation target written in the client: the [NavLink]s of
    [components/sidebar/Sidebar.js] (with the conditions under which each
    is rendered) and of [components/sidebar/AdminSidebar.js], the
    [navigate] calls and [Link]s of [pages/Login/Login.js],
    [pages/Signup/Signup.js] and [pages/Index/Index.js], the redirects
    of [components/ProtectedRoute.js], [AdminDashboard.js] and
    [Profile.js], and Home's empty-grid link.  Each target is checked
    against the route table of [App.js] ([Gate.route_of]). *)

From stdpp Require Import base strings list.
From Stdlib Require Import String Lia.
From S2P Require Import Prelude Model Gate Display HomePage.

Local Open Scope js_scope.
Local Open Scope string_scope.

(** ** Link targets *)

(** Sidebar.js: Home, the report sub-menu (only when shown), Search and
    Claim under [!user || user.role !== 'admin']; the dashboard link under
    [user && user.role === 'admin']; the Profile link, in both the
    expanded and the collapsed layout, under the first condition. *)
Definition sidebar_nav (ui : sidebar_ui) (user : option User.t) : list string :=
  let l := sidebar_links_of user in
  (if user_tabs l then
     ["/home"] ++
     (if submenu_shown ui then ["/report-item"; "/report-item/list"; "/report-item/tips"] else []) ++
     ["/search"; "/claim"]
   else []) ++
  (if admin_link l then ["/admin"] else []) ++
  (if user_tabs l then ["/profile"] else []).

(** AdminSidebar.js renders all its links unconditionally. *)
Definition admin_sidebar_nav : list string :=
  ["/admin"; "/home"; "/report-item"; "/search"; "/claim"; "/admin/analytics"; "/profile"].

(** Login.js: the effect that sends an authenticated visitor home, the
    two targets of [handleLogin], and the page's Back, Create New Account
    and Create Admin Account. *)
Definition login_effect_target : string := "/home".
Definition login_handler_targets : list string := ["/admin"; "/home"].
Definition login_page_targets : list string := ["/"; "/signup"; "/admin/signup"].

(** Signup.js: [navigate("/login")] two seconds after a successful
    sign-up, and the page's Back, Log In and Create Admin Account. *)
Definition signup_handler_target : string := "/login".
Definition signup_page_targets : list string := ["/"; "/login"; "/admin/signup"].

(** Navbar.js, on Index, About and Contact: [navLinks] and [authLinks]. *)
Definition navbar_links : list (string * string) :=
  [("/", "Home"); ("/about", "About"); ("/contact", "Contact"); ("/login", "Login"); ("/signup", "Join Us")].

(** [isActive]: [location.pathname === path]. *)
Definition navbar_active (pathname : string) : list string :=
  List.filter (fun path => path === pathname) (List.map fst navbar_links).

(** Contact.js's form has no [onSubmit] and its fields no [name]: once
    the browser's [required] and [type="email"] checks pass, the native
    submission reloads "/contact" with an empty query and the message is
    not sent anywhere. *)
Definition contact_form_submit (name email message : string) (email_valid : bool) : option string :=
  if truthy_str name && truthy_str email && email_valid && truthy_str message then Some "/contact" else None.

(** Index.js: Get Started. *)
Definition index_targets : list string := ["/login"].

(** ProtectedRoute's two [Navigate]s, the dashboard's [navigate("/home")]
    and Profile's two [window.location.href = "/login"]. *)
Definition guard_targets : list string := ["/login"; "/home"].
Definition dashboard_redirect : string := "/home".
Definition profile_redirects : list string := ["/login"; "/login"].

Definition client_targets (ui : sidebar_ui) (user : option User.t) : list string :=
  sidebar_nav ui user ++ admin_sidebar_nav ++ List.map fst navbar_links ++
  [login_effect_target] ++ login_handler_targets ++ login_page_targets ++
  [signup_handler_target] ++ signup_page_targets ++ index_targets ++
  guard_targets ++ [dashboard_redirect] ++ profile_redirects ++ [empty_grid_link].

(** A target no [<Route>] matches: the shell renders with an empty main area. *)
Definition has_route (p : string) : bool :=
  match route_of p with Some _ => true | None => false end.

Definition dead_targets (ui : sidebar_ui) (user : option User.t) : list string :=
  List.filter (fun p => negb (has_route p)) (client_targets ui user).

(** ** Lemmas *)

Lemma render_protected_user (u : User.t) (pg : page) :
  render_element (Some u) (Protected false pg) = Render pg.
Proof. by rewrite render_protected_cases. Qed.

Lemma is_admin_role_admin (u : User.t) :
  status_is (User.role u) "admin" = true -> is_admin (Some u) = true.
Proof.
  rewrite is_admin_role. destruct (User.role u) as [r|]; [|done]. simpl.
  intros ->%js_eqb_true. reflexivity.
Qed.

Lemma filter_all_false {A} (f : A -> bool) (l : list A) :
  (forall x, In x l -> f x = false) -> List.filter f l = [].
Proof.
  induction l as [|x l IH]; intros H; [done|]. simpl.
  rewrite H by (by left). apply IH. intros y Hy. apply H. by right.
Qed.

(** In a list without duplicates at most one element equals a given string. *)
Lemma filter_eq_nodup (l : list string) (p : string) :
  NoDup l -> List.length (List.filter (fun x => x === p) l) <= 1.
Proof.
  induction 1 as [|x l Hx Hnd IH]; simpl; [lia|].
  destruct (x === p) eqn:E; simpl; [|exact IH].
  apply js_eqb_true in E. subst x. rewrite filter_all_false; [simpl; lia|].
  intros y Hy. apply js_eqb_false. intros ->. apply Hx, list_elem_of_In, Hy.
Qed.

(** ** Theorems *)

(** C37: Whatever the identity and the sidebar's state, the targets of
    the client's links and redirects that no route matches are exactly
    AdminSidebar's "/admin/analytics", the "Create Admin Account" link of
    Login and of Signup ("/admin/signup") and Home's "/report"; every
    other target has a route. *)
Theorem dead_link_targets_exact (ui : sidebar_ui) (user : option User.t) :
  dead_targets ui user = ["/admin/analytics"; "/admin/signup"; "/admin/signup"; "/report"].
Proof.
  unfold dead_targets, client_targets, sidebar_nav.
  destruct (user_tabs _), (admin_link _), (submenu_shown ui); vm_compute; reflexivity.
Qed.

(** The landing navbar never marks two links active: its paths are
    distinct, so at most one equals the location's path. *)
Theorem navbar_single_active (pathname : string) : List.length (navbar_active pathname) <= 1.
Proof. apply filter_eq_nodup. apply (bool_decide_unpack _). vm_compute. exact I. Qed.

Section SidebarLinks.
Context {S : Type} `{SessionView S}.

(** Every link the user sidebar offers to a logged-in identity
    renders its page: none of them leads to a redirect or to an empty
    main area (the dashboard link is only shown for the role "admin",
    which the gate accepts). *)
Theorem user_sidebar_links_render (s : S) (u : User.t) (ui : sidebar_ui) (p : string) :
  sv_loading s = false -> sv_user s = Some u -> In p (sidebar_nav ui (Some u)) ->
  exists pg, main_of (app_content s p) = Some (Render pg).
Proof.
  intros Hl Hu Hin. rewrite app_content_ready by done. simpl. rewrite Hu.
  unfold sidebar_nav, sidebar_links_of in Hin. simpl in Hin.
  destruct (status_is (User.role u) "admin") eqn:Ha; simpl in Hin.
  - destruct Hin as [<-|[]]. simpl. rewrite render_protected_cases, is_admin_role_admin by done.
    eexists. reflexivity.
  - destruct (submenu_shown ui); simpl in Hin;
      repeat (destruct Hin as [<-|Hin]; [simpl; rewrite render_protected_user; eexists; reflexivity|]);
      done.
Qed.

End SidebarLinks.

(** ** Witnesses *)

Definition ben : User.t :=
  User.mk (Some 3%Z) (Some "ben") (Some "ben@uni.edu") (Some "USER") (Some "Ben") None None.

Lemma user_sidebar_links_render_witness :
  exists pg, main_of (app_content {| snap_user := Some ben; snap_loading := false |} "/report-item/list")
             = Some (Render pg).
Proof.
  apply (user_sidebar_links_render {| snap_user := Some ben; snap_loading := false |} ben
           (mkSidebarUi true false false) "/report-item/list"); [reflexivity | reflexivity |].
  vm_compute. right. right. left. reflexivity.
Defined.
