(* ===== verification/Claims.v ===== *)
(** * Claims: submission, aggregation and decisions

    [handleMineButtonClick] of [pages/Home/Home.js] (the "This is Mine!"
    button), [fetchClaimsData], [handleApprove] and [handleReject] of
    [pages/Claim/Claim.js], and [updateClaimStatus] with the claims tab of
    [pages/AdminDashboard/AdminDashboard.js].  Network answers are
    inputs; the answer to each per-item request is a function of the
    item id, as the code issues one request per item. *)

From stdpp Require Import base strings list list_monad.
From Stdlib Require Import String ZArith Lia.
From S2P Require Import Prelude Model Items HomePage.

Local Open Scope js_scope.

(** ** Submitting a claim ([handleMineButtonClick]) *)

(** The JSON body of [POST /api/claims]. *)
Record claim_request := mkClaimRequest {
  cr_itemId : Z; cr_userId : option Z; cr_verificationAnswer : string;
  cr_status : string; cr_verified : bool
}.

(** What the error branch shows: [errorJson.message || errorJson] for a
    JSON body, [responseText || `Server error: ${status}`] otherwise. *)
Inductive claim_error := ErrMessage (m : string) | ErrObject | ErrText (t : string) | ErrStatus (code : Z).

Inductive claim_error_body := BodyMessage (m : option string) | BodyText (t : string).

Inductive claim_post_response :=
  | PostOk (reply : option Claim.t)      (** 2xx; [None] when the body is not JSON *)
  | PostError (code : Z) (body : claim_error_body)
  | PostNetworkError.

Inductive mine_result :=
  | NeedLogin                                   (** "Please log in to claim an item" *)
  | OwnItem                                     (** "You cannot claim your own reported item" *)
  | NeedVerification                            (** "Verification details are required ..." *)
  | Submitted (req : claim_request) (reply : option Claim.t)
  | Refused (req : claim_request) (err : claim_error)
  | NetworkFailure (req : claim_request).

Definition error_of (code : Z) (body : claim_error_body) : claim_error :=
  match body with
  | BodyMessage (Some m) => if truthy_str m then ErrMessage m else ErrObject
  | BodyMessage None => ErrObject
  | BodyText t => if truthy_str t then ErrText t else ErrStatus code
  end.

(** The handler: [user] from the context, [item] the card's item,
    [answer] what [prompt] returned ([None] when cancelled), [resp] the
    answer to the POST if one is sent. *)
Definition mine_click (user : option User.t) (item : Item.t) (answer : option string)
    (resp : claim_post_response) : mine_result :=
  match user with
  | None => NeedLogin
  | Some u =>
      if negb (truthy_Z (User.userId u)) then NeedLogin
      else if id_eqb (Item.userId item) (User.userId u) then OwnItem
      else match answer with
           | None => NeedVerification
           | Some a =>
               if negb (truthy_str a) || (trim a === "") then NeedVerification
               else
                 let claimData := mkClaimRequest (Item.itemId item) (User.userId u) (trim a)
                                    PENDING false in
                 match resp with
                 | PostOk reply => Submitted claimData reply
                 | PostError code body => Refused claimData (error_of code body)
                 | PostNetworkError => NetworkFailure claimData
                 end
           end
  end.

(** The request a result carries, if the handler sent one. *)
Definition request_of (r : mine_result) : option claim_request :=
  match r with
  | Submitted req _ | Refused req _ | NetworkFailure req => Some req
  | NeedLogin | OwnItem | NeedVerification => None
  end.

(** ** Claims received and made ([fetchClaimsData]) *)

(** The answer to [GET /api/claims/item/{id}] after [.then(res =>
    res.json()).catch(() => [])]: an array, another JSON value (which has
    no positive [length]), or a rejection turned into [[]]. *)
Inductive item_claims_answer :=
  | ClaimsArray (claims : list Claim.t)
  | ClaimsNotArray
  | ClaimsRejected.

Record received_claim := mkReceived { rc_claim : Claim.t; rc_itemDetails : Item.t }.

(** [claimsArrays.forEach((claims, itemIndex) => ... push({...claim,
    itemDetails: userItems[itemIndex]}))] *)
Definition claims_of_item (answer : Z -> item_claims_answer) (item : Item.t) : list received_claim :=
  match answer (Item.itemId item) with
  | ClaimsArray claims => List.map (fun claim => mkReceived claim item) claims
  | ClaimsNotArray | ClaimsRejected => []
  end.

Definition claims_on_my_items (answer : Z -> item_claims_answer) (userItems : list Item.t)
    : list received_claim :=
  List.flat_map (claims_of_item answer) userItems.

(** The state of the Claim page. *)
Record claim_page := mkClaimPage {
  cp_activeTab : string;                    (** "myItems" or "myClaims" *)
  claimsOnMyItems : list received_claim;
  myClaims : json_list Claim.t;             (** [setMyClaims(myClaimsData)] stores the JSON *)
  cp_loading : bool
}.

Definition claim_page_init : claim_page := mkClaimPage "myItems" [] (JArray []) true.

(** The two tab buttons: [setActiveTab("myItems")], [setActiveTab("myClaims")]. *)
Definition set_claim_tab (t : string) (p : claim_page) : claim_page :=
  mkClaimPage t (claimsOnMyItems p) (myClaims p) (cp_loading p).

(** The whole of [fetchClaimsData]: the reporter's items, one request per
    item, then the claims the user made.  The two list answers are the
    JSON values [json()] returned, [None] when the request or its
    [json()] rejects.  [userItems.map] throws on a value that is not an
    array; every failure jumps to the [catch], which only clears
    [loading].  The claims made are stored whatever JSON they are. *)
Definition fetch_claims_data (myItems : option (json_list Item.t)) (answer : Z -> item_claims_answer)
    (made : option (json_list Claim.t)) (p : claim_page) : claim_page :=
  match myItems with
  | Some (JArray userItems) =>
      let received := claims_on_my_items answer userItems in
      match made with
      | Some myClaimsData => mkClaimPage (cp_activeTab p) received myClaimsData false
      | None => mkClaimPage (cp_activeTab p) received (myClaims p) false
      end
  | _ => mkClaimPage (cp_activeTab p) (claimsOnMyItems p) (myClaims p) false
  end.

(** The effect on [[user, fetchClaimsData]]: [if (user && user.userId)]. *)
Definition claims_effect (user : option User.t) (myItems : option (json_list Item.t))
    (answer : Z -> item_claims_answer) (made : option (json_list Claim.t)) (p : claim_page)
    : claim_page :=
  match user with
  | Some u => if truthy_Z (User.userId u) then fetch_claims_data myItems answer made p else p
  | None => p
  end.

(** [claim.status === "PENDING"] shows the Approve and Reject buttons. *)
Definition owner_can_decide (c : Claim.t) : bool := status_is (Claim.status c) PENDING.

(** [handleApprove] / [handleReject]: the endpoint called, and whether
    the lists are fetched again ([response.ok]). *)
Definition owner_decision_endpoint (approve : bool) : string :=
  if approve then "approve" else "reject".

Inductive decision_response := DecisionOk | DecisionNotOk | DecisionThrows.

(** The whole of [handleApprove] ([approve = true]) and [handleReject]:
    the alert shown and the page after it; a 2xx answer runs
    [fetchClaimsData] again, with its three answers as inputs. *)
Definition owner_decide (approve : bool) (r : decision_response)
    (myItems : option (json_list Item.t)) (answer : Z -> item_claims_answer)
    (made : option (json_list Claim.t))
    (p : claim_page) : string * claim_page :=
  match r with
  | DecisionOk =>
      (if approve then "Claim approved successfully!" else "Claim rejected successfully!",
       fetch_claims_data myItems answer made p)
  | DecisionNotOk => (if approve then "Failed to approve claim" else "Failed to reject claim", p)
  | DecisionThrows => (if approve then "Error approving claim" else "Error rejecting claim", p)
  end.

(** ** The Claim page's render *)

(** One claim card: the status badge ([claim.status.toLowerCase()] in
    its class, which throws when the status is missing), the
    verification answer when it is truthy, and whether the Approve and
    Reject buttons are shown.  Names, e-mails and dates are display only. *)
Record claim_card := mkClaimCard {
  cc_status : string; cc_answer : option string; cc_actions : bool
}.

Definition claim_card_of (actions : bool) (c : Claim.t) : option claim_card :=
  match Claim.status c with
  | Some st =>
      Some (mkClaimCard st (match Claim.verificationAnswer c with
                            | Some a => if truthy_str a then Some a else None
                            | None => None end)
                        (actions && owner_can_decide c))
  | None => None
  end.

(** A card of "Claims on My Items", with [claim.itemDetails?.itemTitle
    || "Unknown Item"] as its title. *)
Definition received_card (rc : received_claim) : option (string * claim_card) :=
  (fun card => (opt_or (Item.itemTitle (rc_itemDetails rc)) "Unknown Item", card))
    <$> claim_card_of true (rc_claim rc).

Inductive claim_view :=
  | ClaimsLoading                                  (** "Loading claims..." *)
  | NoClaims                                       (** "No claims received yet", on both tabs *)
  | ReceivedCards (cards : list (string * claim_card))
  | MadeCards (cards : list claim_card).

(** The page's content; [None] when the render throws.  On "My Claims"
    [null.length] throws, and for another non-array value
    [undefined === 0] is false and [myClaims.map] is not a function. *)
Definition claim_render (p : claim_page) : option claim_view :=
  if cp_loading p then Some ClaimsLoading
  else if cp_activeTab p === "myItems" then
    match claimsOnMyItems p with
    | [] => Some NoClaims
    | l => ReceivedCards <$> mapM received_card l
    end
  else match myClaims p with
       | JArray [] => Some NoClaims
       | JArray l => MadeCards <$> mapM (claim_card_of false) l
       | JNull | JObject => None
       end.

(** ** The admin's claims tab *)

(** [!claim.verified] shows "Approve Claim" and "Reject Claim", which call
    [updateClaimStatus(claimId, true)] and [(claimId, false)]. *)
Definition admin_claim_actions (c : Claim.t) : list bool :=
  if Claim.verified c then [] else [true; false].

(** The contract of [PUT /api/claims/{id}/verify] (section 6 of the
    design: a boolean body, the updated claim in return). *)
Definition verify_contract (v : bool) (c : Claim.t) : Claim.t :=
  Claim.mk (Claim.claimId c) (Claim.itemId c) (Claim.userId c) (Claim.verificationAnswer c)
           (Claim.status c) v.

(** [updateClaimStatus] followed by [fetchClaims] when [response.ok]. *)
Definition admin_update_claim (claimId : Z) (v : bool) (ok : bool) (claims : list Claim.t)
    : list Claim.t :=
  if ok then List.map (fun c => if (Claim.claimId c =? claimId)%Z then verify_contract v c else c)
                      claims
  else claims.

(** ** Lemmas *)

Lemma blank_answer_iff (a : string) :
  (negb (truthy_str a) || (trim a === "")) = false <-> trim a <> ""%string.
Proof.
  rewrite orb_false_iff, negb_false_iff. split.
  - intros [_ H]. intros E. rewrite E in H. done.
  - intros H. split; [by apply trim_nonempty_truthy|]. by apply js_eqb_false.
Qed.

(** The handler sends its request when the user is known, is not the
    reporter and answered. *)
Lemma mine_click_sends (me : User.t) (item : Item.t) (a : string) (resp : claim_post_response) :
  truthy_Z (User.userId me) = true -> Item.userId item <> User.userId me -> trim a <> ""%string ->
  request_of (mine_click (Some me) item (Some a) resp) =
    Some (mkClaimRequest (Item.itemId item) (User.userId me) (trim a) PENDING false).
Proof.
  intros Hid Hown Hb. simpl. rewrite Hid. simpl.
  destruct (id_eqb (Item.userId item) (User.userId me)) eqn:E;
    [apply id_eqb_spec in E; congruence|].
  apply blank_answer_iff in Hb. rewrite Hb. by destruct resp.
Qed.

Lemma claims_of_failed_item (answer : Z -> item_claims_answer) (item : Item.t) :
  answer (Item.itemId item) = ClaimsNotArray \/ answer (Item.itemId item) = ClaimsRejected ->
  claims_of_item answer item = [].
Proof. unfold claims_of_item. by intros [-> | ->]. Qed.

(** A list of cards renders unless one of its elements fails. *)
Lemma mapM_None_iff {A B} (f : A -> option B) (P : A -> Prop) (l : list A) :
  (forall x, f x = None <-> P x) -> mapM f l = None <-> Exists P l.
Proof.
  intros Hf. split.
  - intros H%mapM_None_1. eapply Exists_impl; [exact H|]. intros x. apply Hf.
  - intros H. apply mapM_None_2. eapply Exists_impl; [exact H|]. intros x. apply Hf.
Qed.

Lemma claim_card_of_None (actions : bool) (c : Claim.t) :
  claim_card_of actions c = None <-> Claim.status c = None.
Proof. unfold claim_card_of. by destruct (Claim.status c). Qed.

Lemma received_card_None (rc : received_claim) :
  received_card rc = None <-> Claim.status (rc_claim rc) = None.
Proof. unfold received_card. by rewrite fmap_None, claim_card_of_None. Qed.

(** ** Theorems *)

(** C18: The "This is Mine!" handler sends a request exactly when a user
    with a (non-zero) id is logged in, is not the item's reporter, and
    gave a non-blank answer; the request then names the item and the user,
    carries the trimmed answer, status "PENDING" and verified false. *)
Theorem claim_request_iff (user : option User.t) (item : Item.t) (answer : option string)
    (resp : claim_post_response) (req : claim_request) :
  request_of (mine_click user item answer resp) = Some req <->
  exists me a, user = Some me /\ truthy_Z (User.userId me) = true /\
    Item.userId item <> User.userId me /\ answer = Some a /\ trim a <> ""%string /\
    req = mkClaimRequest (Item.itemId item) (User.userId me) (trim a) PENDING false.
Proof.
  split.
  - destruct user as [me|]; simpl; [|done].
    destruct (truthy_Z (User.userId me)) eqn:Hid; simpl; [|done].
    destruct (id_eqb (Item.userId item) (User.userId me)) eqn:Hown; [done|].
    destruct answer as [a|]; [|done].
    destruct (negb (truthy_str a) || (trim a === "")) eqn:Hb; [done|].
    apply blank_answer_iff in Hb.
    intros Hreq. exists me, a. repeat split; try done.
    + intros E%id_eqb_spec. congruence.
    + destruct resp; simpl in Hreq; congruence.
  - intros (me & a & -> & Hid & Hown & -> & Hb & ->). by apply mine_click_sends.
Qed.

(** C11: Claiming one's own item fails with the "cannot claim your own
    reported item" message and sends no request, whatever the answer. *)
Theorem own_item_claim_refused (me : User.t) (item : Item.t) (answer : option string)
    (resp : claim_post_response) :
  truthy_Z (User.userId me) = true -> Item.userId item = User.userId me ->
  mine_click (Some me) item answer resp = OwnItem /\
  request_of (mine_click (Some me) item answer resp) = None.
Proof.
  intros Hid Hown. simpl. rewrite Hid. simpl.
  assert (E : id_eqb (Item.userId item) (User.userId me) = true) by (by apply id_eqb_spec).
  by rewrite E.
Qed.

(** Aggregation isolates failures: an item whose claims request
    fails (rejects or answers something that is not an array) contributes
    no claim, and the claims of the items before and after it are kept in
    order. *)
Theorem received_claims_skip_failed_item (answer : Z -> item_claims_answer)
    (before after : list Item.t) (bad : Item.t) :
  answer (Item.itemId bad) = ClaimsNotArray \/ answer (Item.itemId bad) = ClaimsRejected ->
  claims_on_my_items answer (before ++ bad :: after) =
    claims_on_my_items answer before ++ claims_on_my_items answer after.
Proof.
  intros Hbad. unfold claims_on_my_items.
  rewrite flat_map_app. simpl. by rewrite claims_of_failed_item.
Qed.

(** C19: Every claim listed as received is a claim the server returned
    for one of the user's items, annotated with that item, and every claim
    returned for one of the user's items is listed. *)
Theorem received_claims_spec (answer : Z -> item_claims_answer) (userItems : list Item.t)
    (rc : received_claim) :
  In rc (claims_on_my_items answer userItems) <->
  exists item claims, In item userItems /\ answer (Item.itemId item) = ClaimsArray claims /\
    In (rc_claim rc) claims /\ rc_itemDetails rc = item.
Proof.
  unfold claims_on_my_items. rewrite in_flat_map. split.
  - intros (item & Hin & Hrc). unfold claims_of_item in Hrc.
    destruct (answer (Item.itemId item)) as [claims| |] eqn:Ha; [|done..].
    apply in_map_iff in Hrc as (c & <- & Hc). exists item, claims. done.
  - intros (item & claims & Hin & Ha & Hc & Hd). exists item. split; [done|].
    unfold claims_of_item. rewrite Ha. apply in_map_iff. exists (rc_claim rc).
    split; [destruct rc; simpl in *; by subst | done].
Qed.

(** The claims page always leaves its loading state; when the list
    of the user's items cannot be fetched it keeps what it showed, and
    when only the list of claims made fails, the claims received are
    still published. *)
Theorem fetch_claims_data_outcome (myItems : option (json_list Item.t))
    (answer : Z -> item_claims_answer) (made : option (json_list Claim.t)) (p : claim_page) :
  let p' := fetch_claims_data myItems answer made p in
  cp_loading p' = false /\ cp_activeTab p' = cp_activeTab p /\
  ((forall userItems, myItems <> Some (JArray userItems)) ->
     claimsOnMyItems p' = claimsOnMyItems p /\ myClaims p' = myClaims p) /\
  (forall userItems, myItems = Some (JArray userItems) ->
     claimsOnMyItems p' = claims_on_my_items answer userItems /\
     (made = None -> myClaims p' = myClaims p)).
Proof.
  simpl. destruct myItems as [[userItems| |]|]; [destruct made|..]; simpl;
    repeat split; intros; simplify_eq; try done; naive_solver.
Qed.

(** C34: The admin's "Reject Claim" changes nothing the dashboard shows:
    with the endpoint's contract, rejecting an unverified claim leaves the
    list as it was, the claim stays under "Pending Claims" and both
    buttons are offered again. *)
Theorem admin_reject_is_noop (c : Claim.t) (claims : list Claim.t) :
  Claim.verified c = false -> In c claims ->
  (forall c', In c' claims -> Claim.claimId c' = Claim.claimId c -> Claim.verified c' = false) ->
  admin_update_claim (Claim.claimId c) false true claims = claims /\
  In c (admin_filtered_claims "pending" claims) /\ admin_claim_actions c = [true; false].
Proof.
  intros Hv Hin Hsame. split; [|split].
  - unfold admin_update_claim. simpl. rewrite <- (map_id claims) at 2. apply map_ext_in.
    intros c' Hc'. destruct (Claim.claimId c' =? Claim.claimId c)%Z eqn:E; [|done].
    apply Z.eqb_eq in E. specialize (Hsame c' Hc' E).
    destruct c' as [? ? ? ? ? v]; simpl in *. by subst v.
  - unfold admin_filtered_claims. simpl. apply filter_In. by rewrite Hv.
  - unfold admin_claim_actions. by rewrite Hv.
Qed.

(** The admin's "Approve Claim" does move the claim: after a
    successful call every claim with that id is verified and none is left
    under "Pending Claims". *)
Theorem admin_approve_leaves_pending (claimId : Z) (claims : list Claim.t) (c : Claim.t) :
  In c (admin_filtered_claims "pending" (admin_update_claim claimId true true claims)) ->
  Claim.claimId c <> claimId.
Proof.
  unfold admin_filtered_claims, admin_update_claim. simpl.
  intros [Hin Hv]%filter_In. apply in_map_iff in Hin as (c0 & <- & _).
  destruct (Claim.claimId c0 =? claimId)%Z eqn:E; simpl in *; [done|].
  apply Z.eqb_neq in E. done.
Qed.

(** C38: Home offers "This is Mine!" on every card the user did not
    report, LOST items included, and the handler never looks at the
    status: a claim is sent for an item somebody reported as lost,
    although the design defines a claim as one made on a FOUND item. *)
Theorem home_claim_on_lost_item (me : User.t) (item : Item.t) (a : string)
    (resp : claim_post_response) :
  truthy_Z (User.userId me) = true -> Item.userId item <> User.userId me ->
  Item.status item = Some LOST -> trim a <> ""%string ->
  c_mine_button (home_card (Some me) item) = true /\
  request_of (mine_click (Some me) item (Some a) resp) =
    Some (mkClaimRequest (Item.itemId item) (User.userId me) (trim a) PENDING false).
Proof.
  intros Hid Hown Hlost Hb. split; [|by apply mine_click_sends].
  unfold home_card, is_current_user_item. simpl.
  destruct (id_eqb (Item.userId item) (User.userId me)) eqn:E; [apply id_eqb_spec in E; congruence|done].
Qed.

(** C28: Once loaded, the Claim page's render throws exactly when the
    shown list has a claim without a status (its badge calls
    [status.toLowerCase()]), or when "My Claims" is shown and the stored
    claims made are not an array. *)
Theorem claim_render_throws_iff (p : claim_page) :
  cp_loading p = false ->
  claim_render p = None <->
  if cp_activeTab p === "myItems"
  then Exists (fun rc => Claim.status (rc_claim rc) = None) (claimsOnMyItems p)
  else match myClaims p with
       | JArray l => Exists (fun c => Claim.status c = None) l
       | JNull | JObject => True
       end.
Proof.
  intros Hl. unfold claim_render. rewrite Hl.
  destruct (cp_activeTab p === "myItems").
  - destruct (claimsOnMyItems p) as [|rc l]; [split; [done | inversion 1]|].
    rewrite fmap_None. apply mapM_None_iff, received_card_None.
  - destruct (myClaims p) as [[|c l]| |]; [split; [done | inversion 1] | | done..].
    rewrite fmap_None. apply mapM_None_iff, claim_card_of_None.
Qed.

(** An error answer to the claims-made request with a JSON body is
    stored as the list and makes "My Claims" throw, while a failed
    request leaves the tab on its empty state: the read failure reaches
    the render instead of an empty state. *)
Theorem claims_error_body_crashes (u : User.t) (items : list Item.t)
    (answer : Z -> item_claims_answer) (v : json_list Claim.t) :
  truthy_Z (User.userId u) = true -> (forall l, v <> JArray l) ->
  claim_render (set_claim_tab "myClaims"
    (claims_effect (Some u) (Some (JArray items)) answer (Some v) claim_page_init)) = None /\
  claim_render (set_claim_tab "myClaims"
    (claims_effect (Some u) (Some (JArray items)) answer None claim_page_init)) = Some NoClaims.
Proof.
  intros Hid Hv. simpl. rewrite Hid. simpl.
  destruct v as [l| |]; [by destruct (Hv l) | done | done].
Qed.

(** The assistant's "Claim This Match" buttons: when the oldest pending
    search resumes on a list in which it finds matches, the open panel
    lists their found items, each one a "FOUND" item someone else
    reported, and its button sends a PENDING claim for that item. *)
Theorem ai_claim_match_sends (me : User.t) (a : ai_ui) (items : list Item.t) (rest : list (list Item.t))
    (ms : list (Item.t * Item.t)) (found : Item.t) (ans : string) (resp : claim_post_response) :
  truthy_Z (User.userId me) = true -> showAIChat a = true -> ai_waiting a = items :: rest ->
  ai_search (Some me) items = AiMatches ms -> In found (List.map snd ms) -> trim ans <> ""%string ->
  ai_panel_of (ai_timer_fires (Some me) a) =
    Some (AiPanelDone (ai_message_of (AiMatches ms)) (List.map snd ms)) /\
  Item.status found = Some FOUND /\
  request_of (mine_click (Some me) found (Some ans) resp) =
    Some (mkClaimRequest (Item.itemId found) (User.userId me) (trim ans) PENDING false).
Proof.
  intros Hid Hshow Hw Hs Hin Hb.
  split; [unfold ai_panel_of, ai_timer_fires; rewrite Hw, Hs; simpl; by rewrite Hshow|].
  apply in_map_iff in Hin as ([lostItem f] & <- & Hin). simpl.
  destruct (ai_matches_sound me items ms lostItem f Hs Hin) as (_ & _ & _ & _ & Hf & Hown).
  split; [done | by apply mine_click_sends].
Qed.

(** ** Witnesses *)

Definition claimant : User.t :=
  User.mk (Some 3%Z) (Some "ben") (Some "ben@uni.edu") (Some "USER") (Some "Ben") None None.
Definition blue_backpack : Item.t := mk_item 2 "Blue Backpack" FOUND 4.
Definition claim_of (id : Z) (verified : bool) : Claim.t :=
  Claim.mk id (Some 2%Z) (Some 3%Z) (Some "Has a keychain shaped like a cat") (Some PENDING) verified.

Lemma own_item_claim_refused_witness :
  truthy_Z (User.userId claimant) = true /\
  mine_click (Some claimant) (mk_item 9 "Scarf" FOUND 3) (Some "mine") PostNetworkError = OwnItem.
Proof.
  split; [reflexivity|].
  apply (own_item_claim_refused claimant (mk_item 9 "Scarf" FOUND 3)); reflexivity.
Defined.

Definition answers_2_fails (id : Z) : item_claims_answer :=
  if (id =? 2)%Z then ClaimsRejected else ClaimsArray [claim_of (10 + id) false].

Lemma received_claims_skip_failed_item_witness :
  answers_2_fails 2 = ClaimsRejected /\
  claims_on_my_items answers_2_fails [mk_item 1 "Wallet" LOST 4; mk_item 2 "Keys" FOUND 4;
                                      mk_item 3 "Cap" FOUND 4] =
  claims_on_my_items answers_2_fails [mk_item 1 "Wallet" LOST 4] ++
  claims_on_my_items answers_2_fails [mk_item 3 "Cap" FOUND 4].
Proof.
  split; [reflexivity|].
  apply (received_claims_skip_failed_item answers_2_fails [mk_item 1 "Wallet" LOST 4]
           [mk_item 3 "Cap" FOUND 4] (mk_item 2 "Keys" FOUND 4)).
  right. reflexivity.
Defined.

Lemma admin_reject_is_noop_witness :
  Claim.verified (claim_of 1 false) = false /\
  admin_update_claim 1 false true [claim_of 1 false; claim_of 2 true] =
    [claim_of 1 false; claim_of 2 true].
Proof.
  split; [reflexivity|].
  apply (admin_reject_is_noop (claim_of 1 false) [claim_of 1 false; claim_of 2 true]);
    [reflexivity | left; reflexivity |].
  intros c' [<-|[<-|[]]]; simpl; [reflexivity | discriminate].
Defined.

Lemma admin_approve_leaves_pending_witness :
  In (claim_of 2 false)
     (admin_filtered_claims "pending" (admin_update_claim 1 true true [claim_of 1 false; claim_of 2 false])) /\
  Claim.claimId (claim_of 2 false) <> 1%Z.
Proof.
  assert (H : In (claim_of 2 false)
     (admin_filtered_claims "pending" (admin_update_claim 1 true true [claim_of 1 false; claim_of 2 false])))
    by (vm_compute; left; reflexivity).
  split; [exact H | apply (admin_approve_leaves_pending 1 _ _ H)].
Defined.

Definition lost_wallet : Item.t :=
  Item.mk 30 (Some "Brown wallet") (Some "Leather, has an ID") (Some "Library") (Some "Wallets")
          (Some "LOST") (Some 9%Z) (Some 4%Z) (Some 3%Z) (Some "2025-03-02").

Lemma home_claim_on_lost_item_witness :
  c_mine_button (home_card (Some claimant) lost_wallet) = true /\
  request_of (mine_click (Some claimant) lost_wallet (Some " it is mine ") PostNetworkError) =
    Some (mkClaimRequest 30 (User.userId claimant) "it is mine" PENDING false).
Proof.
  apply (home_claim_on_lost_item claimant lost_wallet " it is mine " PostNetworkError);
    (reflexivity || (vm_compute; congruence)).
Defined.

Lemma claim_render_throws_iff_witness :
  cp_loading (mkClaimPage "myClaims" [] JNull false) = false /\
  claim_render (mkClaimPage "myClaims" [] JNull false) = None.
Proof.
  split; [reflexivity|].
  apply (claim_render_throws_iff (mkClaimPage "myClaims" [] JNull false) eq_refl). exact I.
Defined.

Lemma claims_error_body_crashes_witness :
  truthy_Z (User.userId claimant) = true /\
  claim_render (set_claim_tab "myClaims"
    (claims_effect (Some claimant) (Some (JArray [blue_backpack])) answers_2_fails (Some JObject)
       claim_page_init)) = None.
Proof.
  split; [reflexivity|].
  apply (claims_error_body_crashes claimant [blue_backpack] answers_2_fails JObject eq_refl).
  discriminate.
Defined.
