(* ===== verification/Report.v ===== *)
(** * Reporting, editing and deleting items

    [pages/ReportItem/ReportItem.js].  The page state is the list of the
    user's reports, the report form, the edit form and the message shown.
    [submit_report_form] is the browser's constraint check of the report
    [<form>] (its [required] fields) followed by [handleSubmit]; the edit
    panel is not a [<form>], so [handleUpdateSubmit] runs on a click with
    no such check.  Server answers are inputs; today's date, which the
    form's reset reads from the clock, is an input too. *)

From stdpp Require Import base strings list pretty.
From Stdlib Require Import String ZArith Lia.
From S2P Require Import Prelude Model.

Local Open Scope js_scope.

(** ** Reference data and forms *)

Record category := mkCategory { categoryId : Z; categoryName : string }.
Record department := mkDepartment { depId : Z; depName : string }.

(** [formData] and [editFormData]: select values are strings. *)
Record report_form := mkForm {
  f_itemTitle : string; f_itemDesc : string; f_categoryId : string; f_departmentId : string;
  f_status : string; f_dateReport : string; f_image : option string
}.

Definition empty_form (today : string) : report_form := mkForm "" "" "" "" "FOUND" today None.

Record message := mkMessage { m_text : string; m_type : string; m_title : string }.

Definition no_message : message := mkMessage "" "info" "".

Record report_page := mkPage {
  reportedItems : list Item.t; formData : report_form;
  editingItem : option Z; editFormData : report_form; rp_message : message
}.

(** [categories.find(c => String(c.categoryId) === String(id))] *)
Definition find_category (categories : list category) (id : string) : option category :=
  List.find (fun c => pretty (categoryId c) === id) categories.

Definition find_department (departments : list department) (id : string) : option department :=
  List.find (fun d => pretty (depId d) === id) departments.

(** ** handleSubmit *)

(** The multipart body of [POST /api/items/report]. *)
Record report_payload := mkPayload {
  p_itemTitle : string; p_itemDesc : string; p_location : string; p_status : string;
  p_userId : option Z; p_categoryId : Z; p_departmentId : Z; p_dateReport : string;
  p_image : option string
}.

Inductive checked := Blocked (msg : message) | Send (payload : report_payload) (dep : department).

(** The validation prefix shared by [handleSubmit] and [handleUpdateSubmit]. *)
Definition check_selection (user : option User.t) (categories : list category)
    (departments : list department) (form : report_form) (login_text : string)
    (build : User.t -> category -> department -> report_payload) : checked :=
  match user with
  | None => Blocked (mkMessage login_text "error" "Login Required")
  | Some u =>
      if negb (truthy_str (f_categoryId form)) || negb (truthy_str (f_departmentId form)) then
        Blocked (mkMessage "Please select both a category and a campus" "error" "Missing Information")
      else match find_category categories (f_categoryId form),
                 find_department departments (f_departmentId form) with
           | Some c, Some d => Send (build u c d) d
           | _, _ => Blocked (mkMessage "Invalid category or campus selection. Please try again."
                                        "error" "Selection Error")
           end
  end.

Definition report_payload_of (form : report_form) (u : User.t) (c : category) (d : department)
    : report_payload :=
  mkPayload (f_itemTitle form) (f_itemDesc form) (depName d) (to_upper (f_status form))
            (User.userId u) (categoryId c) (depId d) (f_dateReport form) (f_image form).

Inductive report_response :=
  | ReportOk (result : option Item.t)         (** 2xx; [None] when the text is not JSON *)
  | ReportHttpError (code : Z) (text : string)
  | ReportThrows (errMessage : string).      (** [fetch] rejects *)

Inductive refresh_response :=
  | RefreshOk (data : option (list Item.t))  (** [None] when the JSON is not an array *)
  | RefreshNotOk
  | RefreshThrows.

(** [refreshUserItems] *)
Definition refresh_user_items (user : option User.t) (r : refresh_response) (p : report_page)
    : report_page :=
  match user, r with
  | Some _, RefreshOk data =>
      mkPage (match data with Some items => items | None => [] end) (formData p) (editingItem p)
             (editFormData p) (rp_message p)
  | _, _ => p
  end.

Definition with_message (m : message) (p : report_page) : report_page :=
  mkPage (reportedItems p) (formData p) (editingItem p) (editFormData p) m.

Definition error_text (err default : string) : string := if truthy_str err then err else default.

(** [handleSubmit]: the new page, and the request sent if any. *)
Definition handle_submit (user : option User.t) (categories : list category)
    (departments : list department) (r : report_response) (rr : refresh_response)
    (today : string) (p : report_page) : report_page * option report_payload :=
  let form := formData p in
  match check_selection user categories departments form "Please log in to report an item"
          (report_payload_of form) with
  | Blocked msg => (with_message msg p, None)
  | Send payload d =>
      (match r with
       | ReportHttpError code text =>
           with_message (mkMessage ("Server error: " ++ pretty code ++ " - " ++ text) "error" "Error") p
       | ReportThrows e =>
           with_message (mkMessage (error_text e "Failed to report item. Please try again.")
                                   "error" "Error") p
       | ReportOk None => with_message (mkMessage "Invalid response from server" "error" "Error") p
       | ReportOk (Some result) =>
           let p1 := mkPage (result :: reportedItems p) form (editingItem p) (editFormData p)
                            (rp_message p) in
           let p2 := refresh_user_items user rr p1 in
           mkPage (reportedItems p2) (empty_form today) (editingItem p2) (editFormData p2)
             (mkMessage (quote_str ++ f_itemTitle form ++ quote_str ++ " has been reported as " ++
                         to_lower (f_status form) ++ " at " ++ depName d ++ ".")
                        "maroon" "Item Reported Successfully!")
       end, Some payload)
  end.

(** The [required] attributes of the report [<form>]: the browser does
    not fire [onSubmit] while one of these fields is empty. *)
Definition report_form_complete (form : report_form) : bool :=
  truthy_str (f_itemTitle form) && truthy_str (f_itemDesc form) &&
  truthy_str (f_categoryId form) && truthy_str (f_departmentId form) &&
  truthy_str (f_status form) && truthy_str (f_dateReport form).

Definition submit_report_form (user : option User.t) (categories : list category)
    (departments : list department) (r : report_response) (rr : refresh_response)
    (today : string) (p : report_page) : report_page * option report_payload :=
  if report_form_complete (formData p)
  then handle_submit user categories departments r rr today p else (p, None).

(** ** fetchReportedItems, handleDelete *)

Inductive list_fetch := FetchArray (items : list Item.t) | FetchNotArray | FetchThrows.

(** The effect on [user]: [Array.isArray(data) ? data : []]; a failure
    also empties the list and shows an error. *)
Definition fetch_reported_items (user : option User.t) (r : list_fetch) (p : report_page)
    : report_page :=
  match user with
  | None => p
  | Some _ =>
      match r with
      | FetchArray items => mkPage items (formData p) (editingItem p) (editFormData p) (rp_message p)
      | FetchNotArray => mkPage [] (formData p) (editingItem p) (editFormData p) (rp_message p)
      | FetchThrows =>
          mkPage [] (formData p) (editingItem p) (editFormData p)
                 (mkMessage "Failed to load your reported items" "error" "Load Error")
      end
  end.

Inductive delete_response := DeleteOk | DeleteError (text : string) | DeleteThrows (errMessage : string).

Definition handle_delete (id : Z) (confirmed : bool) (r : delete_response) (p : report_page)
    : report_page :=
  if negb confirmed then p else
  match r with
  | DeleteOk =>
      mkPage (List.filter (fun item => negb (Item.itemId item =? id)%Z) (reportedItems p))
             (formData p) (editingItem p) (editFormData p)
             (mkMessage "Item has been deleted successfully" "maroon" "Item Deleted")
  | DeleteError text =>
      with_message (mkMessage (error_text text "Failed to delete item") "error" "Delete Failed") p
  | DeleteThrows e => with_message (mkMessage (error_text e "Error deleting item") "error" "Error") p
  end.

(** ** Editing *)

Definition or_empty (o : option string) : string := match o with Some s => s | None => "" end.

(** [handleEditClick]: the edit form filled from the item. *)
Definition edit_form_of (item : Item.t) (today : string) : report_form :=
  mkForm (or_empty (Item.itemTitle item)) (or_empty (Item.itemDesc item))
    (match Item.categoryId item with Some c => if truthy_Z (Some c) then pretty c else "" | None => "" end)
    (match Item.departmentId item with Some d => if truthy_Z (Some d) then pretty d else "" | None => "" end)
    (or_empty (Item.status item))
    (match Item.dateReport item with
     | Some dr => if truthy_str dr then substring 0 10 dr else today
     | None => today
     end)
    None.

Definition handle_edit_click (item : Item.t) (today : string) (p : report_page) : report_page :=
  mkPage (reportedItems p) (formData p) (Some (Item.itemId item)) (edit_form_of item today)
         (rp_message p).

Definition handle_cancel_edit (p : report_page) : report_page :=
  mkPage (reportedItems p) (formData p) None (mkForm "" "" "" "" "" "" None) (rp_message p).

(** [{...item, ...result}]: the fields present in the answer win. *)
Definition merge_item (item result : Item.t) : Item.t :=
  let pick {A} (a b : option A) := match b with Some _ => b | None => a end in
  Item.mk (Item.itemId result) (pick (Item.itemTitle item) (Item.itemTitle result))
    (pick (Item.itemDesc item) (Item.itemDesc result)) (pick (Item.location item) (Item.location result))
    (pick (Item.categoryName item) (Item.categoryName result)) (pick (Item.status item) (Item.status result))
    (pick (Item.userId item) (Item.userId result)) (pick (Item.categoryId item) (Item.categoryId result))
    (pick (Item.departmentId item) (Item.departmentId result))
    (pick (Item.dateReport item) (Item.dateReport result)).

(** [handleUpdateSubmit(itemId)]: the new page and the PUT body sent, if
    any ([imageUrl] is the file name or [""], kept in [p_image]). *)
Definition handle_update (user : option User.t) (categories : list category)
    (departments : list department) (itemId : Z) (r : report_response) (rr : refresh_response)
    (p : report_page) : report_page * option report_payload :=
  let form := editFormData p in
  match check_selection user categories departments form "You must be logged in to update items!"
          (report_payload_of form) with
  | Blocked msg => (with_message msg p, None)
  | Send payload _ =>
      (match r with
       | ReportHttpError code text =>
           with_message (mkMessage ("Server error: " ++ pretty code ++ " - " ++ text)
                                   "error" "Update Failed") p
       | ReportThrows e =>
           with_message (mkMessage (error_text e "Failed to update item") "error" "Update Failed") p
       | ReportOk None =>
           with_message (mkMessage "Invalid response from server" "error" "Update Failed") p
       | ReportOk (Some result) =>
           let items := List.map (fun item => if (Item.itemId item =? itemId)%Z
                                              then merge_item item result else item)
                                 (reportedItems p) in
           refresh_user_items user rr
             (mkPage items (formData p) None (editFormData p)
                (mkMessage (quote_str ++ f_itemTitle form ++ quote_str ++ " has been updated successfully")
                           "maroon" "Item Updated"))
       end, Some payload)
  end.

(** ** The other handlers of the page *)

(** The effect on [location]: which panel the path selects. *)
Definition panel_of_path (path : string) : string :=
  if includes path "/report-item/list" then "list"
  else if includes path "/report-item/tips" then "tips"
  else "report".

(** [fetchData]: categories, then departments; a failure of either
    request shows the load error and keeps what was set before it. *)
Definition fetch_reference_data (cats : option (list category)) (deps : option (list department))
    (current : list category * list department) (p : report_page)
    : (list category * list department) * report_page :=
  let fail := mkMessage "Failed to load categories and departments" "error" "Load Error" in
  match cats with
  | None => (current, with_message fail p)
  | Some cs =>
      match deps with
      | None => ((cs, snd current), with_message fail p)
      | Some ds => ((cs, ds), p)
      end
  end.

(** [setFormData(prev => ({...prev, [name]: value}))] for the text and
    select inputs of the report form (and of the edit panel, through
    [handleEditChange]). *)
Definition set_field (name value : string) (f : report_form) : report_form :=
  if name === "itemTitle" then mkForm value (f_itemDesc f) (f_categoryId f) (f_departmentId f) (f_status f) (f_dateReport f) (f_image f)
  else if name === "itemDesc" then mkForm (f_itemTitle f) value (f_categoryId f) (f_departmentId f) (f_status f) (f_dateReport f) (f_image f)
  else if name === "categoryId" then mkForm (f_itemTitle f) (f_itemDesc f) value (f_departmentId f) (f_status f) (f_dateReport f) (f_image f)
  else if name === "departmentId" then mkForm (f_itemTitle f) (f_itemDesc f) (f_categoryId f) value (f_status f) (f_dateReport f) (f_image f)
  else if name === "status" then mkForm (f_itemTitle f) (f_itemDesc f) (f_categoryId f) (f_departmentId f) value (f_dateReport f) (f_image f)
  else if name === "dateReport" then mkForm (f_itemTitle f) (f_itemDesc f) (f_categoryId f) (f_departmentId f) (f_status f) value (f_image f)
  else f.

Definition set_image (file : option string) (f : report_form) : report_form :=
  mkForm (f_itemTitle f) (f_itemDesc f) (f_categoryId f) (f_departmentId f) (f_status f) (f_dateReport f) file.

(** [handleChange]: the image input stores its file (its preview is
    read asynchronously and only displayed); the others their value. *)
Definition handle_change (name value : string) (file : option string) (p : report_page) : report_page :=
  let f := if name === "image" then set_image file (formData p) else set_field name value (formData p) in
  mkPage (reportedItems p) f (editingItem p) (editFormData p) (rp_message p).

(** [handleEditChange] on the edit panel's inputs. *)
Definition handle_edit_change (name value : string) (file : option string) (p : report_page) : report_page :=
  let f := if name === "image" then set_image file (editFormData p) else set_field name value (editFormData p) in
  mkPage (reportedItems p) (formData p) (editingItem p) f (rp_message p).

(** The date field of the edit form: [dateReport.slice(0, 10)] or today. *)
Definition edit_date (item : Item.t) (today : string) : string :=
  match Item.dateReport item with
  | Some dr => if truthy_str dr then substring 0 10 dr else today
  | None => today
  end.

(** ** The page's panels *)

(** One row of "Your Reported Items": the edit form when
    [editingItem === item.itemId], otherwise the item with its title
    ([|| "Unnamed Item"]), the badge class
    ([item.status ? item.status.toLowerCase() : 'unknown']) and label
    ([|| "Unknown"]), and its Edit and Delete buttons. *)
Inductive report_row :=
  | RowEditing (itemId : Z)
  | RowView (itemId : Z) (title badge label : string).

Definition report_row_of (editing : option Z) (item : Item.t) : report_row :=
  let view := RowView (Item.itemId item) (opt_or (Item.itemTitle item) "Unnamed Item")
                      (match Item.status item with
                       | Some st => if truthy_str st then to_lower st else "unknown"
                       | None => "unknown" end)
                      (opt_or (Item.status item) "Unknown") in
  match editing with
  | Some id => if (id =? Item.itemId item)%Z then RowEditing (Item.itemId item) else view
  | None => view
  end.

Inductive report_view :=
  | PanelReportForm                    (** the report form, submitted by [submit_report_form] *)
  | PanelListLoading                   (** "Loading your items..." *)
  | PanelNoReports                     (** "No items reported yet." and "Report Your First Item" *)
  | PanelRows (rows : list report_row)
  | PanelTips
  | PanelNone.

(** The content panel for [activePanel]; [loading] is true while
    [fetchReportedItems] is in flight. *)
Definition report_panel (activePanel : string) (loading : bool) (p : report_page) : report_view :=
  if activePanel === "report" then PanelReportForm
  else if activePanel === "list" then
    if loading then PanelListLoading
    else match reportedItems p with
         | [] => PanelNoReports
         | l => PanelRows (List.map (report_row_of (editingItem p)) l)
         end
  else if activePanel === "tips" then PanelTips
  else PanelNone.

(** "Report Your First Item": [setActivePanel("report")], without
    changing the location. *)
Definition report_first_click (activePanel : string) : string := "report".

(** ** Lemmas *)

Lemma check_selection_send (user : option User.t) (categories : list category)
    (departments : list department) (form : report_form) (t : string)
    (build : User.t -> category -> department -> report_payload) (payload : report_payload)
    (d : department) :
  check_selection user categories departments form t build = Send payload d <->
  truthy_str (f_categoryId form) = true /\ truthy_str (f_departmentId form) = true /\
  exists u c, user = Some u /\ find_category categories (f_categoryId form) = Some c /\
    find_department departments (f_departmentId form) = Some d /\ payload = build u c d.
Proof.
  unfold check_selection.
  destruct user as [u|]; [|split; [done | intros (_ & _ & ? & ? & ? & _); done]].
  destruct (truthy_str (f_categoryId form)) eqn:Ec, (truthy_str (f_departmentId form)) eqn:Ed;
    simpl; try (split; [done | intros (? & ? & _); done]).
  destruct (find_category _ _) as [c|] eqn:Hc, (find_department _ _) as [d'|] eqn:Hd;
    split; try done; try (intros (_ & _ & ? & ? & ? & ? & ? & _); congruence).
  - intros [= <- <-]. eauto 10.
  - intros (_ & _ & u' & c' & [= <-] & [= <-] & [= <-] & ->). done.
Qed.

Lemma handle_submit_request (user : option User.t) (categories : list category)
    (departments : list department) (r : report_response) (rr : refresh_response)
    (today : string) (p : report_page) :
  snd (handle_submit user categories departments r rr today p) =
    match check_selection user categories departments (formData p)
            "Please log in to report an item" (report_payload_of (formData p)) with
    | Send payload _ => Some payload
    | Blocked _ => None
    end.
Proof. unfold handle_submit. by destruct (check_selection _ _ _ _ _ _). Qed.

Lemma pretty_N_go_nonempty (x : N) (s : string) : s <> ""%string -> pretty_N_go x s <> ""%string.
Proof.
  revert s. induction (N.lt_wf_0 x) as [x _ IH]; intros s Hs.
  destruct (decide (0 < x)%N) as [Hx|Hx].
  - rewrite pretty_N_go_step by done. apply IH; [apply N.div_lt; lia | done].
  - assert (x = 0)%N as -> by lia. by rewrite pretty_N_go_0.
Qed.

(** [String(id)] of a number is never the empty string. *)
Lemma pretty_Z_nonempty (z : Z) : truthy_str (pretty z) = true.
Proof.
  apply truthy_str_spec. destruct z as [|p|p]; [done| |done].
  change (pretty (Zpos p)) with (pretty (N.pos p)). unfold pretty, pretty_N. cbv beta.
  case_decide; [done|].
  rewrite pretty_N_go_step by lia. by apply pretty_N_go_nonempty.
Qed.

(** Looking a record up by [String(id) === String(x)] finds one with
    that very id, when the list has one. *)
Lemma find_by_pretty {A} (key : A -> Z) (l : list A) (a : A) :
  In a l -> exists a', List.find (fun x => pretty (key x) === pretty (key a)) l = Some a' /\
                       In a' l /\ key a' = key a.
Proof.
  intros Hin. destruct (List.find _ l) as [a'|] eqn:E.
  - apply find_some in E as [Hin' Heq]. apply js_eqb_true, (inj pretty) in Heq. eauto.
  - exfalso. eapply find_none in E; [|exact Hin]. by rewrite js_eqb_refl in E.
Qed.

Definition row_is_editing (r : report_row) : bool :=
  match r with RowEditing _ => true | RowView _ _ _ _ => false end.

Lemma editing_rows (id : Z) (l : list Item.t) :
  List.filter row_is_editing (List.map (report_row_of (Some id)) l) =
  List.map (fun it => RowEditing (Item.itemId it)) (List.filter (fun it => (id =? Item.itemId it)%Z) l).
Proof.
  induction l as [|it l IH]; [done|]. simpl.
  destruct (id =? Item.itemId it)%Z; simpl; by rewrite IH.
Qed.

Lemma no_editing_rows (l : list Item.t) :
  List.filter row_is_editing (List.map (report_row_of None) l) = [].
Proof. induction l as [|it l IH]; [done|]. simpl. by rewrite IH. Qed.

Lemma report_panel_list (p : report_page) :
  reportedItems p <> [] ->
  report_panel "list" false p = PanelRows (List.map (report_row_of (editingItem p)) (reportedItems p)).
Proof. intros Hne. unfold report_panel. simpl. by destruct (reportedItems p). Qed.

Lemma filter_other_ids (l : list Item.t) (id : Z) :
  (forall y, In y l -> id <> Item.itemId y) -> List.filter (fun it => (id =? Item.itemId it)%Z) l = [].
Proof.
  induction l as [|y l IH]; intros H; [done|]. simpl.
  rewrite (proj2 (Z.eqb_neq _ _)) by (apply H; by left). apply IH. intros z Hz. apply H. by right.
Qed.

(** With distinct ids, the items with a given item's id are that item. *)
Lemma filter_unique_id (l : list Item.t) (item : Item.t) :
  NoDup (List.map Item.itemId l) -> In item l ->
  List.filter (fun it => (Item.itemId item =? Item.itemId it)%Z) l = [item].
Proof.
  induction l as [|it l IH]; [done|]. simpl. intros Hnd Hin. inversion Hnd as [|? ? Hni Hnd']; subst.
  destruct Hin as [<-|Hin].
  - rewrite Z.eqb_refl. f_equal.
    apply filter_other_ids. intros y Hy E. apply Hni. rewrite E. apply list_elem_of_In, in_map, Hy.
  - destruct (Item.itemId item =? Item.itemId it)%Z eqn:E; [|by apply IH].
    apply Z.eqb_eq in E. exfalso. apply Hni. rewrite <- E. apply list_elem_of_In. by apply in_map.
Qed.

(** ** Theorems *)


(** C35: The edit panel has no form validation of its own: with a user
    and a selected category and campus that are found, "Save Changes"
    sends the edit whatever the title, the description and the date are,
    the empty string included. *)
Theorem edit_sends_unvalidated_fields (u : User.t) (categories : list category)
    (departments : list department) (itemId : Z) (r : report_response) (rr : refresh_response)
    (p : report_page) (c : category) (d : department) :
  truthy_str (f_categoryId (editFormData p)) = true ->
  truthy_str (f_departmentId (editFormData p)) = true ->
  find_category categories (f_categoryId (editFormData p)) = Some c ->
  find_department departments (f_departmentId (editFormData p)) = Some d ->
  snd (handle_update (Some u) categories departments itemId r rr p) =
    Some (report_payload_of (editFormData p) u c d).
Proof.
  intros Hct Hdt Hc Hd. unfold handle_update.
  assert (E : check_selection (Some u) categories departments (editFormData p)
                "You must be logged in to update items!" (report_payload_of (editFormData p)) =
              Send (report_payload_of (editFormData p) u c d) d)
    by (apply check_selection_send; eauto 10).
  by rewrite E.
Qed.

(** A confirmed delete that the server accepts removes exactly the
    items with that id from the list, keeping the others in order; a
    refused or failed delete, or a cancelled confirmation, keeps the list. *)
Theorem delete_removes_exactly (id : Z) (confirmed : bool) (r : delete_response)
    (p : report_page) :
  let p' := handle_delete id confirmed r p in
  (confirmed = true -> r = DeleteOk ->
     reportedItems p' = List.filter (fun item => negb (Item.itemId item =? id)%Z) (reportedItems p) /\
     forall item, In item (reportedItems p') <-> In item (reportedItems p) /\ Item.itemId item <> id) /\
  (confirmed = false \/ r <> DeleteOk -> reportedItems p' = reportedItems p).
Proof.
  simpl. unfold handle_delete. split.
  - intros -> ->. simpl. split; [done|]. intros item.
    rewrite filter_In, negb_true_iff, Z.eqb_neq. done.
  - intros [-> | Hr]; [done|]. destruct confirmed; [|done]. simpl.
    destruct r; [by destruct Hr | done | done].
Qed.

(** After a successful report the list shown is the server's fresh
    list when the refresh succeeds, and the created item prepended to the
    previous list when it does not; the form is reset either way. *)
Theorem report_success_list (u : User.t) (categories : list category)
    (departments : list department) (result : Item.t) (rr : refresh_response)
    (today : string) (p : report_page) (payload : report_payload) :
  snd (handle_submit (Some u) categories departments (ReportOk (Some result)) rr today p) =
    Some payload ->
  let p' := fst (handle_submit (Some u) categories departments (ReportOk (Some result)) rr today p) in
  formData p' = empty_form today /\
  reportedItems p' = match rr with
                     | RefreshOk (Some items) => items
                     | RefreshOk None => []
                     | RefreshNotOk | RefreshThrows => result :: reportedItems p
                     end.
Proof.
  unfold handle_submit. destruct (check_selection _ _ _ _ _ _); [done|]. intros _. simpl.
  split; [done|]. destruct rr as [[items|]| |]; done.
Qed.

(** C23: Saving the edit panel without changing anything sends back the
    item's own title, description, category, campus and date (its first
    ten characters), with the status upper-cased, the campus's name as
    location, and no image: [imageUrl] is sent empty. *)
Theorem edit_unchanged_roundtrip (item : Item.t) (u : User.t) (cats : list category)
    (deps : list department) (cat : category) (dep : department) (itemId : Z)
    (today : string) (r : report_response) (rr : refresh_response) (p : report_page) :
  Item.categoryId item = Some (categoryId cat) -> In cat cats -> categoryId cat <> 0%Z ->
  Item.departmentId item = Some (depId dep) -> In dep deps -> depId dep <> 0%Z ->
  exists pl dep', snd (handle_update (Some u) cats deps itemId r rr (handle_edit_click item today p)) = Some pl /\
    In dep' deps /\ depId dep' = depId dep /\
    pl = mkPayload (or_empty (Item.itemTitle item)) (or_empty (Item.itemDesc item)) (depName dep')
                   (to_upper (or_empty (Item.status item))) (User.userId u) (categoryId cat)
                   (depId dep) (edit_date item today) None.
Proof.
  intros Hc Hcin Hc0 Hd Hdin Hd0.
  destruct (find_by_pretty categoryId cats cat Hcin) as (cat' & Hfc & _ & Hkc).
  destruct (find_by_pretty depId deps dep Hdin) as (dep' & Hfd & Hdin' & Hkd).
  exists (report_payload_of (edit_form_of item today) u cat' dep'), dep'.
  assert (Hcs : check_selection (Some u) cats deps (edit_form_of item today)
                  "You must be logged in to update items!" (report_payload_of (edit_form_of item today))
                = Send (report_payload_of (edit_form_of item today) u cat' dep') dep').
  { assert (Ht : forall z : Z, z <> 0%Z -> truthy_Z (Some z) = true)
      by (intros z Hz; simpl; by apply negb_true_iff, Z.eqb_neq).
    apply check_selection_send. unfold edit_form_of. rewrite Hc, Hd, (Ht _ Hc0), (Ht _ Hd0).
    simpl. rewrite !pretty_Z_nonempty.
    do 2 (split; [done|]). eauto 10. }
  split.
  { unfold handle_update.
    change (editFormData (handle_edit_click item today p)) with (edit_form_of item today).
    by rewrite Hcs. }
  split; [done|]. split; [done|].
  unfold report_payload_of, edit_form_of, edit_date. simpl. by rewrite Hkc, Hkd.
Qed.

(** Edit mode is exclusive: with distinct item ids, "Edit" on one of
    the listed items turns exactly that row into the edit form, and
    "Cancel" turns every row back. *)
Theorem edit_mode_single_row (item : Item.t) (today : string) (p : report_page) :
  NoDup (List.map Item.itemId (reportedItems p)) -> In item (reportedItems p) ->
  exists rows, report_panel "list" false (handle_edit_click item today p) = PanelRows rows /\
    List.filter row_is_editing rows = [RowEditing (Item.itemId item)] /\
    exists rows', report_panel "list" false (handle_cancel_edit (handle_edit_click item today p)) = PanelRows rows' /\
      List.filter row_is_editing rows' = [].
Proof.
  intros Hnd Hin. assert (Hne : reportedItems p <> []) by (intros E; by rewrite E in Hin).
  eexists. split; [by apply report_panel_list|]. split.
  - simpl. rewrite editing_rows, filter_unique_id by done. reflexivity.
  - eexists. split; [by apply report_panel_list|]. apply no_editing_rows.
Qed.

(** ** Witnesses: the design's scenario *)

Definition reporter_a : User.t :=
  User.mk (Some 4%Z) (Some "amy") (Some "amy@uni.edu") (Some "USER") (Some "Amy") None None.
Definition bags : category := mkCategory 1 "Bags".
Definition main_campus : department := mkDepartment 3 "Main Campus".
Definition backpack_form : report_form :=
  mkForm "Blue Backpack" "Blue, two pockets" "1" "3" "FOUND" "2025-01-10" None.
Definition page_with (f : report_form) : report_page := mkPage [] f None (empty_form "2025-01-10") no_message.
Definition created : Item.t :=
  Item.mk 20 (Some "Blue Backpack") (Some "Blue, two pockets") (Some "Main Campus") (Some "Bags")
          (Some FOUND) (Some 4%Z) (Some 1%Z) (Some 3%Z) (Some "2025-01-10").


Definition blank_edit_page : report_page :=
  mkPage [created] backpack_form (Some 20%Z) (mkForm "" "" "1" "3" "FOUND" "" None) no_message.

Lemma edit_sends_unvalidated_fields_witness :
  find_category [bags] "1" = Some bags /\
  snd (handle_update (Some reporter_a) [bags] [main_campus] 20 (ReportOk (Some created)) RefreshThrows
         blank_edit_page)
    = Some (report_payload_of (editFormData blank_edit_page) reporter_a bags main_campus).
Proof.
  split; [vm_compute; reflexivity|].
  apply (edit_sends_unvalidated_fields reporter_a [bags] [main_campus] 20
           (ReportOk (Some created)) RefreshThrows blank_edit_page bags main_campus);
    vm_compute; reflexivity.
Defined.

Lemma report_success_list_witness :
  snd (handle_submit (Some reporter_a) [bags] [main_campus] (ReportOk (Some created)) RefreshThrows
         "2025-01-11" (page_with backpack_form)) =
    Some (report_payload_of backpack_form reporter_a bags main_campus) /\
  reportedItems (fst (handle_submit (Some reporter_a) [bags] [main_campus] (ReportOk (Some created))
                        RefreshThrows "2025-01-11" (page_with backpack_form))) = [created].
Proof.
  assert (H : snd (handle_submit (Some reporter_a) [bags] [main_campus] (ReportOk (Some created))
                     RefreshThrows "2025-01-11" (page_with backpack_form)) =
                Some (report_payload_of backpack_form reporter_a bags main_campus))
    by (vm_compute; reflexivity).
  split; [exact H|].
  destruct (report_success_list reporter_a [bags] [main_campus] created RefreshThrows "2025-01-11"
              (page_with backpack_form) _ H) as [_ ->].
  reflexivity.
Defined.

Definition found_backpack : Item.t :=
  Item.mk 12 (Some "Blue Backpack") (Some "Navy, two pockets") (Some "Main Campus") (Some "Bags")
          (Some "FOUND") (Some 2%Z) (Some 1%Z) (Some 3%Z) (Some "2025-01-10T08:00:00").

Lemma edit_unchanged_roundtrip_witness :
  exists pl dep', snd (handle_update (Some reporter_a) [bags] [main_campus] 12 (ReportOk None) RefreshNotOk
                         (handle_edit_click found_backpack "2025-02-01" blank_edit_page)) = Some pl /\
    In dep' [main_campus] /\ depId dep' = depId main_campus /\
    pl = mkPayload "Blue Backpack" "Navy, two pockets" (depName dep') "FOUND" (User.userId reporter_a) 1 3
                   "2025-01-10" None.
Proof.
  apply (edit_unchanged_roundtrip found_backpack reporter_a [bags] [main_campus] bags main_campus 12
           "2025-02-01" (ReportOk None) RefreshNotOk blank_edit_page);
    (reflexivity || (simpl; tauto) || discriminate).
Defined.
