(* ===== verification/AdminDashboard.v ===== *)
(** * The admin dashboard as a state machine

    [pages/AdminDashboard/AdminDashboard.js]: the lists of items and
    claims, the [loading] flag both list fetches share, the active tab,
    the status filter, the details modal, and the requests in flight.
    Every [fetch] is split at its [await]: issuing it adds a [request] to
    [pending], and its answer, which may come in any order, is an event
    [Settle i r] that runs the rest of the handler.  The answer of
    [response.json()] is kept as JSON: an array, [null], or another
    value (an error object), because [setItems(data)] stores whatever the
    server sent and the next render reads it with [.length], [.filter]
    and [.map].  A render that throws is [None]; the page is then blank
    and no button exists. *)

From stdpp Require Import base strings list relations.
From Stdlib Require Import String ZArith Lia Relations Wellfounded.
From S2P Require Import Prelude Model Items Claims.

Local Open Scope js_scope.

(** ** Data *)

(** The two values of [activeTab]: 'items' and 'claims'. *)
Inductive tab := TabItems | TabClaims.

(** A handler waiting for its [fetch]. *)
Inductive request :=
  | RqItems                                   (** [fetchItems]: GET /api/items *)
  | RqClaims                                  (** [fetchClaims]: GET /api/claims *)
  | RqItemStatus (itemId : Z) (newStatus : string)  (** [updateItemStatus] *)
  | RqVerify (claimId : Z) (verified : bool).       (** [updateClaimStatus] *)

#[export] Instance request_eq_dec : EqDecision request.
Proof. solve_decision. Defined.

(** How a request ends: the JSON of a list, [response.ok] of a PUT, or
    a rejection ([fetch] or [response.json()] throws). *)
Inductive response :=
  | RespItems (v : json_list Item.t)
  | RespClaims (v : json_list Claim.t)
  | RespStatus (ok : bool)
  | RespRejected.

Record dash := mkDash {
  items : json_list Item.t;
  claims : json_list Claim.t;
  loading : bool;
  activeTab : tab;
  selectedItem : option Item.t;
  filterStatus : string;
  pending : list request;
  alerts : list string
}.

Definition set_items (v : json_list Item.t) (d : dash) : dash :=
  mkDash v (claims d) (loading d) (activeTab d) (selectedItem d) (filterStatus d) (pending d) (alerts d).
Definition set_claims (v : json_list Claim.t) (d : dash) : dash :=
  mkDash (items d) v (loading d) (activeTab d) (selectedItem d) (filterStatus d) (pending d) (alerts d).
Definition set_loading (b : bool) (d : dash) : dash :=
  mkDash (items d) (claims d) b (activeTab d) (selectedItem d) (filterStatus d) (pending d) (alerts d).
Definition set_view (t : tab) (f : string) (d : dash) : dash :=
  mkDash (items d) (claims d) (loading d) t (selectedItem d) f (pending d) (alerts d).
Definition set_selected (o : option Item.t) (d : dash) : dash :=
  mkDash (items d) (claims d) (loading d) (activeTab d) o (filterStatus d) (pending d) (alerts d).
Definition set_pending (ps : list request) (d : dash) : dash :=
  mkDash (items d) (claims d) (loading d) (activeTab d) (selectedItem d) (filterStatus d) ps (alerts d).
Definition alert (msg : string) (d : dash) : dash :=
  mkDash (items d) (claims d) (loading d) (activeTab d) (selectedItem d) (filterStatus d) (pending d)
         (alerts d ++ [msg]).

(** ** Handlers up to their await *)

(** A fetch is sent: [setLoading(true)] for the list fetches. *)
Definition send (rq : request) (d : dash) : dash := set_pending (pending d ++ [rq]) d.

Definition fetch_items (d : dash) : dash := send RqItems (set_loading true d).
Definition fetch_claims (d : dash) : dash := send RqClaims (set_loading true d).

(** The first render and the mount effect [fetchItems()]. *)
Definition dash_init : dash := mkDash (JArray []) (JArray []) true TabItems None "all" [] [].
Definition dash_mount : dash := fetch_items dash_init.

(** [handleTabChange(tab)] *)
Definition handle_tab_change (t : tab) (d : dash) : dash :=
  let d1 := set_view t "all" d in
  match t with TabClaims => fetch_claims d1 | TabItems => fetch_items d1 end.

(** The filter buttons of each tab. *)
Definition filters_of (t : tab) : list string :=
  match t with
  | TabItems => ["all"; LOST; FOUND; CLAIMED; RETURNED]
  | TabClaims => ["all"; "pending"; "verified"]
  end.

(** ** The rest of each handler, when its request settles *)

Definition answer (rq : request) (r : response) (d : dash) : option dash :=
  match rq, r with
  | RqItems, RespItems v => Some (set_loading false (set_items v d))
  | RqClaims, RespClaims v => Some (set_loading false (set_claims v d))
  | (RqItems | RqClaims), RespRejected => Some (set_loading false d)
  | RqItemStatus _ _, RespStatus true => Some (set_selected None (fetch_items d))
  | RqVerify _ _, RespStatus true => Some (fetch_claims d)
  | (RqItemStatus _ _ | RqVerify _ _), RespStatus false => Some d
  | RqItemStatus _ _, RespRejected => Some (alert "Error updating item" d)
  | RqVerify _ _, RespRejected => Some (alert "Error updating claim" d)
  | _, _ => None
  end.

(** The [i]-th request in flight settles with [r]. *)
Definition settle (i : nat) (r : response) (d : dash) : option dash :=
  match pending d !! i with
  | Some rq => answer rq r (set_pending (delete i (pending d)) d)
  | None => None
  end.

(** ** Rendering *)

(** [filteredItems]: [items.filter] throws on a value that is not an array. *)
Definition filtered_items_js (d : dash) : option (json_list Item.t) :=
  if filterStatus d === "all" then Some (items d)
  else match items d with
       | JArray l => Some (JArray (admin_filtered_items (filterStatus d) l))
       | _ => None
       end.

(** [filteredClaims]: only 'pending' and 'verified' call [claims.filter]. *)
Definition filtered_claims_js (d : dash) : option (json_list Claim.t) :=
  if filterStatus d === "all" then Some (claims d)
  else if (filterStatus d === "pending") || (filterStatus d === "verified") then
    match claims d with
    | JArray l => Some (JArray (admin_filtered_claims (filterStatus d) l))
    | _ => None
    end
  else Some (claims d).

Inductive body :=
  | BodyLoading
  | NoItems | ItemCards (l : list Item.t)
  | NoClaims | ClaimCards (l : list Claim.t).

(** [list.length === 0 ? ... : list.map(...)]: [null.length] and
    [.map] of a non-array throw. *)
Definition list_body {A} (v : json_list A) (none : body) (cards : list A -> body) : option body :=
  match v with
  | JArray [] => Some none
  | JArray l => Some (cards l)
  | JNull | JObject => None
  end.

Definition json_has_length {A} (v : json_list A) : bool :=
  match v with JNull => false | _ => true end.

(** The render: the tab labels read [items.length] and [claims.length];
    then the spinner, or the active tab's list. *)
Definition render (d : dash) : option body :=
  if negb (json_has_length (items d) && json_has_length (claims d)) then None else
  match filtered_items_js d, filtered_claims_js d with
  | Some fi, Some fc =>
      if loading d then Some BodyLoading
      else match activeTab d with
           | TabItems => list_body fi NoItems ItemCards
           | TabClaims => list_body fc NoClaims ClaimCards
           end
  | _, _ => None
  end.

(** [getStatusIcon] and [getStatusBadge]: a [switch] on the status
    (strict equality), shown on every card and in the modal. *)
Inductive status_icon := IconCheckCircle | IconCheck | IconClock.

Definition getStatusIcon (status : option string) : status_icon :=
  match status with
  | Some s => if (s === CLAIMED) || (s === "verified") then IconCheckCircle
              else if s === RETURNED then IconCheck else IconClock
  | None => IconClock
  end.

(** "✓ Claimed/Verified", "✓ Returned", "● Lost", "● Found", "⏱ Pending". *)
Inductive status_badge := BadgeClaimed | BadgeReturned | BadgeLost | BadgeFound | BadgePending.

Definition getStatusBadge (status : option string) : status_badge :=
  match status with
  | Some s => if (s === CLAIMED) || (s === "verified") then BadgeClaimed
              else if s === RETURNED then BadgeReturned
              else if s === LOST then BadgeLost
              else if s === FOUND then BadgeFound else BadgePending
  | None => BadgePending
  end.

(** The item details modal while [selectedItem] is set: its title, its
    badge and its two status buttons (the same guard as the cards). *)
Record modal_view := mkModal {
  m_title : option string; m_badge : status_badge; m_status_buttons : list string
}.

Definition modal_of (d : dash) : option modal_view :=
  (fun it => mkModal (Item.itemTitle it) (getStatusBadge (Item.status it)) (status_actions (Item.status it)))
    <$> selectedItem d.

(** ** The admin's actions *)

Inductive dash_event :=
  | TabChange (t : tab)
  | SetFilter (f : string)
  | ViewItem (it : Item.t)                         (** "View" on a card *)
  | CloseModal
  | CardStatus (it : Item.t) (newStatus : string)  (** "Approve" / "Return" on a card *)
  | ModalStatus (newStatus : string)               (** the modal's two buttons *)
  | VerifyClaim (c : Claim.t) (verified : bool)    (** "Approve Claim" / "Reject Claim" *)
  | Settle (i : nat) (r : response).

(** The overlay, the "✕" and the "Close" button: [setSelectedItem(null)]. *)
Definition close_modal (d : dash) : option dash :=
  match selectedItem d with Some _ => Some (set_selected None d) | None => None end.

(** "Mark as Claimed" / "Mark as Returned": [updateItemStatus(selectedItem.itemId, ...)]. *)
Definition modal_status_click (st : string) (d : dash) : option dash :=
  match selectedItem d with
  | Some it => if bool_decide (st ∈ status_actions (Item.status it))
               then Some (send (RqItemStatus (Item.itemId it) st) d) else None
  | None => None
  end.

(** A click needs its button on screen: the tabs always, a filter of the
    active tab, a card's buttons on the shown list, the modal's while it
    is open. *)
Definition click (e : dash_event) (b : body) (d : dash) : option dash :=
  match e with
  | TabChange t => Some (handle_tab_change t d)
  | SetFilter f => if bool_decide (f ∈ filters_of (activeTab d)) then Some (set_view (activeTab d) f d) else None
  | ViewItem it =>
      match b with ItemCards l => if bool_decide (it ∈ l) then Some (set_selected (Some it) d) else None
                 | _ => None end
  | CloseModal => close_modal d
  | CardStatus it st =>
      match b with
      | ItemCards l =>
          if bool_decide (it ∈ l) && bool_decide (st ∈ status_actions (Item.status it))
          then Some (send (RqItemStatus (Item.itemId it) st) d) else None
      | _ => None
      end
  | ModalStatus st => modal_status_click st d
  | VerifyClaim c v =>
      match b with
      | ClaimCards l =>
          if bool_decide (c ∈ l) && bool_decide (v ∈ admin_claim_actions c)
          then Some (send (RqVerify (Claim.claimId c) v) d) else None
      | _ => None
      end
  | Settle _ _ => None
  end.

Arguments click : simpl never.

Definition dash_step (e : dash_event) (d : dash) : option dash :=
  match e with
  | Settle i r => settle i r d
  | _ => match render d with Some b => click e b d | None => None end
  end.

Fixpoint dash_run (es : list dash_event) (d : dash) : option dash :=
  match es with
  | [] => Some d
  | e :: es' => match dash_step e d with Some d' => dash_run es' d' | None => None end
  end.

Inductive dash_reachable : dash -> Prop :=
  | dash_reachable_mount : dash_reachable dash_mount
  | dash_reachable_step (e : dash_event) (d d' : dash) :
      dash_reachable d -> dash_step e d = Some d' -> dash_reachable d'.

(** One request settles. *)
Definition settles (d' d : dash) : Prop := exists i r, settle i r d = Some d'.

(** What a pending request still costs: a status update first triggers
    a reload. *)
Definition weight (rq : request) : nat :=
  match rq with RqItems | RqClaims => 1 | RqItemStatus _ _ | RqVerify _ _ => 2 end.

Definition dash_measure (d : dash) : nat := sum_list_with weight (pending d).

(** The dashboard's invariant: the spinner is up only while a list
    fetch is in flight, and the filter is one the active tab offers. *)
Definition dash_inv (d : dash) : Prop :=
  (loading d = true -> RqItems ∈ pending d \/ RqClaims ∈ pending d) /\
  filterStatus d ∈ filters_of (activeTab d).

(** ** Lemmas *)

Lemma sum_list_with_delete {A} (f : A -> nat) (l : list A) (i : nat) (x : A) :
  l !! i = Some x -> (sum_list_with f (delete i l) + f x = sum_list_with f l)%nat.
Proof.
  revert i. induction l as [|y l IH]; intros [|i] H; simpl in *; try done.
  - injection H as ->. lia.
  - specialize (IH i H). lia.
Qed.

Lemma elem_of_delete_other {A} (l : list A) (i : nat) (x y : A) :
  x ∈ l -> l !! i = Some y -> x <> y -> x ∈ delete i l.
Proof.
  revert i. induction l as [|z l IH]; intros [|i] Hx Hi Hne; simpl in *; try done.
  - injection Hi as ->. apply elem_of_cons in Hx as [->|Hx]; [done | exact Hx].
  - apply elem_of_cons in Hx as [->|Hx]; [apply elem_of_cons; by left|].
    apply elem_of_cons. right. by apply (IH i).
Qed.

Lemma settle_inv_cases (i : nat) (r : response) (d d' : dash) :
  settle i r d = Some d' ->
  exists rq, pending d !! i = Some rq /\ answer rq r (set_pending (delete i (pending d)) d) = Some d'.
Proof. unfold settle. destruct (pending d !! i) as [rq|]; [eauto | done]. Qed.

(** Every answer keeps the view, and either ends a list fetch, starts a
    reload, or leaves the spinner and the requests as they were. *)
Lemma answer_cases (rq : request) (r : response) (d d' : dash) :
  answer rq r d = Some d' ->
  activeTab d' = activeTab d /\ filterStatus d' = filterStatus d /\
  ((rq = RqItems \/ rq = RqClaims) /\ loading d' = false /\ pending d' = pending d \/
   loading d' = true /\ (pending d' = pending d ++ [RqItems] \/ pending d' = pending d ++ [RqClaims]) /\
     weight rq = 2 \/
   loading d' = loading d /\ pending d' = pending d /\ weight rq = 2).
Proof.
  destruct rq, r as [v|v|[]|]; simpl; intros H; try discriminate; injection H as <-; simpl;
    (split; [done|]); (split; [done|]);
    first [ left; split; [auto | split; reflexivity]
          | right; left; split; [reflexivity | split; [auto | reflexivity]]
          | right; right; split; [reflexivity | split; reflexivity] ].
Qed.

Lemma answer_measure (rq : request) (r : response) (d d' : dash) :
  answer rq r d = Some d' -> (dash_measure d' + 1 <= dash_measure d + weight rq)%nat.
Proof.
  intros (_ & _ & H)%answer_cases. unfold dash_measure.
  destruct H as [([-> | ->] & _ & ->) | [(_ & [-> | ->] & ->) | (_ & -> & ->)]];
    rewrite ?sum_list_with_app; simpl; lia.
Qed.

Lemma settle_decreases (i : nat) (r : response) (d d' : dash) :
  settle i r d = Some d' -> (dash_measure d' < dash_measure d)%nat.
Proof.
  intros (rq & Hi & Ha)%settle_inv_cases. apply answer_measure in Ha.
  pose proof (sum_list_with_delete weight (pending d) i rq Hi).
  unfold dash_measure in *. simpl in Ha. destruct rq; simpl in *; lia.
Qed.

Lemma send_inv (rq : request) (d : dash) : dash_inv d -> dash_inv (send rq d).
Proof.
  intros [Hl Hf]. split; [|done]. simpl. intros H.
  destruct (Hl H); [left | right]; apply elem_of_app; by left.
Qed.

Lemma selected_inv (o : option Item.t) (d : dash) : dash_inv d -> dash_inv (set_selected o d).
Proof. done. Qed.

Lemma fetch_inv (d : dash) :
  filterStatus d ∈ filters_of (activeTab d) -> dash_inv (fetch_items d) /\ dash_inv (fetch_claims d).
Proof.
  intros Hf. split; (split; [|done]); intros _; simpl; [left | right];
    apply elem_of_app; right; apply list_elem_of_singleton; done.
Qed.

#[export] Hint Resolve send_inv selected_inv : wf.

Lemma settle_inv (i : nat) (r : response) (d d' : dash) :
  dash_inv d -> settle i r d = Some d' -> dash_inv d'.
Proof.
  intros [Hl Hf] (rq & Hi & Ha)%settle_inv_cases.
  destruct (answer_cases _ _ _ _ Ha) as (Ht & Hf' & H). simpl in Ht, Hf'.
  destruct H as [(_ & Hl' & _) | [(Hl' & [Hp | Hp] & _) | (Hl' & Hp & Hw)]];
    (split; [|by rewrite Hf', Ht]); intros Hload.
  - congruence.
  - left. rewrite Hp. apply elem_of_app. right. by apply list_elem_of_singleton.
  - right. rewrite Hp. apply elem_of_app. right. by apply list_elem_of_singleton.
  - simpl in Hl', Hp. rewrite Hp. rewrite Hl' in Hload.
    destruct (Hl Hload) as [H | H]; [left | right];
      (eapply elem_of_delete_other; [exact H | exact Hi |]); intros Heq; rewrite <- Heq in Hw; discriminate.
Qed.

Lemma click_inv (e : dash_event) (b : body) (d d' : dash) :
  dash_inv d -> click e b d = Some d' -> dash_inv d'.
Proof.
  intros Hinv. unfold click, close_modal, modal_status_click. destruct e; simpl.
  - intros [= <-]. unfold handle_tab_change.
    destruct t; apply fetch_inv; simpl; apply elem_of_cons; by left.
  - case_bool_decide; intros; simplify_eq. destruct Hinv as [Hl _]. by split.
  - destruct b; try done. case_bool_decide; intros; simplify_eq. auto with wf.
  - destruct (selectedItem d); intros; simplify_eq. auto with wf.
  - destruct b; try done. destruct (bool_decide _ && bool_decide _); intros; simplify_eq. auto with wf.
  - destruct (selectedItem d); [|done]. case_bool_decide; intros; simplify_eq. auto with wf.
  - destruct b; try done. destruct (bool_decide _ && bool_decide _); intros; simplify_eq. auto with wf.
  - done.
Qed.

Lemma step_dash_inv (e : dash_event) (d d' : dash) :
  dash_inv d -> dash_step e d = Some d' -> dash_inv d'.
Proof.
  intros Hinv. destruct e; simpl; [..|by apply settle_inv].
  all: destruct (render d) as [b|]; [|done]; by apply click_inv.
Qed.

Lemma settle_reject_head (d : dash) (rq : request) (ps : list request) :
  pending d = rq :: ps -> exists d', settle 0 RespRejected d = Some d' /\ pending d' = ps.
Proof. intros H. unfold settle. rewrite H. destruct rq; simpl; eexists; split; reflexivity. Qed.

Lemma dash_reachable_inv (d : dash) : dash_reachable d -> dash_inv d.
Proof.
  induction 1 as [|e d d' _ IH Hs]; [|by eapply step_dash_inv].
  apply fetch_inv. simpl. apply elem_of_cons. by left.
Qed.

(** ** Theorems *)

(** C12: In every state the dashboard can reach, the "Loading data..."
    spinner is up only while a list fetch ([fetchItems] or
    [fetchClaims]) is in flight, and the active filter is one of the
    buttons the active tab offers. *)
Theorem dash_invariant (d : dash) :
  dash_reachable d ->
  (loading d = true -> RqItems ∈ pending d \/ RqClaims ∈ pending d) /\
  filterStatus d ∈ filters_of (activeTab d).
Proof. apply dash_reachable_inv. Qed.

(** C14: The requests of the dashboard always settle: no infinite
    sequence of answers exists, although a successful status change
    starts a new fetch (each answer lowers the weight of the requests in
    flight, counting an update twice). *)
Theorem dash_settle_terminates : well_founded settles.
Proof.
  apply (wf_incl _ _ (ltof _ dash_measure)); [|apply well_founded_ltof].
  intros d' d (i & r & H). unfold ltof. by eapply settle_decreases.
Qed.

(** C31: From every reachable state the requests in flight can all
    settle, and once none is left the spinner is gone. *)
Theorem dash_requests_drain (d : dash) :
  dash_reachable d ->
  exists d', rtc (fun x y => settles y x) d d' /\ dash_reachable d' /\
             pending d' = [] /\ loading d' = false.
Proof.
  remember (List.length (pending d)) as n eqn:Hn. revert d Hn.
  induction n as [|n IH]; intros d Hn Hr.
  - destruct (pending d) eqn:Hp; [|done].
    exists d. split; [apply rtc_refl|]. split; [done|]. split; [done|].
    destruct (dash_reachable_inv d Hr) as [Hl _]. rewrite Hp in Hl.
    destruct (loading d); [|done]. destruct (Hl eq_refl) as [H|H]; by apply elem_of_nil in H.
  - destruct (pending d) as [|rq ps] eqn:Hp; [done|].
    destruct (settle_reject_head d rq ps Hp) as (d1 & Hs & Hp1).
    assert (Hr1 : dash_reachable d1) by (apply (dash_reachable_step (Settle 0 RespRejected) d); done).
    destruct (IH d1 ltac:(rewrite Hp1; simpl in Hn; lia) Hr1) as (d' & Hrtc & Hr' & Hp' & Hl').
    exists d'. split; [|done]. eapply rtc_l; [exists 0, RespRejected; exact Hs | exact Hrtc].
Qed.



(** C17: [fetchItems] stores whatever JSON the server answers: an error
    object from /api/items makes the next render of the Items tab throw
    (its [.map]), which blanks the dashboard and leaves no button to
    click. *)
Theorem dash_error_body_crashes (d d' : dash) (i : nat) :
  pending d !! i = Some RqItems -> activeTab d = TabItems ->
  settle i (RespItems JObject) d = Some d' ->
  render d' = None /\ (forall e, (forall j r, e <> Settle j r) -> dash_step e d' = None).
Proof.
  intros Hi Ht Hs. unfold settle in Hs. rewrite Hi in Hs. injection Hs as <-.
  assert (Hr : render (set_loading false (set_items JObject (set_pending (delete i (pending d)) d))) = None).
  { unfold render, filtered_items_js. simpl. rewrite Ht.
    destruct (json_has_length (claims d)); simpl; [|done].
    destruct (filterStatus d === "all"); [|done]. by destruct (filtered_claims_js _). }
  split; [exact Hr|]. intros e He.
  destruct e; try (exfalso; by eapply He). all: unfold dash_step; by rewrite Hr.
Qed.

(** The badge and the buttons agree: an item (of any status but the
    "verified" that the badge also accepts) is offered "Approve" and
    "Return", on its card and in the modal, exactly when its badge is not
    one of the two ticked ones. *)
Theorem badge_ticked_iff_no_buttons (status : option string) :
  status <> Some "verified" ->
  status_actions status = [] <-> getStatusBadge status = BadgeClaimed \/ getStatusBadge status = BadgeReturned.
Proof.
  intros Hv. destruct status as [s|]; [|simpl; split; [discriminate | intros [H | H]; discriminate]].
  assert (E : (s === "verified") = false) by (apply js_eqb_false; congruence).
  unfold status_actions, getStatusBadge, status_is. rewrite E, orb_false_r.
  destruct (s === CLAIMED), (s === RETURNED), (s === LOST), (s === FOUND); simpl;
    (split; [intros H; (discriminate H || (left; reflexivity) || (right; reflexivity))
            | intros [H | H]; (discriminate H || reflexivity)]).
Qed.

(** ** Witnesses *)

Lemma dash_invariant_witness :
  dash_reachable dash_mount /\ loading dash_mount = true /\
  (RqItems ∈ pending dash_mount \/ RqClaims ∈ pending dash_mount).
Proof.
  assert (H : dash_reachable dash_mount) by constructor.
  split; [exact H|]. split; [reflexivity|]. apply (proj1 (dash_invariant dash_mount H)). reflexivity.
Defined.

Lemma dash_requests_drain_witness :
  dash_reachable dash_mount /\
  exists d', rtc (fun x y => settles y x) dash_mount d' /\ dash_reachable d' /\
             pending d' = [] /\ loading d' = false.
Proof.
  assert (H : dash_reachable dash_mount) by constructor.
  split; [exact H|]. exact (dash_requests_drain dash_mount H).
Defined.

Lemma dash_error_body_crashes_witness :
  pending dash_mount !! 0 = Some RqItems /\ activeTab dash_mount = TabItems /\
  exists d', settle 0 (RespItems JObject) dash_mount = Some d' /\ render d' = None.
Proof.
  split; [reflexivity|]. split; [reflexivity|].
  eexists. split; [reflexivity|].
  apply (proj1 (dash_error_body_crashes dash_mount _ 0 ltac:(reflexivity) ltac:(reflexivity)
                 ltac:(reflexivity))).
Defined.
