(* ===== verification/Profile.v ===== *)
(** * The profile page

    [pages/Profile/Profile.js] without its logout (which [Session.v]
    models with the session): the reports effect, which asks for the
    user's items and then for the user's claims before it filters the
    items, and what the page renders from the context's [loading], the
    identity and its own state.  The identity's name, initials, e-mail
    and role come from [Display.v]. *)

From stdpp Require Import base strings list.
From Stdlib Require Import String ZArith.
From S2P Require Import Prelude Model Items Display.

Local Open Scope js_scope.

(** ** State *)

Record profile_page := mkProfile {
  activeTab : string;                       (** "active" or "claimed" *)
  activeReports : list Item.t;
  claimedReports : json_list Claim.t;       (** [setClaimedReports(claims)] stores the JSON *)
  loadingReports : bool
}.

Definition profile_init : profile_page := mkProfile "active" [] (JArray []) true.

Definition set_tab (t : string) (p : profile_page) : profile_page :=
  mkProfile t (activeReports p) (claimedReports p) (loadingReports p).

Definition end_loading (p : profile_page) : profile_page :=
  mkProfile (activeTab p) (activeReports p) (claimedReports p) false.

(** ** The reports effect *)

(** [fetchReports]: the two answers are [None] when the request or its
    [json()] rejects.  [items.filter] runs after both requests and throws
    on a non-array; every failure lands in the [catch], and the
    [finally] ends the loading state. *)
Definition fetch_reports (itemsAns : option (json_list Item.t)) (claimsAns : option (json_list Claim.t))
    (p : profile_page) : profile_page :=
  match itemsAns, claimsAns with
  | Some (JArray items), Some claims =>
      mkProfile (activeTab p) (active_reports items) claims false
  | _, _ => end_loading p
  end.

(** The effect on [[user]]: [if (!user || !user.userId) return]. *)
Definition reports_effect (user : option User.t) (itemsAns : option (json_list Item.t))
    (claimsAns : option (json_list Claim.t)) (p : profile_page) : profile_page :=
  match user with
  | Some u => if truthy_Z (User.userId u) then fetch_reports itemsAns claimsAns p else p
  | None => p
  end.

(** ** Rendering *)

Inductive reports_body :=
  | ReportsLoading                       (** "Loading..." *)
  | ActiveCards (l : list Item.t) | NoActive
  | ClaimCardsP (l : list Claim.t) | NoClaimed.

Inductive profile_view :=
  | ProfileLoadingUser                   (** "Loading user profile..." *)
  | ProfileToLogin                       (** [window.location.href = "/login"] *)
  | ProfileShown (name initials email role : string) (body : reports_body).

(** [claimedReports.length]: [null.length] throws. *)
Definition json_length {A} (v : json_list A) : option (option nat) :=
  match v with
  | JArray l => Some (Some (List.length l))
  | JNull => None
  | JObject => Some None                 (** [undefined] *)
  end.

(** The page; [None] when the render throws. *)
Definition profile_render (contextLoading : bool) (user : option User.t) (p : profile_page)
    : option profile_view :=
  if contextLoading then Some ProfileLoadingUser else
  match user with
  | None => Some ProfileToLogin
  | Some u =>
      match json_length (claimedReports p) with
      | None => None
      | Some _ =>
          let body :=
            if loadingReports p then ReportsLoading
            else if activeTab p === "active" then
              match activeReports p with [] => NoActive | l => ActiveCards l end
            else match claimedReports p with
                 | JArray (_ :: _ as l) => ClaimCardsP l
                 | _ => NoClaimed
                 end in
          Some (ProfileShown (profile_full_name u) (profile_initials u) (profile_display_email u)
                             (display_role (User.role u)) body)
      end
  end.

(** ** Theorems *)

(** After the reports effect the Profile page is out of its loading
    state whenever the identity has an id: with two answers of which the
    first is an array, "Active" lists exactly the LOST and FOUND reports
    in order and "Claimed" the claims answer; on any failure both lists
    are kept. *)
Theorem profile_reports_outcome (u : User.t) (ia : option (json_list Item.t))
    (ca : option (json_list Claim.t)) (p : profile_page) :
  truthy_Z (User.userId u) = true ->
  let p' := reports_effect (Some u) ia ca p in
  loadingReports p' = false /\ activeTab p' = activeTab p /\
  ((exists items claims, ia = Some (JArray items) /\ ca = Some claims /\
      activeReports p' = List.filter (fun it => status_is (Item.status it) LOST ||
                                                status_is (Item.status it) FOUND) items /\
      claimedReports p' = claims) \/
   (activeReports p' = activeReports p /\ claimedReports p' = claimedReports p)).
Proof.
  intros Hid. simpl. rewrite Hid. unfold fetch_reports.
  destruct ia as [[items| |]|], ca as [claims|]; simpl; (split; [done|]); (split; [done|]);
    try (right; split; reflexivity).
  left. eauto 6.
Qed.

(** An identity without a [userId] never gets its reports: the
    effect returns before any request, so the page keeps showing
    "Loading..." under the profile header for as long as it is open. *)
Theorem profile_without_id_loads_forever (u : User.t) (ia : option (json_list Item.t))
    (ca : option (json_list Claim.t)) :
  truthy_Z (User.userId u) = false ->
  exists n i e r,
    profile_render false (Some u) (reports_effect (Some u) ia ca profile_init) =
      Some (ProfileShown n i e r ReportsLoading).
Proof. intros Hid. simpl. rewrite Hid. simpl. eauto. Qed.

(** ** Witnesses *)

Definition anon_user : User.t := User.mk None (Some "kim@cit.edu") None None None None None.
Definition kim : User.t := User.mk (Some 5%Z) (Some "kim@cit.edu") None None (Some "Kim") None None.

Lemma profile_reports_outcome_witness :
  truthy_Z (User.userId kim) = true /\
  loadingReports (reports_effect (Some kim) None None profile_init) = false.
Proof.
  split; [reflexivity|].
  exact (proj1 (profile_reports_outcome kim None None profile_init ltac:(reflexivity))).
Defined.

Lemma profile_without_id_loads_forever_witness :
  truthy_Z (User.userId anon_user) = false /\
  exists n i e r,
    profile_render false (Some anon_user) (reports_effect (Some anon_user) None None profile_init) =
      Some (ProfileShown n i e r ReportsLoading).
Proof.
  split; [reflexivity|]. apply (profile_without_id_loads_forever anon_user None None). reflexivity.
Defined.
